(** * Lavial backend: booking lifecycle, pricing, availability and tickets

    A shallow embedding of the request handlers of the Lavial coach-ticketing
    backend (Express + Mongoose + Stripe, TypeScript) and the properties of
    its booking life cycle.

    - [src/controllers/bookingController.ts]: [normalizeTravelDate],
      [formatDateKey], [createBooking], [getBooking], [validatePromoCode];
    - the payment controller: [createPaymentSheet], [handleWebhook],
      [handlePaymentSuccess], [handlePaymentFailed];
    - [src/controllers/ticketController.ts]: [validateQRCode], [useTicket];
    - the route controller: [getCities], [getDestinations],
      [getStudentDiscount], [searchTrip], [addClosedDate],
      [removeClosedDate];
    - the Mongoose models (Route, Booking, Ticket, PromoCode) and the
      express-validator chains of the router.

    JavaScript numbers are IEEE-754 binary64 values ([spec_float] with
    precision 53), dates are time values in milliseconds since the epoch,
    Mongo collections are lists of documents in insertion order, and each
    handler is a function from the store (and what the host supplies: the
    clock, fresh uuids, the Stripe client) to the new store and the HTTP
    response. *)

From Stdlib Require Import ZArith Lia List Bool Ascii String SpecFloat.
From Stdlib Require Import Sorted Permutation.
Import ListNotations.

Local Open Scope Z_scope.

(* ================================================================== *)
(** * JavaScript numbers *)
(* ================================================================== *)

Module JS.

Definition prec : Z := 53.
Definition emax : Z := 1024.

(** A JavaScript [number]. *)
Definition Number : Type := spec_float.

Definition NaN : Number := S754_nan.
Definition Infinity : Number := S754_infinity false.

(** The number of an integer literal (exact below 2^53). *)
Definition ofZ (n : Z) : Number := binary_normalize prec emax n 0 false.

Definition add (x y : Number) : Number := SFadd prec emax x y.
Definition sub (x y : Number) : Number := SFsub prec emax x y.
Definition mul (x y : Number) : Number := SFmul prec emax x y.
Definition div (x y : Number) : Number := SFdiv prec emax x y.

(** A decimal literal [m / 10^k] with [m] and [10^k] below 2^53: the binary64
    value nearest to it, which is what the correctly rounded quotient is. *)
Definition decimal (m : Z) (k : Z) : Number := div (ofZ m) (ofZ (10 ^ k)).

(** [x < y], [x <= y], [x > y], [x >= y], [x === y]: all false on NaN. *)
Definition ltb (x y : Number) : bool := SFltb x y.
Definition leb (x y : Number) : bool := SFleb x y.
Definition gtb (x y : Number) : bool := SFltb y x.
Definition geb (x y : Number) : bool := SFleb y x.
Definition strictEq (x y : Number) : bool := SFeqb x y.

Definition isNaN (x : Number) : bool :=
  match x with S754_nan => true | _ => false end.

(** [Number.isFinite]. *)
Definition isFinite (x : Number) : bool :=
  match x with S754_zero _ | S754_finite _ _ _ => true | _ => false end.

Definition isPosZero (x : Number) : bool :=
  match x with S754_zero false => true | _ => false end.
Definition isNegZero (x : Number) : bool :=
  match x with S754_zero true => true | _ => false end.

(** ToBoolean on a number: false for +0, -0 and NaN. *)
Definition truthy (x : Number) : bool :=
  match x with S754_zero _ | S754_nan => false | _ => true end.

(** SameValueZero, the equality of [Array.prototype.includes]. *)
Definition SameValueZero (x y : Number) : bool :=
  (isNaN x && isNaN y) || strictEq x y.

(** [Math.max(a, b)] (ECMA-262 21.3.2.24): NaN if either is; +0 beats -0. *)
Definition Math_max (a b : Number) : Number :=
  if isNaN a || isNaN b then NaN
  else if ltb a b || (isPosZero b && isNegZero a) then b
  else a.

(** [Math.min(a, b)] (ECMA-262 21.3.2.25): NaN if either is; -0 beats +0. *)
Definition Math_min (a b : Number) : Number :=
  if isNaN a || isNaN b then NaN
  else if ltb b a || (isNegZero b && isPosZero a) then b
  else a.

Definition Math_abs (x : Number) : Number := SFabs x.

(** [Math.round(x)] (ECMA-262 21.3.2.28): the integral number closest to [x],
    ties towards +Infinity; zeros, infinities and NaN are returned as they are,
    and a result of zero keeps the sign of [x]. *)
Definition Math_round (x : Number) : Number :=
  match x with
  | S754_finite s m e =>
      if 0 <=? e then x
      else
        let k := - e in
        let n := (cond_Zopp s (2 * Z.pos m) + 2 ^ k) / 2 ^ (k + 1) in
        if n =? 0 then S754_zero s else ofZ n
  | _ => x
  end.

End JS.

Declare Scope js_scope.
Delimit Scope js_scope with js.
Bind Scope js_scope with JS.Number.
Infix "+" := JS.add : js_scope.
Infix "-" := JS.sub : js_scope.
Infix "*" := JS.mul : js_scope.
Infix "/" := JS.div : js_scope.
Infix "<?" := JS.ltb : js_scope.
Infix "<=?" := JS.leb : js_scope.
Infix ">?" := JS.gtb : js_scope.
Infix ">=?" := JS.geb : js_scope.
Infix "===" := JS.strictEq (at level 70, no associativity) : js_scope.

(** Numeric literals of the source. *)
Definition n0 : JS.Number := S754_zero false.
Definition n1 : JS.Number := JS.ofZ 1.
Definition n3 : JS.Number := JS.ofZ 3.
Definition n100 : JS.Number := JS.ofZ 100.
Definition n0_015 : JS.Number := JS.decimal 15 3.
Definition n0_01 : JS.Number := JS.decimal 1 2.

(* ================================================================== *)
(** * JavaScript strings (byte strings; ASCII case mapping and white space) *)
(* ================================================================== *)

Module Str.

Definition isDigit (c : ascii) : bool :=
  let n := Z.of_nat (nat_of_ascii c) in (48 <=? n) && (n <=? 57).

Definition digitValue (c : ascii) : option Z :=
  if isDigit c then Some (Z.of_nat (nat_of_ascii c) - 48) else None.

Definition digitChar (d : Z) : ascii := ascii_of_nat (Z.to_nat (48 + d)).

(** White space and line terminators of the ASCII range, what [trim] strips. *)
Definition isWhiteSpace (c : ascii) : bool :=
  let n := nat_of_ascii c in
  (Nat.eqb n 32 || Nat.eqb n 9 || Nat.eqb n 10 || Nat.eqb n 11
   || Nat.eqb n 12 || Nat.eqb n 13)%bool.

Fixpoint trimStart (l : list ascii) : list ascii :=
  match l with
  | c :: l' => if isWhiteSpace c then trimStart l' else l
  | [] => []
  end.

Definition trimEnd (l : list ascii) : list ascii := rev (trimStart (rev l)).

(** [s.trim()]. *)
Definition trim (s : string) : string :=
  string_of_list_ascii (trimEnd (trimStart (list_ascii_of_string s))).

Definition upperChar (c : ascii) : ascii :=
  let n := nat_of_ascii c in
  if (Nat.leb 97 n && Nat.leb n 122)%bool then ascii_of_nat (n - 32) else c.

Definition lowerChar (c : ascii) : ascii :=
  let n := nat_of_ascii c in
  if (Nat.leb 65 n && Nat.leb n 90)%bool then ascii_of_nat (n + 32) else c.

Fixpoint mapChars (f : ascii -> ascii) (s : string) : string :=
  match s with
  | EmptyString => EmptyString
  | String c s' => String (f c) (mapChars f s')
  end.

(** [s.toUpperCase()] and [s.toLowerCase()] on ASCII letters. *)
Definition toUpperCase (s : string) : string := mapChars upperChar s.
Definition toLowerCase (s : string) : string := mapChars lowerChar s.

(** ToBoolean on a string: the empty string is falsy. *)
Definition truthy (s : string) : bool :=
  match s with EmptyString => false | _ => true end.

(** [s.split(sep)[0]] for a one-character separator. *)
Fixpoint beforeFirst (sep : ascii) (s : string) : string :=
  match s with
  | EmptyString => EmptyString
  | String c s' => if Ascii.eqb c sep then EmptyString else String c (beforeFirst sep s')
  end.

(** [n] written in [width] decimal digits, zero padded ([0 <= n < 10^width]). *)
Fixpoint padDigits (width : nat) (n : Z) (acc : string) : string :=
  match width with
  | O => acc
  | S w => padDigits w (n / 10) (String (digitChar (n mod 10)) acc)
  end.

(** Reads exactly [n] decimal digits. *)
Fixpoint readDigits (n : nat) (acc : Z) (l : list ascii) : option (Z * list ascii) :=
  match n with
  | O => Some (acc, l)
  | S n' =>
      match l with
      | c :: l' =>
          match digitValue c with
          | Some d => readDigits n' (10 * acc + d) l'
          | None => None
          end
      | [] => None
      end
  end.

(** [/^\d{4}-\d{2}-\d{2}$/.test(s)]. *)
Definition isBareCalendarDate (s : string) : bool :=
  match list_ascii_of_string s with
  | [y1; y2; y3; y4; h1; m1; m2; h2; d1; d2] =>
      isDigit y1 && isDigit y2 && isDigit y3 && isDigit y4 && Ascii.eqb h1 "-"%char
      && isDigit m1 && isDigit m2 && Ascii.eqb h2 "-"%char && isDigit d1 && isDigit d2
  | _ => false
  end.

End Str.

(* ================================================================== *)
(** * What the host supplies *)
(* ================================================================== *)

(** The parts of the runtime and of the validator library that the handlers
    rely on and that are not part of the repository: the local time zone
    adjustment of ECMA-262 ([LocalTZA(t, isUTC)], in milliseconds), the
    engine's parser for date strings outside the ECMAScript date-time format,
    and validator.js' [isISO8601] and [isEmail]. *)
Class Host : Type := {
  LocalTZA : Z -> bool -> Z;
  legacyDateParse : string -> option Z;
  isISO8601 : string -> bool;
  isEmail : string -> bool
}.

(* ================================================================== *)
(** * JavaScript dates (ECMA-262, section 21.4.1) *)
(* ================================================================== *)

Module TimeValue.

Definition msPerDay : Z := 86400000.
Definition msPerHour : Z := 3600000.
Definition msPerMinute : Z := 60000.
Definition msPerSecond : Z := 1000.

Definition Day (t : Z) : Z := t / msPerDay.
Definition TimeWithinDay (t : Z) : Z := t mod msPerDay.

Definition DaysInYear (y : Z) : Z :=
  if negb (y mod 4 =? 0) then 365
  else if negb (y mod 100 =? 0) then 366
  else if negb (y mod 400 =? 0) then 365
  else 366.

Definition DayFromYear (y : Z) : Z :=
  365 * (y - 1970) + (y - 1969) / 4 - (y - 1901) / 100 + (y - 1601) / 400.

(** The largest [y] with [DayFromYear y <= Day t]: the estimate from the mean
    length of a year is off by at most one. *)
Definition YearFromTime (t : Z) : Z :=
  let d := Day t in
  let y := 1970 + (400 * d) / 146097 in
  if DayFromYear (y + 1) <=? d then y + 1
  else if d <? DayFromYear y then y - 1
  else y.

Definition leapDays (y : Z) : Z := if DaysInYear y =? 366 then 1 else 0.
Definition InLeapYear (t : Z) : Z := leapDays (YearFromTime t).
Definition DayWithinYear (t : Z) : Z := Day t - DayFromYear (YearFromTime t).

Definition MonthFromTime (t : Z) : Z :=
  let d := DayWithinYear t in
  let l := InLeapYear t in
  if d <? 31 then 0
  else if d <? 59 + l then 1
  else if d <? 90 + l then 2
  else if d <? 120 + l then 3
  else if d <? 151 + l then 4
  else if d <? 181 + l then 5
  else if d <? 212 + l then 6
  else if d <? 243 + l then 7
  else if d <? 273 + l then 8
  else if d <? 304 + l then 9
  else if d <? 334 + l then 10
  else 11.

Definition DateFromTime (t : Z) : Z :=
  let d := DayWithinYear t in
  let l := InLeapYear t in
  match MonthFromTime t with
  | 0 => d + 1
  | 1 => d - 30
  | 2 => d - 58 - l
  | 3 => d - 89 - l
  | 4 => d - 119 - l
  | 5 => d - 150 - l
  | 6 => d - 180 - l
  | 7 => d - 211 - l
  | 8 => d - 242 - l
  | 9 => d - 272 - l
  | 10 => d - 303 - l
  | _ => d - 333 - l
  end.

Definition WeekDay (t : Z) : Z := (Day t + 4) mod 7.
Definition HourFromTime (t : Z) : Z := (t / msPerHour) mod 24.
Definition MinFromTime (t : Z) : Z := (t / msPerMinute) mod 60.
Definition SecFromTime (t : Z) : Z := (t / msPerSecond) mod 60.
Definition msFromTime (t : Z) : Z := t mod msPerSecond.

(** The day within the year on which month [m] (0 to 11) starts. *)
Definition monthStart (m l : Z) : Z :=
  match m with
  | 0 => 0
  | 1 => 31
  | 2 => 59 + l
  | 3 => 90 + l
  | 4 => 120 + l
  | 5 => 151 + l
  | 6 => 181 + l
  | 7 => 212 + l
  | 8 => 243 + l
  | 9 => 273 + l
  | 10 => 304 + l
  | _ => 334 + l
  end.

Definition DaysInMonth (y m : Z) : Z :=
  match m with
  | 1 => 28 + leapDays y
  | 3 | 5 | 8 | 10 => 30
  | _ => 31
  end.

Definition MakeTime (h m s ms : Z) : Z :=
  h * msPerHour + m * msPerMinute + s * msPerSecond + ms.

(** [MakeDay(year, month, date)]: the day number of the first of the month
    plus [date - 1]. *)
Definition MakeDay (year month date : Z) : Z :=
  let ym := year + month / 12 in
  let mn := month mod 12 in
  DayFromYear ym + monthStart mn (leapDays ym) + date - 1.

Definition MakeDate (day time : Z) : Z := day * msPerDay + time.

(** [TimeClip]: NaN ([None]) outside of 100,000,000 days around the epoch. *)
Definition TimeClip (t : Z) : option Z :=
  if Z.abs t <=? 8640000000000000 then Some t else None.

Definition LocalTime `{Host} (t : Z) : Z := t + LocalTZA t true.
Definition UTC `{Host} (t : Z) : Z := t - LocalTZA t false.

End TimeValue.

(** A [Date] object is its time value; [None] is NaN, the invalid date. *)
Definition Date : Type := option Z.

(** The outcome of an evaluation that may throw. *)
Inductive Completion (A : Type) : Type :=
| Normal (a : A)
| Throw (message : string).
Arguments Normal {A} a.
Arguments Throw {A} message.

Notation "' p <- e ;; k" :=
  (match e with Some p => k | None => None end)
  (at level 61, p pattern, e at next level, right associativity).

Module DateObj.

Import TimeValue.
Local Open Scope char_scope.
Local Open Scope Z_scope.

(** Reads the character [c]. *)
Definition expect (c : ascii) (l : list ascii) : option (list ascii) :=
  match l with
  | x :: rest => if Ascii.eqb x c then Some rest else None
  | [] => None
  end.

(** The calendar part of the ECMAScript date-time string format:
    [YYYY], [YYYY-MM] or [YYYY-MM-DD]. *)
Definition parseDatePart (l : list ascii) : option (Z * Z * Z * list ascii) :=
  '(y, l0) <- Str.readDigits 4 0 l ;;
  match expect "-" l0 with
  | Some l1 =>
      '(m, l2) <- Str.readDigits 2 0 l1 ;;
      match expect "-" l2 with
      | Some l3 =>
          '(d, l4) <- Str.readDigits 2 0 l3 ;;
          Some (y, m, d, l4)
      | None => Some (y, m, 1, l2)
      end
  | None => Some (y, 1, 1, l0)
  end.

(** The time of day: [HH:mm], [HH:mm:ss] or [HH:mm:ss.sss]. *)
Definition parseTimePart (l : list ascii) : option (Z * Z * Z * Z * list ascii) :=
  '(h, l0) <- Str.readDigits 2 0 l ;;
  ' l1 <- expect ":" l0 ;;
  '(mi, l2) <- Str.readDigits 2 0 l1 ;;
  match expect ":" l2 with
  | Some l3 =>
      '(s, l4) <- Str.readDigits 2 0 l3 ;;
      match expect "." l4 with
      | Some l5 =>
          '(ms, l6) <- Str.readDigits 3 0 l5 ;;
          Some (h, mi, s, ms, l6)
      | None => Some (h, mi, s, 0, l4)
      end
  | None => Some (h, mi, 0, 0, l2)
  end.

(** The UTC offset that ends the string: none (local time), [Z] or [+HH:mm] /
    [-HH:mm], in milliseconds. *)
Definition parseZone (l : list ascii) : option (option Z) :=
  match l with
  | [] => Some None
  | sign :: l0 =>
      if Ascii.eqb sign "Z" then
        match l0 with [] => Some (Some 0) | _ => None end
      else if Ascii.eqb sign "+" || Ascii.eqb sign "-" then
        '(h, l1) <- Str.readDigits 2 0 l0 ;;
        ' l2 <- expect ":" l1 ;;
        '(m, l3) <- Str.readDigits 2 0 l2 ;;
        match l3 with
        | [] =>
            if (h <=? 23) && (m <=? 59) then
              let off := (h * 60 + m) * msPerMinute in
              Some (Some (if Ascii.eqb sign "-" then - off else off))
            else None
        | _ => None
        end
      else None
  end.

(** [Date.parse] on the strings of the ECMAScript date-time format with a
    four-digit year and fields in range: date-only forms are UTC, date-time
    forms without an offset are local time.  [None] is "not of this format". *)
Definition parseISO `{Host} (s : string) : option Z :=
  '(y, m, d, l) <- parseDatePart (list_ascii_of_string s) ;;
  if (1 <=? m) && (m <=? 12) && (1 <=? d) && (d <=? DaysInMonth y (m - 1)) then
    match l with
    | [] => TimeClip (MakeDate (MakeDay y (m - 1) d) 0)
    | _ =>
        ' l0 <- expect "T" l ;;
        '(h, mi, s, ms, l1) <- parseTimePart l0 ;;
        ' zone <- parseZone l1 ;;
        if (h <=? 23) && (mi <=? 59) && (s <=? 59) then
          let t := MakeDate (MakeDay y (m - 1) d) (MakeTime h mi s ms) in
          match zone with
          | None => TimeClip (UTC t)
          | Some off => TimeClip (t - off)
          end
        else None
    end
  else None.

(** [Date.parse(s)]: the standard format first, then whatever else the engine
    accepts. *)
Definition parse `{Host} (s : string) : option Z :=
  match parseISO s with
  | Some t => Some t
  | None => legacyDateParse s
  end.

(** [new Date(s)] for a string and [new Date(d.getTime())]. *)
Definition ofString `{Host} (s : string) : Date := parse s.
Definition copy (d : Date) : Date := d.

Definition getTime (d : Date) : option Z := d.
Definition getUTCHours (d : Date) : option Z := option_map HourFromTime d.
Definition getUTCDate (d : Date) : option Z := option_map DateFromTime d.
Definition getUTCDay (d : Date) : option Z := option_map WeekDay d.

(** [d.setUTCDate(dt)]: the date after the call. *)
Definition setUTCDate (d : Date) (dt : option Z) : Date :=
  match d, dt with
  | Some t, Some n =>
      TimeClip (MakeDate (MakeDay (YearFromTime t) (MonthFromTime t) n)
                         (TimeWithinDay t))
  | _, _ => None
  end.

(** [d.setUTCHours(h, m, s, ms)]: the date after the call. *)
Definition setUTCHours (d : Date) (h m s ms : Z) : Date :=
  match d with
  | Some t => TimeClip (MakeDate (Day t) (MakeTime h m s ms))
  | None => None
  end.

(** [d.setHours(h, m, s, ms)], in local time. *)
Definition setHours `{Host} (d : Date) (h m s ms : Z) : Date :=
  match d with
  | Some t => TimeClip (UTC (MakeDate (Day (LocalTime t)) (MakeTime h m s ms)))
  | None => None
  end.

Definition pad (width : nat) (n : Z) : string := Str.padDigits width n "".

(** [d.toISOString()]; throws a RangeError on an invalid date. *)
Definition toISOString (d : Date) : Completion string :=
  match d with
  | None => Throw "Invalid time value"
  | Some t =>
      let y := YearFromTime t in
      let sign : string := if 0 <=? y then "+"%string else "-"%string in
      let year :=
        if (0 <=? y) && (y <=? 9999) then pad 4 y
        else (sign ++ pad 6 (Z.abs y))%string in
      Normal (year ++ "-" ++ pad 2 (MonthFromTime t + 1) ++ "-"
                ++ pad 2 (DateFromTime t) ++ "T" ++ pad 2 (HourFromTime t)
                ++ ":" ++ pad 2 (MinFromTime t) ++ ":" ++ pad 2 (SecFromTime t)
                ++ "." ++ pad 3 (msFromTime t) ++ "Z")%string
  end.

(** [a >= k] on a number that is an integer or NaN. *)
Definition geb (a : option Z) (k : Z) : bool :=
  match a with Some n => k <=? n | None => false end.

(** [a + k] on a number that is an integer or NaN. *)
Definition plus (a : option Z) (k : Z) : option Z := option_map (fun n => n + k) a.

End DateObj.

(* ================================================================== *)
(** * bookingController.ts: date normalisation *)
(* ================================================================== *)

(** The argument of [normalizeTravelDate]: [string | Date]. *)
Inductive DateInput : Type :=
| OfString (s : string)
| OfDate (d : Date).

(** [normalizeTravelDate] (bookingController.ts, lines 6-34). *)
Definition normalizeTravelDate `{Host} (input : DateInput) : Completion Date :=
  let parsed : Completion Date :=
    match input with
    | OfDate d => Normal (DateObj.copy d)
    | OfString s =>
        let trimmed := Str.trim s in
        if negb (Str.truthy trimmed) then Throw "Date value cannot be empty"
        else if Str.isBareCalendarDate trimmed
             then Normal (DateObj.ofString (trimmed ++ "T00:00:00.000Z"))
             else Normal (DateObj.ofString trimmed)
    end in
  match parsed with
  | Throw e => Throw e
  | Normal date =>
      match DateObj.getTime date with
      | None => Throw "Invalid date value"
      | Some _ =>
          let date :=
            if DateObj.geb (DateObj.getUTCHours date) 12
            then DateObj.setUTCDate date (DateObj.plus (DateObj.getUTCDate date) 1)
            else date in
          Normal (DateObj.setUTCHours date 0 0 0 0)
      end
  end.

(** [formatDateKey] (bookingController.ts, lines 36-38). *)
Definition formatDateKey `{Host} (input : DateInput) : Completion string :=
  match normalizeTravelDate input with
  | Throw e => Throw e
  | Normal d =>
      match DateObj.toISOString d with
      | Throw e => Throw e
      | Normal iso => Normal (Str.beforeFirst "T"%char iso)
      end
  end.

(* ================================================================== *)
(** * The Mongoose models *)
(* ================================================================== *)

(** [IRoute] / [RouteSchema].  [None] is [null] or [undefined]. *)
Module Route.
Record t : Type := {
  from : string;
  to : string;
  basePrice : JS.Number;
  currency : string;
  departureTime : string;
  arrivalTime : string;
  fromStation : string;
  toStation : string;
  active : bool;
  availableDays : option (list JS.Number);
  studentDiscount : option JS.Number;
  closedDates : option (list string)
}.
End Route.

Module Passenger.
Record t : Type := {
  name : string;
  surname : string;
  email : string;
  phone : string
}.
End Passenger.

(** The booking status: ['pending' | 'paid' | 'cancelled' | 'refunded']. *)
Inductive BookingStatus : Type := pending | paid | cancelled | refunded.

Definition BookingStatus_eqb (a b : BookingStatus) : bool :=
  match a, b with
  | pending, pending | paid, paid | cancelled, cancelled | refunded, refunded => true
  | _, _ => false
  end.

(** [IBooking] / [BookingSchema]; [studentDiscount] has the schema default 0. *)
Module Booking.
Record t : Type := {
  bookingId : string;
  from : string;
  to : string;
  date : Z;
  departureTime : string;
  arrivalTime : string;
  passenger : Passenger.t;
  subtotal : JS.Number;
  fees : JS.Number;
  discount : JS.Number;
  studentDiscount : JS.Number;
  total : JS.Number;
  currency : string;
  promoCode : option string;
  status : BookingStatus;
  paymentIntentId : option string;
  stripeCustomerId : option string
}.

Definition set_status (v : BookingStatus) (b : t) : t :=
  {| bookingId := bookingId b; from := from b; to := to b; date := date b;
     departureTime := departureTime b; arrivalTime := arrivalTime b;
     passenger := passenger b; subtotal := subtotal b; fees := fees b;
     discount := discount b; studentDiscount := studentDiscount b;
     total := total b; currency := currency b; promoCode := promoCode b;
     status := v; paymentIntentId := paymentIntentId b;
     stripeCustomerId := stripeCustomerId b |}.

Definition set_total (v : JS.Number) (b : t) : t :=
  {| bookingId := bookingId b; from := from b; to := to b; date := date b;
     departureTime := departureTime b; arrivalTime := arrivalTime b;
     passenger := passenger b; subtotal := subtotal b; fees := fees b;
     discount := discount b; studentDiscount := studentDiscount b;
     total := v; currency := currency b; promoCode := promoCode b;
     status := status b; paymentIntentId := paymentIntentId b;
     stripeCustomerId := stripeCustomerId b |}.

Definition set_currency (v : string) (b : t) : t :=
  {| bookingId := bookingId b; from := from b; to := to b; date := date b;
     departureTime := departureTime b; arrivalTime := arrivalTime b;
     passenger := passenger b; subtotal := subtotal b; fees := fees b;
     discount := discount b; studentDiscount := studentDiscount b;
     total := total b; currency := v; promoCode := promoCode b;
     status := status b; paymentIntentId := paymentIntentId b;
     stripeCustomerId := stripeCustomerId b |}.

Definition set_paymentIntentId (v : option string) (b : t) : t :=
  {| bookingId := bookingId b; from := from b; to := to b; date := date b;
     departureTime := departureTime b; arrivalTime := arrivalTime b;
     passenger := passenger b; subtotal := subtotal b; fees := fees b;
     discount := discount b; studentDiscount := studentDiscount b;
     total := total b; currency := currency b; promoCode := promoCode b;
     status := status b; paymentIntentId := v;
     stripeCustomerId := stripeCustomerId b |}.

Definition set_stripeCustomerId (v : option string) (b : t) : t :=
  {| bookingId := bookingId b; from := from b; to := to b; date := date b;
     departureTime := departureTime b; arrivalTime := arrivalTime b;
     passenger := passenger b; subtotal := subtotal b; fees := fees b;
     discount := discount b; studentDiscount := studentDiscount b;
     total := total b; currency := currency b; promoCode := promoCode b;
     status := status b; paymentIntentId := paymentIntentId b;
     stripeCustomerId := v |}.

(** Schema validation on save: a number path holding NaN fails its cast, and
    [studentDiscount] has [min: 0]. *)
Definition valid (b : t) : bool :=
  negb (JS.isNaN (subtotal b)) && negb (JS.isNaN (fees b))
  && negb (JS.isNaN (discount b)) && negb (JS.isNaN (total b))
  && (studentDiscount b >=? n0)%js.
End Booking.

(** [ITicket] / [TicketSchema]. *)
Module Ticket.
Record t : Type := {
  ticketId : string;
  bookingId : string;
  qrToken : string;
  from : string;
  to : string;
  date : Z;
  departureTime : string;
  arrivalTime : string;
  passengerName : string;
  price : JS.Number;
  currency : string;
  isUsed : bool;
  usedAt : option Z
}.

(** [ticket.isUsed = true; ticket.usedAt = at]. *)
Definition markUsed (at_ : Z) (k : t) : t :=
  {| ticketId := ticketId k; bookingId := bookingId k; qrToken := qrToken k;
     from := from k; to := to k; date := date k;
     departureTime := departureTime k; arrivalTime := arrivalTime k;
     passengerName := passengerName k; price := price k;
     currency := currency k; isUsed := true; usedAt := Some at_ |}.
End Ticket.

(** [IPromoCode] / [PromoCodeSchema].  The two counters are integers. *)
Module PromoCode.
Record t : Type := {
  code : string;
  discountPercent : JS.Number;
  discountFixed : JS.Number;
  maxDiscount : JS.Number;
  validFrom : Z;
  validUntil : Z;
  usageLimit : Z;
  usageCount : Z;
  active : bool
}.

(** [{ $inc: { usageCount: n } }]. *)
Definition inc_usageCount (n : Z) (p : t) : t :=
  {| code := code p; discountPercent := discountPercent p;
     discountFixed := discountFixed p; maxDiscount := maxDiscount p;
     validFrom := validFrom p; validUntil := validUntil p;
     usageLimit := usageLimit p; usageCount := usageCount p + n;
     active := active p |}.
End PromoCode.

(** The database: one list of documents per collection, in insertion order. *)
Record Store : Type := {
  routes : list Route.t;
  bookings : list Booking.t;
  tickets : list Ticket.t;
  promoCodes : list PromoCode.t
}.

Definition set_bookings (v : list Booking.t) (st : Store) : Store :=
  {| routes := routes st; bookings := v; tickets := tickets st;
     promoCodes := promoCodes st |}.
Definition set_tickets (v : list Ticket.t) (st : Store) : Store :=
  {| routes := routes st; bookings := bookings st; tickets := v;
     promoCodes := promoCodes st |}.
Definition set_promoCodes (v : list PromoCode.t) (st : Store) : Store :=
  {| routes := routes st; bookings := bookings st; tickets := tickets st;
     promoCodes := v |}.

(** [Model.findOne(query)]: the first document that matches. *)
Definition findOne {A : Type} (query : A -> bool) (coll : list A) : option A :=
  find query coll.

(** [Model.findOneAndUpdate(query, update)] and [doc.save()] on a document
    that [findOne(query)] returned: the first match is replaced. *)
Fixpoint updateOne {A : Type} (query : A -> bool) (update : A -> A)
  (coll : list A) : list A :=
  match coll with
  | [] => []
  | x :: rest =>
      if query x then update x :: rest else x :: updateOne query update rest
  end.

Definition byBookingId (id : string) (b : Booking.t) : bool :=
  String.eqb (Booking.bookingId b) id.
Definition ticketOfBooking (id : string) (k : Ticket.t) : bool :=
  String.eqb (Ticket.bookingId k) id.
Definition byQrToken (tok : string) (k : Ticket.t) : bool :=
  String.eqb (Ticket.qrToken k) tok.
Definition byCode (c : string) (p : PromoCode.t) : bool :=
  String.eqb (PromoCode.code p) c.

(** [booking.save()] on a loaded booking. *)
Definition saveBooking (b : Booking.t) (st : Store) : Store :=
  set_bookings
    (updateOne (byBookingId (Booking.bookingId b)) (fun _ => b) (bookings st)) st.

(** express-validator's [isFloat({ min: 0 })] on a JSON number. *)
Definition isFloatMin0 (v : JS.Number) : bool :=
  JS.isFinite v && (v >=? n0)%js.

Definition optionalFloatMin0 (v : option JS.Number) : bool :=
  match v with None => true | Some x => isFloatMin0 x end.

(** [notEmpty()] after [trim()]. *)
Definition notEmpty (s : string) : bool := Str.truthy (Str.trim s).

(** The error list of [validationResult(req)]: the names of the failing
    fields. *)
Definition collectErrors (checks : list (string * bool)) : list string :=
  map fst (filter (fun c => negb (snd c)) checks).

(* ================================================================== *)
(** * bookingController.ts: createBooking *)
(* ================================================================== *)

(** The body of [POST /api/bookings].  [studentDiscount] is the JSON value
    read as a number ([Number(studentDiscount)]), [None] when the field is
    absent ([undefined]; a [null] does not pass the validation chain). *)
Module BookingReq.
Record t : Type := {
  from : string;
  to : string;
  date : string;
  passenger : Passenger.t;
  promoCode : option string;
  studentDiscount : option JS.Number
}.
End BookingReq.

(** What the host supplies to one request: the clock and a fresh uuid. *)
Record BookingEnv : Type := {
  now : Z;
  uuid : string
}.

(** The responses of [createBooking], by status code and [error] text. *)
Inductive BookingResponse : Type :=
| ValidationFailed (errors : list string)
    (** 400, [{ errors }] *)
| RouteNotFound
    (** 404, 'Route not found' *)
| RouteNotAvailable (availableDays : list JS.Number)
    (** 400, 'Route not available on selected date' *)
| RouteClosed (travelDate : string)
    (** 400, 'Route closed on selected date' *)
| Created (booking : Booking.t)
    (** 201 *)
| CreateFailed.
    (** 500, 'Failed to create booking' *)

(** The validation chain of [router.post('/bookings', ...)]. *)
Definition bookingValidation `{Host} (req : BookingReq.t) : list string :=
  let p := BookingReq.passenger req in
  collectErrors
    [ ("from", notEmpty (BookingReq.from req));
      ("to", notEmpty (BookingReq.to req));
      ("date", isISO8601 (BookingReq.date req));
      ("passenger.name", notEmpty (Passenger.name p));
      ("passenger.surname", notEmpty (Passenger.surname p));
      ("passenger.email", isEmail (Passenger.email p));
      ("passenger.phone", notEmpty (Passenger.phone p));
      ("studentDiscount", optionalFloatMin0 (BookingReq.studentDiscount req)) ]%string.

(** The passenger after the [trim()] sanitizers of the chain. *)
Definition trimPassenger (p : Passenger.t) : Passenger.t :=
  {| Passenger.name := Str.trim (Passenger.name p);
     Passenger.surname := Str.trim (Passenger.surname p);
     Passenger.email := Passenger.email p;
     Passenger.phone := Str.trim (Passenger.phone p) |}.

(** [Route.findOne({ from, to, active: true })]. *)
Definition routeQuery (from to : string) (r : Route.t) : bool :=
  String.eqb (Route.from r) from && String.eqb (Route.to r) to && Route.active r.

(** The query of [PromoCode.findOne] at line 113: the upper-cased code, active,
    and the clock inside [validFrom, validUntil]. *)
Definition promoQuery (now : Z) (promoCode : string) (p : PromoCode.t) : bool :=
  String.eqb (PromoCode.code p) (Str.toUpperCase promoCode)
  && PromoCode.active p
  && (PromoCode.validFrom p <=? now) && (now <=? PromoCode.validUntil p).

(** [route.availableDays.includes(dayOfWeek)]. *)
Definition includesDay (days : list JS.Number) (dayOfWeek : option Z) : bool :=
  let d := match dayOfWeek with Some n => JS.ofZ n | None => JS.NaN end in
  existsb (JS.SameValueZero d) days.

(** [route.closedDates.includes(travelDateKey)]. *)
Definition includesKey (keys : list string) (k : string) : bool :=
  existsb (String.eqb k) keys.

(** Line 106: [Math.max(3, Math.round(subtotal * 0.015 * 100) / 100)]. *)
Definition serviceFee (subtotal : JS.Number) : JS.Number :=
  JS.Math_max n3 (JS.Math_round (subtotal * n0_015 * n100) / n100)%js.

(** Lines 122-129: the discount of a usable promo code. *)
Definition promoDiscount (promo : PromoCode.t) (subtotal : JS.Number) : JS.Number :=
  if (PromoCode.discountPercent promo >? n0)%js then
    let discount :=
      (JS.Math_round (subtotal * (PromoCode.discountPercent promo / n100) * n100)
       / n100)%js in
    if (PromoCode.maxDiscount promo >? n0)%js
    then JS.Math_min discount (PromoCode.maxDiscount promo)
    else discount
  else if (PromoCode.discountFixed promo >? n0)%js then PromoCode.discountFixed promo
  else n0.

(** Lines 108-133: the promo discount and the code recorded on the booking. *)
Definition applyPromo (now : Z) (promoCode : option string) (subtotal : JS.Number)
  (st : Store) : JS.Number * option string :=
  match promoCode with
  | Some pc =>
      if Str.truthy pc then
        match findOne (promoQuery now pc) (promoCodes st) with
        | Some promo =>
            if (PromoCode.usageLimit promo =? 0)
               || (PromoCode.usageCount promo <? PromoCode.usageLimit promo)
            then (promoDiscount promo subtotal, Some (PromoCode.code promo))
            else (n0, None)
        | None => (n0, None)
        end
      else (n0, None)
  | None => (n0, None)
  end.

(** Lines 136-146: the student discount that is applied. *)
Definition studentDiscountAmount (studentDiscount : option JS.Number)
  (route : Route.t) : JS.Number :=
  match studentDiscount with
  | Some studentDiscountValue =>
      if (studentDiscountValue >? n0)%js then
        match Route.studentDiscount route with
        | Some c =>
            if JS.truthy c && (c >? n0)%js
            then JS.Math_min studentDiscountValue c
            else n0
        | None => n0
        end
      else n0
  | None => n0
  end.

(** [`BK-${uuidv4().substring(0, 8).toUpperCase()}`]. *)
Definition newBookingId (uuid : string) : string :=
  ("BK-" ++ Str.toUpperCase (String.substring 0 8 uuid))%string.

(** [createBooking] (bookingController.ts, lines 41-199). *)
Definition createBooking `{Host} (env : BookingEnv) (req : BookingReq.t)
  (st : Store) : Store * BookingResponse :=
  match bookingValidation req with
  | e :: errors => (st, ValidationFailed (e :: errors))
  | [] =>
    let from := Str.trim (BookingReq.from req) in
    let to := Str.trim (BookingReq.to req) in
    let promoCode := option_map Str.trim (BookingReq.promoCode req) in
    match findOne (routeQuery from to) (routes st) with
    | None => (st, RouteNotFound)
    | Some route =>
      let selectedDate := DateObj.ofString (BookingReq.date req) in
      match normalizeTravelDate (OfDate selectedDate) with
      | Throw _ => (st, CreateFailed)
      | Normal travelDate =>
        let dayOfWeek := DateObj.getUTCDay travelDate in
        let dayRefused :=
          match Route.availableDays route with
          | Some days => (0 <? Z.of_nat (List.length days)) && negb (includesDay days dayOfWeek)
          | None => false
          end in
        if dayRefused then
          (* the response carries [travelDate.toISOString()] *)
          match DateObj.toISOString travelDate with
          | Throw _ => (st, CreateFailed)
          | Normal _ =>
              (st, RouteNotAvailable
                     (match Route.availableDays route with Some d => d | None => [] end))
          end
        else
          match formatDateKey (OfDate travelDate), travelDate with
          | Normal travelDateKey, Some travelTime =>
            let closed :=
              match Route.closedDates route with
              | Some keys => includesKey keys travelDateKey
              | None => false
              end in
            if closed then (st, RouteClosed travelDateKey)
            else
              let subtotal := Route.basePrice route in
              let fees := serviceFee subtotal in
              let '(discount, validPromoCode) :=
                applyPromo (now env) promoCode subtotal st in
              let studentDiscountAmount :=
                studentDiscountAmount (BookingReq.studentDiscount req) route in
              let total :=
                JS.Math_max n0 (subtotal + fees - discount - studentDiscountAmount)%js in
              let booking :=
                {| Booking.bookingId := newBookingId (uuid env);
                   Booking.from := from;
                   Booking.to := to;
                   Booking.date := travelTime;
                   Booking.departureTime := Route.departureTime route;
                   Booking.arrivalTime := Route.arrivalTime route;
                   Booking.passenger := trimPassenger (BookingReq.passenger req);
                   Booking.subtotal := subtotal;
                   Booking.fees := fees;
                   Booking.discount := discount;
                   Booking.studentDiscount :=
                     if (studentDiscountAmount >? n0)%js
                     then studentDiscountAmount else n0;
                   Booking.total := total;
                   Booking.currency := Route.currency route;
                   Booking.promoCode := validPromoCode;
                   Booking.status := pending;
                   Booking.paymentIntentId := None;
                   Booking.stripeCustomerId := None |} in
              (* [booking.save()]: schema validation and the unique index *)
              if Booking.valid booking
                 && negb (existsb (byBookingId (Booking.bookingId booking)) (bookings st))
              then (set_bookings (bookings st ++ [booking]) st, Created booking)
              else (st, CreateFailed)
          | _, _ => (st, CreateFailed)
          end
      end
    end
  end.

(* ================================================================== *)
(** * The payment controller *)
(* ================================================================== *)

(** The body of [POST /api/payments/payment-sheet]; the numbers are the JSON
    values read through [Number(...)], [None] when the field is absent. *)
Module SheetReq.
Record t : Type := {
  bookingId : string;
  totalAmount : option JS.Number;
  studentDiscount : option JS.Number
}.
End SheetReq.

(** The Stripe client: each call returns its result, or [None] when it
    throws.  [customers_create email name phone bookingId] returns the
    customer id, [paymentIntents_create amount currency customer bookingId]
    the intent's id and client secret, [ephemeralKeys_create customer] the
    key's secret. *)
Record Stripe : Type := {
  customers_create : string -> string -> string -> string -> option string;
  paymentIntents_create :
    JS.Number -> string -> string -> string -> option (string * string);
  ephemeralKeys_create : string -> option string
}.

(** The responses of [createPaymentSheet]. *)
Inductive SheetResponse : Type :=
| SheetValidationFailed (errors : list string)
    (** 400, [{ errors }] *)
| SheetBookingNotFound
    (** 404, 'Booking not found' *)
| BookingAlreadyProcessed (currentStatus : BookingStatus)
    (** 400, 'Booking already processed' *)
| InvalidCurrency
    (** 400, 'Invalid currency' *)
| PaymentSheet (paymentIntent ephemeralKey customer : string)
    (** 200 *)
| SheetFailed.
    (** 500, 'Failed to create payment sheet' *)

(** The validation chain of [router.post('/payments/payment-sheet', ...)]. *)
Definition sheetValidation (req : SheetReq.t) : list string :=
  collectErrors
    [ ("bookingId", notEmpty (SheetReq.bookingId req));
      ("totalAmount", optionalFloatMin0 (SheetReq.totalAmount req));
      ("studentDiscount", optionalFloatMin0 (SheetReq.studentDiscount req)) ]%string.

(** [createPaymentSheet] (payment controller, lines 564-676 of part_000). *)
Definition createPaymentSheet (stripe : Stripe) (req : SheetReq.t) (st : Store)
  : Store * SheetResponse :=
  match sheetValidation req with
  | e :: errors => (st, SheetValidationFailed (e :: errors))
  | [] =>
    let bookingId := Str.trim (SheetReq.bookingId req) in
    match findOne (byBookingId bookingId) (bookings st) with
    | None => (st, SheetBookingNotFound)
    | Some booking =>
      let amountToCharge :=
        match SheetReq.totalAmount req with
        | Some totalAmount => totalAmount
        | None => Booking.total booking
        end in
      (* lines 589-593: the stored total is corrected, and saved *)
      let '(booking, st) :=
        match SheetReq.totalAmount req with
        | Some totalAmount =>
            if (JS.Math_abs (totalAmount - Booking.total booking) >? n0_01)%js
            then
              let booking := Booking.set_total totalAmount booking in
              (booking, saveBooking booking st)
            else (booking, st)
        | None => (booking, st)
        end in
      if negb (BookingStatus_eqb (Booking.status booking) pending) then
        (st, BookingAlreadyProcessed (Booking.status booking))
      else
        let lowered := Str.toLowerCase (Booking.currency booking) in
        let currency := if Str.truthy lowered then lowered else "ron"%string in
        if negb (String.eqb currency "ron") && negb (String.eqb currency "eur") then
          (st, InvalidCurrency)
        else
          let p := Booking.passenger booking in
          (* lines 613-629: the Stripe customer, created on first use *)
          let known :=
            match Booking.stripeCustomerId booking with
            | Some customerId => if Str.truthy customerId then Some customerId else None
            | None => None
            end in
          let customer : option (string * Booking.t * Store) :=
            match known with
            | Some customerId => Some (customerId, booking, st)
            | None =>
                ' customerId <-
                  customers_create stripe (Passenger.email p)
                    (Passenger.name p ++ " " ++ Passenger.surname p)%string
                    (Passenger.phone p) (Booking.bookingId booking) ;;
                let booking := Booking.set_stripeCustomerId (Some customerId) booking in
                Some (customerId, booking, saveBooking booking st)
            end in
          match customer with
          | None => (st, SheetFailed)
          | Some (customerId, booking, st) =>
            let amountInCents := JS.Math_round (amountToCharge * n100)%js in
            match paymentIntents_create stripe amountInCents currency customerId
                    (Booking.bookingId booking) with
            | None => (st, SheetFailed)
            | Some (paymentIntentId, clientSecret) =>
              match ephemeralKeys_create stripe customerId with
              | None => (st, SheetFailed)
              | Some ephemeralKey =>
                let booking := Booking.set_paymentIntentId (Some paymentIntentId) booking in
                (saveBooking booking st,
                 PaymentSheet clientSecret ephemeralKey customerId)
              end
            end
          end
    end
  end.

(** The fields of a [Stripe.PaymentIntent] that the webhook handlers read. *)
Module PaymentIntent.
Record t : Type := {
  id : string;
  metadata_bookingId : option string;
  amount_received : option JS.Number;
  amount : option JS.Number;
  currency : option string
}.
End PaymentIntent.

(** What the host supplies to one delivery of a payment-success event: two
    fresh uuids and whether [generateTicketPDF] returns (or throws). *)
Record PaymentEnv : Type := {
  uuid1 : string;
  uuid2 : string;
  generateTicketPDF : Ticket.t -> Booking.t -> bool
}.

(** [paymentIntent.metadata.bookingId], when it is truthy. *)
Definition metadataBookingId (pi : PaymentIntent.t) : option string :=
  match PaymentIntent.metadata_bookingId pi with
  | Some id => if Str.truthy id then Some id else None
  | None => None
  end.

(** [`TK-${uuidv4().substring(0, 8).toUpperCase()}`]. *)
Definition newTicketId (uuid : string) : string :=
  ("TK-" ++ Str.toUpperCase (String.substring 0 8 uuid))%string.

(** [new Ticket({...})] at lines 816-829. *)
Definition issueTicket (env : PaymentEnv) (booking : Booking.t) : Ticket.t :=
  let p := Booking.passenger booking in
  {| Ticket.ticketId := newTicketId (uuid1 env);
     Ticket.bookingId := Booking.bookingId booking;
     Ticket.qrToken := uuid2 env;
     Ticket.from := Booking.from booking;
     Ticket.to := Booking.to booking;
     Ticket.date := Booking.date booking;
     Ticket.departureTime := Booking.departureTime booking;
     Ticket.arrivalTime := Booking.arrivalTime booking;
     Ticket.passengerName := (Passenger.name p ++ " " ++ Passenger.surname p)%string;
     Ticket.price := Booking.total booking;
     Ticket.currency := Booking.currency booking;
     Ticket.isUsed := false;
     Ticket.usedAt := None |}.

(** [ticket.save()] on a new ticket: [price] must cast to a number, and
    [ticketId] and [qrToken] carry unique indexes. *)
Definition canInsertTicket (k : Ticket.t) (st : Store) : bool :=
  negb (JS.isNaN (Ticket.price k))
  && negb (existsb (fun k' => String.eqb (Ticket.ticketId k') (Ticket.ticketId k))
             (tickets st))
  && negb (existsb (byQrToken (Ticket.qrToken k)) (tickets st)).

(** [handlePaymentSuccess] (payment controller, lines 741-867 of part_000):
    the store after the call and whether it returned or threw. *)
Definition handlePaymentSuccess (env : PaymentEnv) (pi : PaymentIntent.t)
  (st : Store) : Store * Completion unit :=
  let amountReceived :=
    match PaymentIntent.amount_received pi with
    | Some a => a
    | None => match PaymentIntent.amount pi with Some a => a | None => n0 end
    end in
  let amountReceivedUnit := (amountReceived / n100)%js in
  let currency := option_map Str.toUpperCase (PaymentIntent.currency pi) in
  match metadataBookingId pi with
  | None => (st, Throw "Booking ID not found in payment intent metadata")
  | Some bookingId =>
    match findOne (byBookingId bookingId) (bookings st) with
    | None => (st, Throw ("Booking " ++ bookingId ++ " not found"))
    | Some booking =>
      if BookingStatus_eqb (Booking.status booking) paid then (st, Normal tt)
      else
        let booking := Booking.set_status paid booking in
        let booking := Booking.set_paymentIntentId (Some (PaymentIntent.id pi)) booking in
        let booking :=
          if (amountReceived >? n0)%js
          then Booking.set_total amountReceivedUnit booking else booking in
        let booking :=
          match currency with
          | Some c =>
              if Str.truthy c && (String.eqb c "RON" || String.eqb c "EUR")
              then Booking.set_currency c booking else booking
          | None => booking
          end in
        let st := saveBooking booking st in
        (* lines 802-807: the promo code's usage counter *)
        let st :=
          match Booking.promoCode booking with
          | Some code =>
              if Str.truthy code then
                set_promoCodes
                  (updateOne (byCode code) (PromoCode.inc_usageCount 1) (promoCodes st))
                  st
              else st
          | None => st
          end in
        (* lines 810-839: the ticket, unless one exists for the booking *)
        let issued : option (Ticket.t * Store) :=
          match findOne (ticketOfBooking (Booking.bookingId booking)) (tickets st) with
          | Some ticket => Some (ticket, st)
          | None =>
              let ticket := issueTicket env booking in
              if canInsertTicket ticket st
              then Some (ticket, set_tickets (tickets st ++ [ticket]) st)
              else None
          end in
        match issued with
        | None => (st, Throw "E11000 duplicate key error")
        | Some (ticket, st) =>
            if generateTicketPDF env ticket booking then (st, Normal tt)
            else (st, Throw "generateTicketPDF failed")
        end
    end
  end.

(** [handlePaymentFailed] (payment controller, lines 869-898 of part_000). *)
Definition handlePaymentFailed (pi : PaymentIntent.t) (st : Store)
  : Store * Completion unit :=
  match metadataBookingId pi with
  | None => (st, Throw "Booking ID not found in payment intent metadata")
  | Some bookingId =>
    match findOne (byBookingId bookingId) (bookings st) with
    | Some _ =>
        (set_bookings
           (updateOne (byBookingId bookingId) (Booking.set_status cancelled) (bookings st))
           st,
         Normal tt)
    | None => (st, Throw ("Booking " ++ bookingId ++ " not found"))
    end
  end.

(* ================================================================== *)
(** * ticketController.ts: validateQRCode and useTicket *)
(* ================================================================== *)

(** The ticket summary that the responses carry. *)
Record TicketInfo : Type := {
  info_ticketId : string;
  info_from : string;
  info_to : string;
  info_date : Z;
  info_passengerName : string
}.

Definition ticketInfo (k : Ticket.t) : TicketInfo :=
  {| info_ticketId := Ticket.ticketId k; info_from := Ticket.from k;
     info_to := Ticket.to k; info_date := Ticket.date k;
     info_passengerName := Ticket.passengerName k |}.

(** The responses of [validateQRCode]. *)
Inductive ValidateResponse : Type :=
| ValidateValidationFailed (errors : list string)
    (** 400, [{ errors }] *)
| ValidateNotFound
    (** 404, [valid: false], 'Ticket not found' *)
| BookingNotConfirmed
    (** 400, [valid: false], 'Booking not confirmed' *)
| AlreadyUsedReport (usedAt : option Z) (ticket : TicketInfo)
    (** 200, [valid: false, alreadyUsed: true, usedAt] *)
| ExpiredReport (ticket : TicketInfo)
    (** 200, [valid: false, expired: true] *)
| ValidReport (ticket : Ticket.t).
    (** 200, [valid: true] *)

(** The responses of [useTicket]. *)
Inductive UseResponse : Type :=
| UseValidationFailed (errors : list string)
    (** 400, [{ errors }] *)
| UseNotFound
    (** 404, 'Ticket not found' *)
| AlreadyUsed (usedAt : option Z)
    (** 400, 'Ticket already used', with the stored [usedAt] *)
| Used (usedAt : option Z) (ticket : TicketInfo).
    (** 200, [success: true], 'Ticket marked as used' *)

(** The validation chain of both ticket routes:
    [body('qrToken').trim().notEmpty()]. *)
Definition qrTokenValidation (qrToken : string) : list string :=
  collectErrors [ ("qrToken"%string, notEmpty qrToken) ].

(** [validateQRCode] (ticketController.ts, lines 88-168); [now] is the clock. *)
Definition validateQRCode `{Host} (now : Z) (qrToken : string) (st : Store)
  : ValidateResponse :=
  match qrTokenValidation qrToken with
  | e :: errors => ValidateValidationFailed (e :: errors)
  | [] =>
    let qrToken := Str.trim qrToken in
    match findOne (byQrToken qrToken) (tickets st) with
    | None => ValidateNotFound
    | Some ticket =>
      let confirmed :=
        match findOne (byBookingId (Ticket.bookingId ticket)) (bookings st) with
        | Some booking => BookingStatus_eqb (Booking.status booking) paid
        | None => false
        end in
      if negb confirmed then BookingNotConfirmed
      else if Ticket.isUsed ticket then
        AlreadyUsedReport (Ticket.usedAt ticket) (ticketInfo ticket)
      else
        let ticketDate : Date := Some (Ticket.date ticket) in
        let today := DateObj.setHours (Some now) 0 0 0 0 in
        let expired :=
          match ticketDate, today with
          | Some a, Some b => a <? b
          | _, _ => false
          end in
        if expired then ExpiredReport (ticketInfo ticket)
        else ValidReport ticket
    end
  end.

(** [useTicket] (ticketController.ts, lines 171-212); [now] is the clock. *)
Definition useTicket (now : Z) (qrToken : string) (st : Store)
  : Store * UseResponse :=
  match qrTokenValidation qrToken with
  | e :: errors => (st, UseValidationFailed (e :: errors))
  | [] =>
    let qrToken := Str.trim qrToken in
    match findOne (byQrToken qrToken) (tickets st) with
    | None => (st, UseNotFound)
    | Some ticket =>
      if Ticket.isUsed ticket then (st, AlreadyUsed (Ticket.usedAt ticket))
      else
        let ticket := Ticket.markUsed now ticket in
        (set_tickets (updateOne (byQrToken qrToken) (fun _ => ticket) (tickets st)) st,
         Used (Ticket.usedAt ticket) (ticketInfo ticket))
    end
  end.

(* ================================================================== *)
(** * Observations of the store *)
(* ================================================================== *)

(** The date key ([YYYY-MM-DD]) of the day of a time value. *)
Definition dateKeyOf (t : Z) : string :=
  match DateObj.toISOString (Some t) with
  | Normal iso => Str.beforeFirst "T"%char iso
  | Throw _ => EmptyString
  end.

(** The status of the booking with this id. *)
Definition bookingStatus (bookingId : string) (st : Store) : option BookingStatus :=
  option_map Booking.status (findOne (byBookingId bookingId) (bookings st)).

(** The stored total of the booking with this id. *)
Definition bookingTotal (bookingId : string) (st : Store) : option JS.Number :=
  option_map Booking.total (findOne (byBookingId bookingId) (bookings st)).

(** How many tickets exist for this booking. *)
Definition ticketCount (bookingId : string) (st : Store) : nat :=
  List.length (filter (ticketOfBooking bookingId) (tickets st)).

(** The usage counter of the promo code that [findOneAndUpdate({ code })]
    updates. *)
Definition usageCountOf (code : string) (st : Store) : option Z :=
  option_map PromoCode.usageCount (findOne (byCode code) (promoCodes st)).

(* ================================================================== *)
(** * Sample data *)
(* ================================================================== *)

(** A host, a route, a promo code and the requests of one booking's life:
    the concrete inputs at which the theorems below are instantiated. *)
Module Sample.

Local Open Scope string_scope.

(** A host two hours east of UTC whose validators accept every string and
    whose date parser knows the standard format only. *)
Definition host : Host :=
  {| LocalTZA := fun _ _ => 7200000;
     legacyDateParse := fun _ => None;
     isISO8601 := fun _ => true;
     isEmail := fun _ => true |}.

(** Chisinau to Brasov for 125 RON, students get 10 off, closed on
    2025-06-11. *)
Definition route : Route.t :=
  {| Route.from := "Chisinau"; Route.to := "Brasov";
     Route.basePrice := JS.ofZ 125; Route.currency := "RON";
     Route.departureTime := "08:00"; Route.arrivalTime := "16:00";
     Route.fromStation := "Gara de Nord"; Route.toStation := "Autogara 2";
     Route.active := true; Route.availableDays := None;
     Route.studentDiscount := Some (JS.ofZ 10);
     Route.closedDates := Some ["2025-06-11"] |}.

(** The same route, running on Thursdays only. *)
Definition thursdayRoute : Route.t :=
  {| Route.from := "Chisinau"; Route.to := "Brasov";
     Route.basePrice := JS.ofZ 125; Route.currency := "RON";
     Route.departureTime := "08:00"; Route.arrivalTime := "16:00";
     Route.fromStation := "Gara de Nord"; Route.toStation := "Autogara 2";
     Route.active := true; Route.availableDays := Some [JS.ofZ 4];
     Route.studentDiscount := Some (JS.ofZ 10);
     Route.closedDates := Some ["2025-06-12"] |}.

(** WELCOME10: 10 percent, capped at 20, valid from 2024-01-01 to 2025-12-31,
    no usage limit. *)
Definition welcome10 : PromoCode.t :=
  {| PromoCode.code := "WELCOME10"; PromoCode.discountPercent := JS.ofZ 10;
     PromoCode.discountFixed := n0; PromoCode.maxDiscount := JS.ofZ 20;
     PromoCode.validFrom := 1704067200000; PromoCode.validUntil := 1767139200000;
     PromoCode.usageLimit := 0; PromoCode.usageCount := 0;
     PromoCode.active := true |}.

Definition store0 : Store :=
  {| routes := [route]; bookings := []; tickets := []; promoCodes := [welcome10] |}.

Definition thursdayStore : Store :=
  {| routes := [thursdayRoute]; bookings := []; tickets := [];
     promoCodes := [welcome10] |}.

Definition passenger : Passenger.t :=
  {| Passenger.name := "Ana"; Passenger.surname := "Pop";
     Passenger.email := "ana@example.com"; Passenger.phone := "+37360000000" |}.

(** A booking for Tuesday 2025-06-10 with the promo code and no student
    discount; the same with a student discount of 50 requested. *)
Definition request : BookingReq.t :=
  {| BookingReq.from := "Chisinau"; BookingReq.to := "Brasov";
     BookingReq.date := "2025-06-10"; BookingReq.passenger := passenger;
     BookingReq.promoCode := Some "WELCOME10";
     BookingReq.studentDiscount := None |}.

Definition studentRequest : BookingReq.t :=
  {| BookingReq.from := "Chisinau"; BookingReq.to := "Brasov";
     BookingReq.date := "2025-06-10"; BookingReq.passenger := passenger;
     BookingReq.promoCode := None;
     BookingReq.studentDiscount := Some (JS.ofZ 50) |}.

(** The booking that the student's request creates: 125 + 3 - 10 = 118. *)
Definition studentBooking : Booking.t :=
  {| Booking.bookingId := "BK-1A2B3C4D"; Booking.from := "Chisinau";
     Booking.to := "Brasov"; Booking.date := 1749513600000;
     Booking.departureTime := "08:00"; Booking.arrivalTime := "16:00";
     Booking.passenger := passenger; Booking.subtotal := JS.ofZ 125;
     Booking.fees := n3; Booking.discount := n0;
     Booking.studentDiscount := JS.ofZ 10; Booking.total := JS.ofZ 118;
     Booking.currency := "RON"; Booking.promoCode := None;
     Booking.status := pending; Booking.paymentIntentId := None;
     Booking.stripeCustomerId := None |}.

(** A booking for the closed day 2025-06-11 (a Wednesday), and for the closed
    Thursday 2025-06-12. *)
Definition closedDayRequest : BookingReq.t :=
  {| BookingReq.from := "Chisinau"; BookingReq.to := "Brasov";
     BookingReq.date := "2025-06-11"; BookingReq.passenger := passenger;
     BookingReq.promoCode := None; BookingReq.studentDiscount := None |}.

Definition closedThursdayRequest : BookingReq.t :=
  {| BookingReq.from := "Chisinau"; BookingReq.to := "Brasov";
     BookingReq.date := "2025-06-12"; BookingReq.passenger := passenger;
     BookingReq.promoCode := None; BookingReq.studentDiscount := None |}.

(** The clock at 2025-01-01T00:00:00Z and a fresh uuid. *)
Definition bookingEnv : BookingEnv :=
  {| now := 1735689600000; uuid := "1a2b3c4d-5e6f-4a7b-8c9d-0e1f2a3b4c5d" |}.

Definition bookingId : string := "BK-1A2B3C4D".

(** The store with the pending booking. *)
Definition pendingStore : Store :=
  fst (createBooking (H := host) bookingEnv request store0).

(** The pending booking itself: 125 + 3 - 12.5 = 115.5. *)
Definition pendingBooking : Booking.t :=
  {| Booking.bookingId := bookingId; Booking.from := "Chisinau";
     Booking.to := "Brasov"; Booking.date := 1749513600000;
     Booking.departureTime := "08:00"; Booking.arrivalTime := "16:00";
     Booking.passenger := passenger; Booking.subtotal := JS.ofZ 125;
     Booking.fees := n3; Booking.discount := JS.decimal 125 1;
     Booking.studentDiscount := n0; Booking.total := JS.decimal 1155 1;
     Booking.currency := "RON"; Booking.promoCode := Some "WELCOME10";
     Booking.status := pending; Booking.paymentIntentId := None;
     Booking.stripeCustomerId := None |}.

(** The payment intent of the booking: 115.50 RON received. *)
Definition intent : PaymentIntent.t :=
  {| PaymentIntent.id := "pi_3Example";
     PaymentIntent.metadata_bookingId := Some bookingId;
     PaymentIntent.amount_received := Some (JS.ofZ 11550);
     PaymentIntent.amount := Some (JS.ofZ 11550);
     PaymentIntent.currency := Some "ron" |}.

Definition paymentEnv : PaymentEnv :=
  {| uuid1 := "9f8e7d6c-0000-4000-8000-000000000001";
     uuid2 := "0a1b2c3d-0000-4000-8000-000000000002";
     generateTicketPDF := fun _ _ => true |}.

Definition paymentEnv' : PaymentEnv :=
  {| uuid1 := "77777777-0000-4000-8000-000000000003";
     uuid2 := "88888888-0000-4000-8000-000000000004";
     generateTicketPDF := fun _ _ => true |}.

Definition qrToken : string := "0a1b2c3d-0000-4000-8000-000000000002".

(** The ticket that the payment issues. *)
Definition ticket : Ticket.t :=
  {| Ticket.ticketId := "TK-9F8E7D6C"; Ticket.bookingId := bookingId;
     Ticket.qrToken := qrToken; Ticket.from := "Chisinau"; Ticket.to := "Brasov";
     Ticket.date := 1749513600000; Ticket.departureTime := "08:00";
     Ticket.arrivalTime := "16:00"; Ticket.passengerName := "Ana Pop";
     Ticket.price := JS.decimal 1155 1; Ticket.currency := "RON";
     Ticket.isUsed := false; Ticket.usedAt := None |}.

(** The store after the payment succeeded: the booking is paid and its ticket
    issued. *)
Definition paidStore : Store :=
  fst (handlePaymentSuccess paymentEnv intent pendingStore).

(** The store after a payment-failed event for the same intent arrived
    later. *)
Definition cancelledStore : Store :=
  fst (handlePaymentFailed intent paidStore).

(** A client's request for a payment sheet that overrides the total with 1. *)
Definition sheetRequest : SheetReq.t :=
  {| SheetReq.bookingId := bookingId; SheetReq.totalAmount := Some (JS.ofZ 1);
     SheetReq.studentDiscount := None |}.

Definition stripe : Stripe :=
  {| customers_create := fun _ _ _ _ => Some "cus_Example";
     paymentIntents_create := fun _ _ _ _ => Some ("pi_3Example", "pi_3Example_secret");
     ephemeralKeys_create := fun _ => Some "ek_Example" |}.

(** Boarding on 2025-06-10 at 07:45 UTC, and a second scan a minute later. *)
Definition boarding : Z := 1749541500000.
Definition secondScan : Z := 1749541560000.

End Sample.

(* ================================================================== *)
(** * JavaScript arrays of strings *)
(* ================================================================== *)

Module Arr.

(** [x] put at its place in a sorted array. *)
Fixpoint insert (x : string) (l : list string) : list string :=
  match l with
  | [] => [x]
  | y :: l' => if String.leb x y then x :: l else y :: insert x l'
  end.

(** [l.sort()] with the default comparison: the ascending order of the code
    units (of the bytes, on these strings).  Strings that compare equal are
    equal, so the sorted array does not depend on the algorithm. *)
Definition sort (l : list string) : list string := fold_right insert [] l.

(** [set.add(x)] on a [Set] kept in insertion order. *)
Definition add (set : list string) (x : string) : list string :=
  if existsb (String.eqb x) set then set else set ++ [x].

End Arr.

(* ================================================================== *)
(** * bookingController.ts: getBooking and validatePromoCode *)
(* ================================================================== *)

(** The responses of [getBooking]; the 200 body carries the stored fields of
    the booking, its date as [booking.date.toISOString()] (under [date] and
    [travelDate]) and [booking.studentDiscount || 0].  The time stamps that
    Mongoose adds ([createdAt]) are not part of the model. *)
Inductive GetBookingResponse : Type :=
| GetBookingValidationFailed (errors : list string)
    (** 400, [{ errors }] *)
| BookingNotFound
    (** 404, 'Booking not found' *)
| BookingFound (booking : Booking.t) (travelDateIso : string)
    (studentDiscount : JS.Number)
    (** 200 *)
| GetBookingFailed.
    (** 500, 'Failed to fetch booking' *)

(** [getBooking] (bookingController.ts, lines 202-242); the chain of the
    route is [param('bookingId').trim().notEmpty()]. *)
Definition getBooking (bookingId : string) (st : Store) : GetBookingResponse :=
  match collectErrors [ ("bookingId"%string, notEmpty bookingId) ] with
  | e :: errors => GetBookingValidationFailed (e :: errors)
  | [] =>
    let bookingId := Str.trim bookingId in
    match findOne (byBookingId bookingId) (bookings st) with
    | None => BookingNotFound
    | Some booking =>
      match DateObj.toISOString (Some (Booking.date booking)) with
      | Throw _ => GetBookingFailed
      | Normal travelDateIso =>
          BookingFound booking travelDateIso
            (if JS.truthy (Booking.studentDiscount booking)
             then Booking.studentDiscount booking else n0)
      end
    end
  end.

    (** 200, [valid: true] *)



(* ================================================================== *)
(** * The route controller: the catalogue and the trip search *)
(* ================================================================== *)

(** [getCities] (route controller, lines 42-59 of part_001): the [cities] of
    the 200 body. *)
Definition getCities (st : Store) : list string :=
  let routes := filter Route.active (routes st) in
  let citiesSet :=
    fold_left (fun set route => Arr.add (Arr.add set (Route.from route)) (Route.to route))
      routes [] in
  Arr.sort citiesSet.

(** The responses of [getDestinations]. *)
Inductive DestinationsResponse : Type :=
| DestinationsValidationFailed (errors : list string)
    (** 400, [{ errors }] *)
| Destinations (destinations : list string).
    (** 200 *)

(** [Route.find({ from, active: true })]. *)
Definition departureQuery (from : string) (r : Route.t) : bool :=
  String.eqb (Route.from r) from && Route.active r.

(** [getDestinations] (route controller, lines 62-91 of part_001). *)
Definition getDestinations (from : string) (st : Store) : DestinationsResponse :=
  match collectErrors [ ("from"%string, notEmpty from) ] with
  | e :: errors => DestinationsValidationFailed (e :: errors)
  | [] =>
    let from := Str.trim from in
    let routes := filter (departureQuery from) (routes st) in
    Destinations (Arr.sort (map Route.to routes))
  end.

(** The responses of [getStudentDiscount]. *)
Inductive StudentDiscountResponse : Type :=
| StudentDiscountValidationFailed (errors : list string)
    (** 400, [{ errors }] *)
| StudentDiscountRouteNotFound
    (** 404, 'Route not found' *)
| StudentDiscount (studentDiscount : option JS.Number) (hasStudentDiscount : bool).
    (** 200; the body repeats [from] and [to] *)

(** [getStudentDiscount] (route controller, lines 94-134 of part_001). *)
Definition getStudentDiscount (from to : string) (st : Store)
  : StudentDiscountResponse :=
  match collectErrors [ ("from", notEmpty from); ("to", notEmpty to) ]%string with
  | e :: errors => StudentDiscountValidationFailed (e :: errors)
  | [] =>
    let from := Str.trim from in
    let to := Str.trim to in
    match findOne (routeQuery from to) (routes st) with
    | None => StudentDiscountRouteNotFound
    | Some route =>
      let truthy :=
        match Route.studentDiscount route with
        | Some c => JS.truthy c
        | None => false
        end in
      StudentDiscount (if truthy then Route.studentDiscount route else None) truthy
    end
  end.

(** The body of [POST /api/trips/search]. *)
Module TripReq.
Record t : Type := {
  from : string;
  to : string;
  date : string
}.
End TripReq.

(** The responses of [searchTrip].  The 200 body is made of the fields of the
    route, the requested date and [travelDate.toISOString()], with
    [isAvailableOnSelectedDate: true] and [isClosed: false]. *)
Inductive SearchResponse : Type :=
| SearchValidationFailed (errors : list string)
    (** 400, [{ errors }] *)
| SearchRouteNotFound
    (** 404, 'Route not found' *)
| SearchNotAvailable (availableDays : list JS.Number)
    (** 400, 'Route not available on selected date' *)
| SearchClosed (travelDate : string)
    (** 400, 'Route closed on selected date' *)
| TripFound (route : Route.t) (normalizedIso : string)
    (** 200 *)
| SearchFailed.
    (** 500, 'Failed to search trip' *)

(** The validation chain of [router.post('/trips/search', ...)]. *)
Definition searchValidation `{Host} (req : TripReq.t) : list string :=
  collectErrors
    [ ("from", notEmpty (TripReq.from req));
      ("to", notEmpty (TripReq.to req));
      ("date", isISO8601 (TripReq.date req)) ]%string.

(** [searchTrip] (route controller, lines 209-341 of part_001).  The debug
    log of lines 243-253 formats [travelDate.toISOString()]; when that throws
    the handler answers 500, which is also its answer without the log. *)
Definition searchTrip `{Host} (req : TripReq.t) (st : Store) : SearchResponse :=
  match searchValidation req with
  | e :: errors => SearchValidationFailed (e :: errors)
  | [] =>
    let from := Str.trim (TripReq.from req) in
    let to := Str.trim (TripReq.to req) in
    match findOne (routeQuery from to) (routes st) with
    | None => SearchRouteNotFound
    | Some route =>
      let selectedDate := DateObj.ofString (TripReq.date req) in
      match normalizeTravelDate (OfDate selectedDate) with
      | Throw _ => SearchFailed
      | Normal travelDate =>
        let dayOfWeek := DateObj.getUTCDay travelDate in
        let dayRefused :=
          match Route.availableDays route with
          | Some days => (0 <? Z.of_nat (List.length days)) && negb (includesDay days dayOfWeek)
          | None => false
          end in
        if dayRefused then
          (* the response carries [travelDate.toISOString()] *)
          match DateObj.toISOString travelDate with
          | Throw _ => SearchFailed
          | Normal _ =>
              SearchNotAvailable
                (match Route.availableDays route with Some d => d | None => [] end)
          end
        else
          match formatDateKey (OfDate travelDate) with
          | Throw _ => SearchFailed
          | Normal travelDateKey =>
            let closed :=
              match Route.closedDates route with
              | Some keys => includesKey keys travelDateKey
              | None => false
              end in
            if closed then SearchClosed travelDateKey
            else
              match DateObj.toISOString travelDate with
              | Throw _ => SearchFailed
              | Normal normalizedIso => TripFound route normalizedIso
              end
          end
      end
    end
  end.

(* ================================================================== *)
(** * The route controller: closed dates *)
(* ================================================================== *)

Definition set_routes (v : list Route.t) (st : Store) : Store :=
  {| routes := v; bookings := bookings st; tickets := tickets st;
     promoCodes := promoCodes st |}.

(** [route.closedDates = v]. *)
Definition set_closedDates (v : option (list string)) (r : Route.t) : Route.t :=
  {| Route.from := Route.from r; Route.to := Route.to r;
     Route.basePrice := Route.basePrice r; Route.currency := Route.currency r;
     Route.departureTime := Route.departureTime r;
     Route.arrivalTime := Route.arrivalTime r;
     Route.fromStation := Route.fromStation r; Route.toStation := Route.toStation r;
     Route.active := Route.active r; Route.availableDays := Route.availableDays r;
     Route.studentDiscount := Route.studentDiscount r; Route.closedDates := v |}.

(** [route.closedDates || []]. *)
Definition closedDatesOf (r : Route.t) : list string :=
  match Route.closedDates r with Some keys => keys | None => [] end.

(** The [_id] of a route is its position in the collection: the handlers
    below neither insert nor delete routes, so it identifies the document. *)
Definition findById (id : nat) (coll : list Route.t) : option Route.t :=
  nth_error coll id.

(** [route.save()] on the route that [findById(id)] returned. *)
Fixpoint saveRoute (id : nat) (r : Route.t) (coll : list Route.t) : list Route.t :=
  match coll, id with
  | [], _ => []
  | _ :: rest, O => r :: rest
  | x :: rest, S id' => x :: saveRoute id' r rest
  end.

(** The position of the document that [findOne(query)] returns. *)
Fixpoint idOfFirst {A : Type} (query : A -> bool) (coll : list A) : option nat :=
  match coll with
  | [] => None
  | x :: rest => if query x then Some O else option_map S (idOfFirst query rest)
  end.

(** The validator of [closedDates] in [RouteSchema], run by [route.save()]
    when the path was modified. *)
Definition closedDatesValid (dates : list string) : bool :=
  forallb Str.isBareCalendarDate dates.

(** The responses of [addClosedDate] and [removeClosedDate]; the 200 bodies
    carry [route.toObject()]. *)
Inductive ClosedDateResponse : Type :=
| ClosedDateValidationFailed (errors : list string)
    (** 400, [{ errors }] *)
| ClosedDateInvalid (message : string)
    (** 400, [{ error: message }], what [formatDateKey] threw *)
| ClosedDateRouteNotFound
    (** 404, 'Route not found' *)
| RouteClosedForDate (route : Route.t)
    (** 200, 'Route closed for selected date' *)
| RouteReopenedForDate (route : Route.t)
    (** 200, 'Route reopened for selected date' *)
| ClosedDateFailed.
    (** 500, 'Failed to add closed date' / 'Failed to remove closed date' *)

(** The chain of both routes on the date:
    [trim().notEmpty().custom(value => /^\d{4}-\d{2}-\d{2}$/.test(value) ||
    !Number.isNaN(new Date(value).getTime()))].  The [id] is checked with
    [isMongoId()]; every [id] here is well formed. *)
Definition closedDateValidation `{Host} (date : string) : list string :=
  let value := Str.trim date in
  collectErrors
    [ ("date", notEmpty date);
      ("date",
       Str.isBareCalendarDate value
       || match DateObj.getTime (DateObj.ofString value) with
          | Some _ => true
          | None => false
          end) ]%string.

(** [addClosedDate] (route controller, lines 628-676 of part_001). *)
Definition addClosedDate `{Host} (id : nat) (date : string) (st : Store)
  : Store * ClosedDateResponse :=
  match closedDateValidation date with
  | e :: errors => (st, ClosedDateValidationFailed (e :: errors))
  | [] =>
    let date := Str.trim date in
    match formatDateKey (OfString date) with
    | Throw message => (st, ClosedDateInvalid message)
    | Normal dateKey =>
      match findById id (routes st) with
      | None => (st, ClosedDateRouteNotFound)
      | Some route =>
        let closedDates := closedDatesOf route in
        if negb (includesKey closedDates dateKey) then
          let closedDates := Arr.sort (closedDates ++ [dateKey]) in
          let route := set_closedDates (Some closedDates) route in
          if closedDatesValid closedDates
          then (set_routes (saveRoute id route (routes st)) st, RouteClosedForDate route)
          else (st, ClosedDateFailed)
        else (st, RouteClosedForDate (set_closedDates (Some closedDates) route))
      end
    end
  end.

(** [removeClosedDate] (route controller, lines 679-723 of part_001). *)
Definition removeClosedDate `{Host} (id : nat) (date : string) (st : Store)
  : Store * ClosedDateResponse :=
  match closedDateValidation date with
  | e :: errors => (st, ClosedDateValidationFailed (e :: errors))
  | [] =>
    let date := Str.trim date in
    match formatDateKey (OfString date) with
    | Throw message => (st, ClosedDateInvalid message)
    | Normal dateKey =>
      match findById id (routes st) with
      | None => (st, ClosedDateRouteNotFound)
      | Some route =>
        let stored := closedDatesOf route in
        let initialLength := List.length stored in
        let closedDates := filter (fun item => negb (String.eqb item dateKey)) stored in
        let route := set_closedDates (Some closedDates) route in
        if negb (Nat.eqb (List.length closedDates) initialLength) then
          if closedDatesValid closedDates
          then (set_routes (saveRoute id route (routes st)) st, RouteReopenedForDate route)
          else (st, ClosedDateFailed)
        else (st, RouteReopenedForDate route)
      end
    end
  end.

(* ================================================================== *)
(** * The payment controller: the webhook *)
(* ================================================================== *)

(** The [Stripe.Event] that [constructEvent] returns, by its [type]. *)
Inductive StripeEvent : Type :=
| payment_intent_succeeded (paymentIntent : PaymentIntent.t)
| payment_intent_payment_failed (paymentIntent : PaymentIntent.t)
| other_event (type : string).

(** The request of [POST /api/payments/webhook]: the [stripe-signature]
    header and the raw body. *)
Record WebhookReq : Type := {
  stripe_signature : option string;
  body : string
}.

(** [process.env.STRIPE_WEBHOOK_SECRET] ([None] when it is not set) and
    [stripe.webhooks.constructEvent(body, sig, secret)], [None] when it
    throws. *)
Record WebhookConfig : Type := {
  STRIPE_WEBHOOK_SECRET : option string;
  constructEvent : string -> string -> string -> option StripeEvent
}.

(** The responses of [handleWebhook]. *)
Inductive WebhookResponse : Type :=
| MissingSignature
    (** 400, 'Missing stripe-signature header' *)
| SecretNotConfigured
    (** 500, 'Webhook secret not configured' *)
| SignatureVerificationFailed
    (** 400, 'Webhook signature verification failed' *)
| Received
    (** 200, [{ received: true }] *)
| ReceivedWithError.
    (** 200, [{ received: true, error: 'Processing failed but acknowledged' }] *)

(** [handleWebhook] (payment controller, lines 679-739 of part_000). *)
Definition handleWebhook (config : WebhookConfig) (env : PaymentEnv)
  (req : WebhookReq) (st : Store) : Store * WebhookResponse :=
  let sig := match stripe_signature req with Some s => s | None => EmptyString end in
  let webhookSecret :=
    match STRIPE_WEBHOOK_SECRET config with
    | Some s => if Str.truthy s then s else EmptyString
    | None => EmptyString
    end in
  if negb (Str.truthy sig) then (st, MissingSignature)
  else if negb (Str.truthy webhookSecret) then (st, SecretNotConfigured)
  else
    match constructEvent config (body req) sig webhookSecret with
    | None => (st, SignatureVerificationFailed)
    | Some event =>
      let '(st, outcome) :=
        match event with
        | payment_intent_succeeded paymentIntent =>
            handlePaymentSuccess env paymentIntent st
        | payment_intent_payment_failed paymentIntent =>
            handlePaymentFailed paymentIntent st
        | other_event _ => (st, Normal tt)
        end in
      match outcome with
      | Normal _ => (st, Received)
      | Throw _ => (st, ReceivedWithError)
      end
    end.

(* ================================================================== *)
(** * Further sample data *)
(* ================================================================== *)

Module Scenario.

Local Open Scope string_scope.

(** SPRING5: 5 off, for the first two payments. *)
Definition spring5 : PromoCode.t :=
  {| PromoCode.code := "SPRING5"; PromoCode.discountPercent := n0;
     PromoCode.discountFixed := JS.ofZ 5; PromoCode.maxDiscount := n0;
     PromoCode.validFrom := 1704067200000; PromoCode.validUntil := 1767139200000;
     PromoCode.usageLimit := 2; PromoCode.usageCount := 0;
     PromoCode.active := true |}.

(** The return route, not in service. *)
Definition returnRoute : Route.t :=
  {| Route.from := "Brasov"; Route.to := "Chisinau";
     Route.basePrice := JS.ofZ 125; Route.currency := "RON";
     Route.departureTime := "18:00"; Route.arrivalTime := "02:00";
     Route.fromStation := "Autogara 2"; Route.toStation := "Gara de Nord";
     Route.active := false; Route.availableDays := None;
     Route.studentDiscount := None; Route.closedDates := Some [] |}.

(** A second line out of Chisinau. *)
Definition iasiRoute : Route.t :=
  {| Route.from := "Chisinau"; Route.to := "Iasi";
     Route.basePrice := JS.ofZ 60; Route.currency := "RON";
     Route.departureTime := "09:00"; Route.arrivalTime := "13:00";
     Route.fromStation := "Gara de Nord"; Route.toStation := "Autogara Vest";
     Route.active := true; Route.availableDays := None;
     Route.studentDiscount := None; Route.closedDates := Some [] |}.

Definition network : Store :=
  {| routes := [Sample.route; returnRoute; iasiRoute]; bookings := []; tickets := [];
     promoCodes := [Sample.welcome10; spring5] |}.

(** The sample route after Monday 2025-06-09 was closed as well, and after
    Wednesday 2025-06-11 was reopened. *)
Definition closedRoute : Route.t :=
  set_closedDates (Some ["2025-06-09"; "2025-06-11"]) Sample.route.

Definition closedNetwork : Store :=
  set_routes [closedRoute; returnRoute; iasiRoute] network.

Definition reopenedRoute : Route.t := set_closedDates (Some []) Sample.route.

Definition reopenedNetwork : Store :=
  set_routes [reopenedRoute; returnRoute; iasiRoute] network.

(** A booking for Monday 2025-06-09. *)
Definition mondayRequest : BookingReq.t :=
  {| BookingReq.from := "Chisinau"; BookingReq.to := "Brasov";
     BookingReq.date := "2025-06-09"; BookingReq.passenger := Sample.passenger;
     BookingReq.promoCode := None; BookingReq.studentDiscount := None |}.

(** The search of the trip that [Sample.request] books. *)
Definition search : TripReq.t :=
  {| TripReq.from := "Chisinau"; TripReq.to := "Brasov"; TripReq.date := "2025-06-10" |}.

(** A second booking, made after the first was paid, and its payment
    intent.  The event is handled while the uuid generator repeats itself, so
    the ticket cannot be inserted. *)
Definition secondEnv : BookingEnv :=
  {| now := 1735689600000; uuid := "2b3c4d5e-6f70-4a7b-8c9d-0e1f2a3b4c5d" |}.

Definition secondBookingId : string := "BK-2B3C4D5E".

Definition twoBookings : Store :=
  fst (createBooking (H := Sample.host) secondEnv Sample.studentRequest Sample.paidStore).

Definition secondIntent : PaymentIntent.t :=
  {| PaymentIntent.id := "pi_3Second";
     PaymentIntent.metadata_bookingId := Some secondBookingId;
     PaymentIntent.amount_received := Some (JS.ofZ 11800);
     PaymentIntent.amount := Some (JS.ofZ 11800);
     PaymentIntent.currency := Some "ron" |}.

Definition stuckStore : Store :=
  fst (handlePaymentSuccess Sample.paymentEnv secondIntent twoBookings).

(** The request for a payment sheet of the pending sample booking. *)
Definition sheetRequest : SheetReq.t :=
  {| SheetReq.bookingId := Sample.bookingId; SheetReq.totalAmount := None;
     SheetReq.studentDiscount := None |}.

(** The store after that request was answered by [Sample.stripe]. *)
Definition sheetStore : Store :=
  fst (createPaymentSheet Sample.stripe sheetRequest Sample.pendingStore).

(** The same request with the amount that the client wants to be charged. *)
Definition cheapRequest : SheetReq.t :=
  {| SheetReq.bookingId := Sample.bookingId; SheetReq.totalAmount := Some (JS.ofZ 1);
     SheetReq.studentDiscount := None |}.

(** A Stripe client that would create another customer. *)
Definition stripe' : Stripe :=
  {| customers_create := fun _ _ _ _ => Some "cus_Another";
     paymentIntents_create := fun _ _ _ _ => Some ("pi_3Second", "pi_3Second_secret");
     ephemeralKeys_create := fun _ => Some "ek_Second" |}.

End Scenario.

(* ================================================================== *)
(** * Properties of the comparison of numbers *)
(* ================================================================== *)

Lemma SFcompare_refl (x : JS.Number) :
  JS.isNaN x = false -> SFcompare x x = Some Eq.
Proof.
  destruct x as [s|s| |s m e]; simpl; try discriminate; intros _;
    destruct s; try reflexivity;
    rewrite Z.compare_refl, Pos.compare_cont_refl; reflexivity.
Qed.

Lemma SFcompare_antisym (x y : JS.Number) :
  SFcompare y x = option_map CompOpp (SFcompare x y).
Proof.
  destruct x as [s|s| |s m e], y as [s'|s'| |s' m' e']; simpl;
    try reflexivity; try (destruct s; reflexivity);
    try (destruct s'; reflexivity);
    try (destruct s, s'; reflexivity).
  assert (Hm : Pos.compare_cont Eq m' m = CompOpp (Pos.compare_cont Eq m m'))
    by exact (eq_sym (Pos.compare_cont_antisym m m' Eq)).
  destruct s, s'; try reflexivity; f_equal;
    rewrite (Z.compare_antisym e e'), Hm;
    destruct (e ?= e'); simpl; try reflexivity;
    destruct (Pos.compare_cont Eq m m'); reflexivity.
Qed.

Lemma compare_not_NaN (x y : JS.Number) :
  JS.isNaN x = false -> JS.isNaN y = false -> exists c, SFcompare x y = Some c.
Proof.
  destruct x, y; simpl; try discriminate; intros _ _; eauto.
Qed.

Lemma leb_refl (x : JS.Number) : JS.isNaN x = false -> (x <=? x)%js = true.
Proof.
  intros H. unfold JS.leb, SFleb. now rewrite SFcompare_refl.
Qed.

Lemma ltb_leb (x y : JS.Number) : (x <? y)%js = true -> (x <=? y)%js = true.
Proof.
  unfold JS.ltb, JS.leb, SFltb, SFleb.
  destruct (SFcompare x y) as [[ | | ]|]; congruence.
Qed.

Lemma ltb_not_NaN (x y : JS.Number) :
  (x <? y)%js = true -> JS.isNaN x = false /\ JS.isNaN y = false.
Proof.
  unfold JS.ltb, SFltb. destruct x, y; simpl; try discriminate; auto.
Qed.

(** Without NaN, [x <= y] unless [y < x]. *)
Lemma not_ltb_leb (x y : JS.Number) :
  JS.isNaN x = false -> JS.isNaN y = false ->
  (y <? x)%js = false -> (x <=? y)%js = true.
Proof.
  intros Hx Hy. unfold JS.ltb, JS.leb, SFltb, SFleb.
  rewrite (SFcompare_antisym x y).
  destruct (compare_not_NaN x y Hx Hy) as [c ->]. destruct c; simpl; congruence.
Qed.


(** [Math.min] of two positive numbers is one of them. *)
Lemma Math_min_pos_cases (a b : JS.Number) :
  (a >? n0)%js = true -> (b >? n0)%js = true ->
  JS.Math_min a b = a \/ JS.Math_min a b = b.
Proof.
  intros Ha Hb. unfold JS.gtb in *.
  destruct (ltb_not_NaN _ _ Ha) as [_ Na], (ltb_not_NaN _ _ Hb) as [_ Nb].
  unfold JS.Math_min. rewrite Na, Nb. simpl.
  destruct (_ || _); auto.
Qed.

Lemma Math_min_pos (a b : JS.Number) :
  (a >? n0)%js = true -> (b >? n0)%js = true -> (JS.Math_min a b >? n0)%js = true.
Proof.
  intros Ha Hb. destruct (Math_min_pos_cases a b Ha Hb) as [-> | ->]; assumption.
Qed.

(** [Math.min(a, b) <= b] and [Math.min(a, b) <= a] without NaN. *)
Lemma Math_min_le_r (a b : JS.Number) :
  JS.isNaN a = false -> JS.isNaN b = false -> (JS.Math_min a b <=? b)%js = true.
Proof.
  intros Na Nb. unfold JS.Math_min. rewrite Na, Nb. simpl.
  destruct (JS.ltb b a) eqn:Hlt; simpl.
  - now apply leb_refl.
  - destruct (JS.isNegZero b && JS.isPosZero a).
    + now apply leb_refl.
    + now apply not_ltb_leb.
Qed.

Lemma strictEq_refl (x : JS.Number) : JS.isNaN x = false -> (x === x)%js = true.
Proof.
  intros H. unfold JS.strictEq, SFeqb. now rewrite SFcompare_refl.
Qed.

(** A number that is [>= 0] and not [> 0] is a zero. *)
Lemma geb_0_not_gtb (x : JS.Number) :
  (x >=? n0)%js = true -> (x >? n0)%js = false -> (x === n0)%js = true.
Proof.
  unfold JS.geb, JS.gtb, JS.strictEq, SFleb, SFltb, SFeqb.
  rewrite (SFcompare_antisym n0 x).
  destruct (SFcompare n0 x) as [[ | | ]|]; simpl; congruence.
Qed.

(* ================================================================== *)
(** * Properties of the collections *)
(* ================================================================== *)

Section Collections.
Context {A : Type}.
Variables (query : A -> bool) (update : A -> A).

Lemma findOne_query (coll : list A) (x : A) :
  findOne query coll = Some x -> query x = true.
Proof. intros H. apply (find_some _ _ H). Qed.

(** An update that keeps the key is seen by the next [findOne]. *)
Lemma findOne_updateOne (coll : list A) :
  (forall x, query x = true -> query (update x) = true) ->
  findOne query (updateOne query update coll) = option_map update (findOne query coll).
Proof.
  intros Hkeep. induction coll as [|x rest IH]; simpl; [reflexivity|].
  destruct (query x) eqn:Hq; simpl.
  - now rewrite (Hkeep x Hq).
  - now rewrite Hq.
Qed.

Lemma findOne_absent_filter (coll : list A) :
  findOne query coll = None -> filter query coll = [].
Proof.
  induction coll as [|x rest IH]; simpl; [reflexivity|].
  destruct (query x); [discriminate|]. exact IH.
Qed.

End Collections.

Lemma byBookingId_eq (id : string) (b : Booking.t) :
byBookingId id b = true -> Booking.bookingId b = id.
Proof. unfold byBookingId. apply String.eqb_eq. Qed.

Lemma BookingStatus_eqb_eq (a b : BookingStatus) :
BookingStatus_eqb a b = true <-> a = b.
Proof. destruct a, b; simpl; split; congruence. Qed.


(* ================================================================== *)
(** * Dates *)
(* ================================================================== *)

Import TimeValue.

(** The largest time value, 100,000,000 days after the epoch. *)
Lemma TimeClip_Some (t : Z) :
  - 8640000000000000 <= t <= 8640000000000000 -> TimeClip t = Some t.
Proof.
  intros Ht. unfold TimeClip.
  destruct (Z.abs t <=? 8640000000000000) eqn:E; [reflexivity|].
  apply Z.leb_gt in E. lia.
Qed.

Lemma TimeClip_inv (t u : Z) :
  TimeClip t = Some u -> u = t /\ - 8640000000000000 <= t <= 8640000000000000.
Proof.
  unfold TimeClip. destruct (Z.abs t <=? 8640000000000000) eqn:E; [|discriminate].
  apply Z.leb_le in E. intros [= <-]. lia.
Qed.

Lemma TimeClip_None (t : Z) :
  8640000000000000 < t -> TimeClip t = None.
Proof.
  intros Ht. unfold TimeClip.
  destruct (Z.abs t <=? 8640000000000000) eqn:E; [|reflexivity].
  apply Z.leb_le in E. lia.
Qed.

(** [YearFromTime] is the year of ECMA-262: the one whose first day is at or
    before the day of [t] while the first day of the next year is after it. *)
Lemma YearFromTime_spec (t : Z) :
  DayFromYear (YearFromTime t) <= Day t < DayFromYear (YearFromTime t + 1).
Proof.
  unfold YearFromTime. set (d := Day t). clearbody d.
  set (y := 1970 + 400 * d / 146097).
  assert (Hy : 146097 * (y - 1970) <= 400 * d < 146097 * (y - 1970) + 146097).
  { subst y. pose proof (Z.div_mod (400 * d) 146097 ltac:(discriminate)).
    pose proof (Z.mod_pos_bound (400 * d) 146097 ltac:(lia)). lia. }
  clearbody y.
  destruct (DayFromYear (y + 1) <=? d) eqn:E1;
    [apply Z.leb_le in E1|apply Z.leb_gt in E1;
      destruct (d <? DayFromYear y) eqn:E2;
      [apply Z.ltb_lt in E2|apply Z.ltb_ge in E2]];
    unfold DayFromYear in *; Z.to_euclidean_division_equations; lia.
Qed.

(** A year has [DaysInYear] days. *)
Lemma DayFromYear_next (y : Z) : DayFromYear (y + 1) = DayFromYear y + DaysInYear y.
Proof.
  unfold DayFromYear, DaysInYear.
  destruct (Z.eqb_spec (y mod 4) 0), (Z.eqb_spec (y mod 100) 0),
    (Z.eqb_spec (y mod 400) 0); cbn [negb];
    Z.to_euclidean_division_equations; lia.
Qed.

(** The day within the year, the month and the day of the month are in their
    ranges. *)
Lemma DayWithinYear_range (t : Z) :
  0 <= DayWithinYear t < DaysInYear (YearFromTime t).
Proof.
  unfold DayWithinYear. pose proof (YearFromTime_spec t) as Hy.
  rewrite DayFromYear_next in Hy. lia.
Qed.

Lemma calendar_fields_range (t : Z) :
  0 <= MonthFromTime t <= 11
  /\ 1 <= DateFromTime t <= DaysInMonth (YearFromTime t) (MonthFromTime t).
Proof.
  pose proof (DayWithinYear_range t) as Hd.
  unfold DateFromTime, MonthFromTime, InLeapYear, DaysInMonth, leapDays in *.
  set (d := DayWithinYear t) in *. clearbody d.
  destruct (DaysInYear (YearFromTime t) =? 366) eqn:El;
    [apply Z.eqb_eq in El|apply Z.eqb_neq in El;
      assert (DaysInYear (YearFromTime t) = 365)
        by (unfold DaysInYear in *;
            repeat match goal with
                   | |- context [if ?c then _ else _] => destruct c
                   end; lia)];
    repeat match goal with
           | |- context [if ?c <? ?e then _ else _] =>
               let E := fresh "E" in
               destruct (c <? e) eqn:E;
               [apply Z.ltb_lt in E|apply Z.ltb_ge in E]
           end; cbv iota; lia.
Qed.

(** The calendar fields of a time value give back its day number: the month
    and date tables of ECMA-262 are inverse to [MakeDay]. *)
Lemma MakeDay_fields (t k : Z) :
  MakeDay (YearFromTime t) (MonthFromTime t) (DateFromTime t + k) = Day t + k.
Proof.
  unfold MakeDay, DateFromTime, MonthFromTime, InLeapYear, DayWithinYear.
  set (y := YearFromTime t). set (l := leapDays y). set (d := Day t - DayFromYear y).
  repeat match goal with
         | |- context [if ?c then _ else _] => destruct c
         end;
    repeat match goal with
           | |- context [Z.div ?a 12] =>
               let v := eval vm_compute in (Z.div a 12) in change (Z.div a 12) with v
           | |- context [Z.modulo ?a 12] =>
               let v := eval vm_compute in (Z.modulo a 12) in change (Z.modulo a 12) with v
           end;
    cbn [monthStart]; rewrite !Z.add_0_r; fold y l; subst d; lia.
Qed.

Lemma Day_TimeWithinDay (t : Z) :
  t = Day t * msPerDay + TimeWithinDay t /\ 0 <= TimeWithinDay t < msPerDay.
Proof.
  unfold Day, TimeWithinDay, msPerDay.
  pose proof (Z.div_mod t 86400000). pose proof (Z.mod_pos_bound t 86400000). lia.
Qed.

Lemma Day_of_midnight (d : Z) : Day (d * msPerDay) = d.
Proof. unfold Day, msPerDay. apply Z.div_mul. discriminate. Qed.

Lemma Day_next (t : Z) : Day (t + msPerDay) = Day t + 1.
Proof.
  unfold Day, msPerDay.
  replace (t + 86400000) with (t + 1 * 86400000) by lia.
  apply Z.div_add. discriminate.
Qed.

Lemma HourFromTime_midnight (d : Z) : HourFromTime (d * msPerDay) = 0.
Proof.
  unfold HourFromTime, msPerDay, msPerHour.
  replace (d * 86400000) with (d * 24 * 3600000) by lia.
  rewrite Z.div_mul by discriminate. apply Z.mod_mul. discriminate.
Qed.

(** [setUTCDate(getUTCDate() + 1)] moves a date one day ahead. *)
Lemma setUTCDate_next (t : Z) :
  DateObj.setUTCDate (Some t) (DateObj.plus (DateObj.getUTCDate (Some t)) 1)
  = TimeClip (t + msPerDay).
Proof.
  unfold DateObj.setUTCDate, DateObj.plus, DateObj.getUTCDate. simpl.
  rewrite MakeDay_fields. unfold MakeDate. f_equal.
  destruct (Day_TimeWithinDay t) as [Ht _]. lia.
Qed.

(** [setUTCHours(0, 0, 0, 0)] truncates a date to the midnight of its day. *)
Lemma setUTCHours_midnight (t : Z) :
  DateObj.setUTCHours (Some t) 0 0 0 0 = TimeClip (Day t * msPerDay).
Proof.
  unfold DateObj.setUTCHours, MakeDate, MakeTime. f_equal. lia.
Qed.

(** [normalizeTravelDate] on a valid date: the midnight of its day, or of the
    next day when the hour is 12 or more. *)
Lemma normalizeTravelDate_date `{Host} (t : Z) :
  normalizeTravelDate (OfDate (Some t))
  = Normal (if 12 <=? HourFromTime t
            then match TimeClip (t + msPerDay) with
                 | Some _ => TimeClip ((Day t + 1) * msPerDay)
                 | None => None
                 end
            else TimeClip (Day t * msPerDay)).
Proof.
  unfold normalizeTravelDate, DateObj.copy. cbn [DateObj.getTime].
  change (DateObj.geb (DateObj.getUTCHours (Some t)) 12) with (12 <=? HourFromTime t).
  destruct (12 <=? HourFromTime t).
  - rewrite setUTCDate_next. destruct (TimeClip (t + msPerDay)) as [u|] eqn:Hu.
    + apply TimeClip_inv in Hu. destruct Hu as [-> _].
      now rewrite setUTCHours_midnight, Day_next.
    + reflexivity.
  - now rewrite setUTCHours_midnight.
Qed.

(** The same inside the range of time values. *)
Lemma normalizeTravelDate_valid_date `{Host} (t : Z) :
  - 8640000000000000 <= t <= 8640000000000000 ->
  normalizeTravelDate (OfDate (Some t))
  = Normal (if 12 <=? HourFromTime t
            then if t + msPerDay <=? 8640000000000000
                 then Some ((Day t + 1) * msPerDay) else None
            else Some (Day t * msPerDay)).
Proof.
  intros Ht. rewrite normalizeTravelDate_date. f_equal.
  destruct (Day_TimeWithinDay t) as [Hd Hw]. unfold msPerDay in *.
  destruct (12 <=? HourFromTime t).
  - destruct (t + 86400000 <=? 8640000000000000) eqn:E.
    + apply Z.leb_le in E. rewrite (TimeClip_Some (t + 86400000)) by lia.
      apply TimeClip_Some. lia.
    + apply Z.leb_gt in E. now rewrite TimeClip_None.
  - apply TimeClip_Some. lia.
Qed.

(** Whatever the input, the result is the result for the date it denotes. *)
Lemma normalizeTravelDate_parsed `{Host} (input : DateInput) (d : Date) :
  normalizeTravelDate input = Normal d ->
  exists u, normalizeTravelDate (OfDate (Some u)) = Normal d.
Proof.
  unfold normalizeTravelDate, DateObj.copy, DateObj.getTime.
  destruct input as [s|[u|]]; [|eauto|discriminate].
  destruct (negb (Str.truthy (Str.trim s))); [discriminate|].
  destruct (Str.isBareCalendarDate (Str.trim s)).
  - destruct (DateObj.ofString _) as [u|]; [eauto|discriminate].
  - destruct (DateObj.ofString _) as [u|]; [eauto|discriminate].
Qed.

(** What [normalizeTravelDate] returns is a midnight, and normalising it
    again changes nothing. *)
Lemma normalizeTravelDate_midnight `{Host} (input : DateInput) (t : Z) :
  normalizeTravelDate input = Normal (Some t) ->
  t = Day t * msPerDay /\ - 8640000000000000 <= t <= 8640000000000000.
Proof.
  intros Hn. destruct (normalizeTravelDate_parsed input _ Hn) as [u Hu].
  rewrite normalizeTravelDate_date in Hu.
  assert (Hmid : exists v, TimeClip (v * msPerDay) = Some t).
  { destruct (12 <=? HourFromTime u).
    - destruct (TimeClip (u + msPerDay)); [|discriminate].
      exists (Day u + 1). congruence.
    - exists (Day u). congruence. }
  destruct Hmid as [v Hv]. apply TimeClip_inv in Hv. destruct Hv as [-> Hr].
  rewrite Day_of_midnight. auto.
Qed.

Lemma normalizeTravelDate_idempotent `{Host} (input : DateInput) (t : Z) :
  normalizeTravelDate input = Normal (Some t) ->
  normalizeTravelDate (OfDate (Some t)) = Normal (Some t).
Proof.
  intros Hn. destruct (normalizeTravelDate_midnight input t Hn) as [Hmid Hr].
  assert (Hh : HourFromTime t = 0) by (rewrite Hmid; apply HourFromTime_midnight).
  rewrite normalizeTravelDate_date, Hh. change (12 <=? 0) with false. cbv iota.
  rewrite <- Hmid. now rewrite TimeClip_Some.
Qed.

(** The date key of a normalised travel day is the calendar part of its ISO
    string. *)
Lemma formatDateKey_normalised `{Host} (input : DateInput) (t : Z) :
  normalizeTravelDate input = Normal (Some t) ->
  formatDateKey (OfDate (Some t)) = Normal (dateKeyOf t).
Proof.
  intros Hn. unfold dateKeyOf, formatDateKey.
  rewrite (normalizeTravelDate_idempotent input t Hn). reflexivity.
Qed.

(** [normalizeTravelDate] on a string: the empty string and the strings that
    do not parse throw, the others are handled as the date they denote. *)
Lemma normalizeTravelDate_string `{Host} (s : string) :
  normalizeTravelDate (OfString s)
  = if negb (Str.truthy (Str.trim s)) then Throw "Date value cannot be empty"
    else
      match DateObj.parse (if Str.isBareCalendarDate (Str.trim s)
                           then Str.trim s ++ "T00:00:00.000Z"
                           else Str.trim s) with
      | None => Throw "Invalid date value"
      | Some t => normalizeTravelDate (OfDate (Some t))
      end.
Proof.
  unfold normalizeTravelDate, DateObj.ofString, DateObj.copy, DateObj.getTime.
  destruct (negb (Str.truthy (Str.trim s))); [reflexivity|].
  destruct (Str.isBareCalendarDate (Str.trim s));
    destruct (DateObj.parse _); reflexivity.
Qed.

Lemma list_ascii_of_string_append (a b : string) :
  list_ascii_of_string (a ++ b) = list_ascii_of_string a ++ list_ascii_of_string b.
Proof. induction a as [|c a IH]; simpl; [reflexivity|]. now rewrite IH. Qed.

Lemma digitValue_bounds (c : ascii) (v : Z) :
  Str.digitValue c = Some v -> 0 <= v <= 9.
Proof.
  unfold Str.digitValue, Str.isDigit.
  destruct (_ && _) eqn:Hd; [|discriminate]. intros [= <-].
  apply andb_true_iff in Hd. destruct Hd as [H1 H2].
  apply Z.leb_le in H1, H2. lia.
Qed.

(** Digits that were read are read again when more text follows. *)
Lemma readDigits_app (n : nat) (acc : Z) (l rest sfx : list ascii) (v : Z) :
  Str.readDigits n acc l = Some (v, rest) ->
  Str.readDigits n acc (l ++ sfx) = Some (v, rest ++ sfx).
Proof.
  revert acc l. induction n as [|n IH]; intros acc l; simpl.
  - now intros [= -> ->].
  - destruct l as [|c l]; [discriminate|]. simpl.
    destruct (Str.digitValue c); [apply IH|discriminate].
Qed.

(** [n] digits spell a number below [10^n]. *)
Lemma readDigits_bounds (n : nat) (acc : Z) (l rest : list ascii) (v : Z) :
  Str.readDigits n acc l = Some (v, rest) ->
  acc * 10 ^ Z.of_nat n <= v < (acc + 1) * 10 ^ Z.of_nat n.
Proof.
  revert acc l. induction n as [|n IH]; intros acc l.
  - simpl. intros [= -> ->]. lia.
  - cbn [Str.readDigits]. destruct l as [|c l]; [discriminate|].
    destruct (Str.digitValue c) as [d|] eqn:Hd; [|discriminate].
    intros Hr. apply IH in Hr. apply digitValue_bounds in Hd.
    rewrite Nat2Z.inj_succ, Z.pow_succ_r by lia.
    assert (0 < 10 ^ Z.of_nat n) by (apply Z.pow_pos_nonneg; lia).
    nia.
Qed.

Lemma expect_app_T (c : ascii) (l sfx : list ascii) (rest : list ascii) :
  DateObj.expect c l = Some rest -> DateObj.expect c (l ++ sfx) = Some (rest ++ sfx).
Proof.
  destruct l as [|x l]; simpl; [discriminate|].
  destruct (Ascii.eqb x c); [|discriminate]. now intros [= <-].
Qed.

(** A calendar part that ends the string is read the same when a time
    follows it. *)
Lemma parseDatePart_before_time (l sfx : list ascii) (y m d : Z) :
  DateObj.parseDatePart l = Some (y, m, d, []) ->
  DateObj.parseDatePart (l ++ "T"%char :: sfx) = Some (y, m, d, "T"%char :: sfx).
Proof.
  unfold DateObj.parseDatePart.
  destruct (Str.readDigits 4 0 l) as [[y' l0]|] eqn:Ey; [|discriminate].
  rewrite (readDigits_app _ _ _ _ ("T"%char :: sfx) _ Ey).
  destruct (DateObj.expect "-" l0) as [l1|] eqn:E1.
  - rewrite (expect_app_T _ _ ("T"%char :: sfx) _ E1).
    destruct (Str.readDigits 2 0 l1) as [[m' l2]|] eqn:Em; [|discriminate].
    rewrite (readDigits_app _ _ _ _ ("T"%char :: sfx) _ Em).
    destruct (DateObj.expect "-" l2) as [l3|] eqn:E2.
    + rewrite (expect_app_T _ _ ("T"%char :: sfx) _ E2).
      destruct (Str.readDigits 2 0 l3) as [[d' l4]|] eqn:Ed; [|discriminate].
      rewrite (readDigits_app _ _ _ _ ("T"%char :: sfx) _ Ed).
      now intros [= -> -> -> ->].
    + intros [= -> -> <- ->]. reflexivity.
  - intros [= -> <- <- ->]. reflexivity.
Qed.

Lemma parseDatePart_year (l rest : list ascii) (y m d : Z) :
  DateObj.parseDatePart l = Some (y, m, d, rest) -> 0 <= y <= 9999.
Proof.
  unfold DateObj.parseDatePart.
  destruct (Str.readDigits 4 0 l) as [[y' l0]|] eqn:Ey; [|discriminate].
  apply readDigits_bounds in Ey. change (10 ^ Z.of_nat 4) with 10000 in Ey.
  destruct (DateObj.expect "-" l0) as [l1|].
  - destruct (Str.readDigits 2 0 l1) as [[m' l2]|]; [|discriminate].
    destruct (DateObj.expect "-" l2) as [l3|].
    + destruct (Str.readDigits 2 0 l3) as [[d' l4]|]; [|discriminate].
      intros [= <- _ _ _]. lia.
    + intros [= <- _ _ _]. lia.
  - intros [= <- _ _ _]. lia.
Qed.

Lemma DayFromYear_bounds (y : Z) :
  0 <= y <= 9999 -> -719528 <= DayFromYear y <= 2932532.
Proof.
  intros Hy. unfold DayFromYear.
  pose proof (Z.div_mod (y - 1969) 4). pose proof (Z.mod_pos_bound (y - 1969) 4).
  pose proof (Z.div_mod (y - 1901) 100). pose proof (Z.mod_pos_bound (y - 1901) 100).
  pose proof (Z.div_mod (y - 1601) 400). pose proof (Z.mod_pos_bound (y - 1601) 400).
  lia.
Qed.

Lemma leapDays_bounds (y : Z) : 0 <= leapDays y <= 1.
Proof. unfold leapDays. destruct (DaysInYear y =? 366); lia. Qed.

Lemma DaysInMonth_bounds (y m : Z) : 28 <= DaysInMonth y m <= 31.
Proof.
  pose proof (leapDays_bounds y). unfold DaysInMonth.
  repeat match goal with
         | |- context [match ?x with _ => _ end] => destruct x
         end; lia.
Qed.

(** The day number of a date of the years 0 to 9999 is far inside the range
    of time values. *)
Lemma MakeDay_bounds (y m d : Z) :
  0 <= y <= 9999 -> 1 <= m <= 12 -> 1 <= d <= 31 ->
  -719528 <= MakeDay y (m - 1) d <= 2932898.
Proof.
  intros Hy Hm Hd. unfold MakeDay.
  assert (Hq : (m - 1) / 12 = 0) by (apply Z.div_small; lia).
  assert (Hr : (m - 1) mod 12 = m - 1) by (apply Z.mod_small; lia).
  rewrite Hq, Hr, Z.add_0_r.
  pose proof (DayFromYear_bounds y Hy). pose proof (leapDays_bounds y).
  set (l := leapDays y) in *.
  assert (0 <= monthStart (m - 1) l <= 335).
  { assert (Hc : m = 1 \/ m = 2 \/ m = 3 \/ m = 4 \/ m = 5 \/ m = 6 \/ m = 7
                 \/ m = 8 \/ m = 9 \/ m = 10 \/ m = 11 \/ m = 12) by lia.
    repeat (destruct Hc as [-> | Hc]); try subst m;
      match goal with
      | |- context [monthStart ?a _] =>
          let v := eval vm_compute in a in change a with v
      end; cbn [monthStart]; lia. }
  lia.
Qed.

(** A bare calendar date [YYYY-MM-DD] is read as the midnight (UTC) of that
    day: [y], [m] and [d] are the numbers that its three groups of digits
    spell. *)
Lemma normalizeTravelDate_bare `{Host} (s : string) (y m d : Z) :
  Str.isBareCalendarDate (Str.trim s) = true ->
  DateObj.parseDatePart (list_ascii_of_string (Str.trim s)) = Some (y, m, d, []) ->
  1 <= m <= 12 -> 1 <= d <= DaysInMonth y (m - 1) ->
  normalizeTravelDate (OfString s) = Normal (Some (MakeDay y (m - 1) d * msPerDay)).
Proof.
  intros Hbare Hparse Hm Hd.
  rewrite normalizeTravelDate_string, Hbare.
  assert (Hne : Str.truthy (Str.trim s) = true).
  { destruct (Str.trim s); [discriminate Hbare|reflexivity]. }
  rewrite Hne. cbn [negb].
  unfold DateObj.parse, DateObj.parseISO.
  rewrite list_ascii_of_string_append.
  change (list_ascii_of_string "T00:00:00.000Z")
    with ("T"%char :: list_ascii_of_string "00:00:00.000Z").
  rewrite (parseDatePart_before_time _ _ y m d Hparse).
  pose proof (parseDatePart_year _ _ _ _ _ Hparse) as Hy.
  pose proof (DaysInMonth_bounds y (m - 1)).
  assert (Hchk : (1 <=? m) && (m <=? 12) && (1 <=? d) && (d <=? DaysInMonth y (m - 1)) = true).
  { repeat (apply andb_true_iff; split); apply Z.leb_le; lia. }
  rewrite Hchk.
  change (DateObj.expect "T" ("T"%char :: list_ascii_of_string "00:00:00.000Z"))
    with (Some (list_ascii_of_string "00:00:00.000Z")).
  cbv beta iota.
  change (DateObj.parseTimePart (list_ascii_of_string "00:00:00.000Z"))
    with (Some (0, 0, 0, 0, ["Z"%char])).
  cbv beta iota.
  change (DateObj.parseZone ["Z"%char]) with (Some (Some 0)).
  cbv beta iota. change (MakeTime 0 0 0 0) with 0.
  change ((0 <=? 23) && (0 <=? 59) && (0 <=? 59)) with true. cbv iota.
  pose proof (MakeDay_bounds y m d Hy Hm ltac:(lia)) as Hday.
  assert (Ht : MakeDate (MakeDay y (m - 1) d) 0 - 0 = MakeDay y (m - 1) d * msPerDay)
    by (unfold MakeDate; lia).
  rewrite Ht, TimeClip_Some by (unfold msPerDay; lia).
  rewrite normalizeTravelDate_date, HourFromTime_midnight, Day_of_midnight.
  change (12 <=? 0) with false. cbv iota.
  rewrite TimeClip_Some by (unfold msPerDay; lia). reflexivity.
Qed.

(** C7. [normalizeTravelDate] and the date key.  A bare [YYYY-MM-DD] string
    is the midnight (UTC) of that day; every other non-empty string stands
    for the instant that [Date.parse] reads from it; a valid instant is moved
    to the next day exactly when its UTC hour is 12 or more and is then cut
    to the UTC midnight; the empty string, the strings that do not parse and
    the invalid date throw.  So the date key of "2024-12-25" is "2024-12-25"
    and the date key of "2024-12-25T14:00:00Z" is "2024-12-26". *)
Theorem normalizeTravelDate_roll_and_truncate `{Host} :
  (forall s y m d,
      Str.isBareCalendarDate (Str.trim s) = true ->
      DateObj.parseDatePart (list_ascii_of_string (Str.trim s)) = Some (y, m, d, []) ->
      1 <= m <= 12 -> 1 <= d <= DaysInMonth y (m - 1) ->
      normalizeTravelDate (OfString s)
      = Normal (Some (MakeDay y (m - 1) d * msPerDay)))
  /\ (forall s t,
        Str.truthy (Str.trim s) = true ->
        Str.isBareCalendarDate (Str.trim s) = false ->
        DateObj.parse (Str.trim s) = Some t ->
        normalizeTravelDate (OfString s) = normalizeTravelDate (OfDate (Some t)))
  /\ (forall t,
        - 8640000000000000 <= t <= 8640000000000000 ->
        normalizeTravelDate (OfDate (Some t))
        = Normal (if 12 <=? HourFromTime t
                  then if t + msPerDay <=? 8640000000000000
                       then Some ((Day t + 1) * msPerDay) else None
                  else Some (Day t * msPerDay)))
  /\ (forall s,
        Str.truthy (Str.trim s) = false ->
        normalizeTravelDate (OfString s) = Throw "Date value cannot be empty")
  /\ (forall s,
        Str.truthy (Str.trim s) = true ->
        DateObj.parse (if Str.isBareCalendarDate (Str.trim s)
                       then Str.trim s ++ "T00:00:00.000Z" else Str.trim s) = None ->
        normalizeTravelDate (OfString s) = Throw "Invalid date value")
  /\ normalizeTravelDate (OfDate None) = Throw "Invalid date value"
  /\ formatDateKey (OfString "2024-12-25") = Normal "2024-12-25"%string
  /\ formatDateKey (OfString "2024-12-25T14:00:00Z") = Normal "2024-12-26"%string.
Proof.
  split; [exact normalizeTravelDate_bare|].
  split.
  { intros s t Hne Hbare Hparse.
    now rewrite normalizeTravelDate_string, Hne, Hbare, Hparse. }
  split; [exact normalizeTravelDate_valid_date|].
  split.
  { intros s Hempty. now rewrite normalizeTravelDate_string, Hempty. }
  split.
  { intros s Hne Hparse. now rewrite normalizeTravelDate_string, Hne, Hparse. }
  split; [reflexivity|].
  split; vm_compute; reflexivity.
Qed.

(** The rule at Christmas 2024 on the sample host: the bare date is its own
    midnight, 14:00 UTC of that day is moved to the midnight of the 26th. *)
Lemma normalizeTravelDate_roll_and_truncate_witness :
  normalizeTravelDate (H := Sample.host) (OfString "2024-12-25")
  = Normal (Some 1735084800000)
  /\ normalizeTravelDate (H := Sample.host) (OfDate (Some 1735135200000))
     = Normal (Some 1735171200000).
Proof.
  destruct (normalizeTravelDate_roll_and_truncate (H := Sample.host))
    as (Hbare & _ & Hroll & _).
  split.
  - apply (Hbare "2024-12-25"%string 2024 12 25);
      try (vm_compute; reflexivity); vm_compute; split; discriminate.
  - apply (Hroll 1735135200000). lia.
Defined.

(* ================================================================== *)
(** * Booking creation *)
(* ================================================================== *)

Lemma collectErrors_nil (checks : list (string * bool)) :
  collectErrors checks = [] -> forall c, In c checks -> snd c = true.
Proof.
  unfold collectErrors. induction checks as [|[name ok] rest IH]; simpl.
  - intros _ c [].
  - destruct ok; simpl; [|discriminate].
    intros Hrest c [<- | Hin]; [reflexivity|]. now apply IH.
Qed.

(** A request that passes validation carries no student discount, or a
    finite one that is not negative. *)
Lemma bookingValidation_studentDiscount `{Host} (req : BookingReq.t) :
  bookingValidation req = [] ->
  optionalFloatMin0 (BookingReq.studentDiscount req) = true.
Proof.
  intros Hv. unfold bookingValidation in Hv.
  apply (collectErrors_nil _ Hv ("studentDiscount"%string, _)).
  simpl. do 7 right. now left.
Qed.

(** What is known when [createBooking] answers 201. *)
Lemma createBooking_created `{Host} (env : BookingEnv) (req : BookingReq.t)
  (st st' : Store) (b : Booking.t) :
  createBooking env req st = (st', Created b) ->
  exists route,
    bookingValidation req = []
    /\ findOne (routeQuery (Str.trim (BookingReq.from req)) (Str.trim (BookingReq.to req)))
         (routes st) = Some route
    /\ normalizeTravelDate (OfDate (DateObj.ofString (BookingReq.date req)))
       = Normal (Some (Booking.date b))
    /\ Booking.subtotal b = Route.basePrice route
    /\ Booking.fees b = serviceFee (Route.basePrice route)
    /\ (Booking.discount b, Booking.promoCode b)
       = applyPromo (now env) (option_map Str.trim (BookingReq.promoCode req))
           (Route.basePrice route) st
    /\ Booking.studentDiscount b
       = (if (studentDiscountAmount (BookingReq.studentDiscount req) route >? n0)%js
          then studentDiscountAmount (BookingReq.studentDiscount req) route
          else n0)
    /\ Booking.total b
       = JS.Math_max n0
           (Route.basePrice route + serviceFee (Route.basePrice route)
            - Booking.discount b
            - studentDiscountAmount (BookingReq.studentDiscount req) route)%js
    /\ Booking.status b = pending
    /\ Booking.valid b = true
    /\ st' = set_bookings (bookings st ++ [b]) st.
Proof.
  unfold createBooking.
  destruct (bookingValidation req) as [|e errors] eqn:Hval; [|discriminate].
  destruct (findOne _ (routes st)) as [route|] eqn:Hroute; [|discriminate].
  destruct (normalizeTravelDate _) as [travelDate|msg] eqn:Hnorm; [|discriminate].
  match goal with
  | |- context [if ?c then _ else _] => destruct c
  end.
  { destruct (DateObj.toISOString travelDate); discriminate. }
  destruct (formatDateKey (OfDate travelDate)) as [key|msg]; [|discriminate].
  destruct travelDate as [travelTime|]; [|discriminate].
  match goal with
  | |- context [if ?c then _ else _] => destruct c; [discriminate|]
  end.
  destruct (applyPromo _ _ _ st) as [discount validPromoCode] eqn:Hpromo.
  match goal with
  | |- context [Booking.valid ?bk] => set (booking := bk)
  end.
  destruct (Booking.valid booking) eqn:Hvalid; [|discriminate].
  destruct (negb _); [|discriminate]. simpl.
  intros [= <- <-]. exists route. subst booking. simpl.
  repeat split; auto.
Qed.

Lemma gtb_0_truthy (c : JS.Number) : (c >? n0)%js = true -> JS.truthy c = true.
Proof.
  intros Hc. destruct c as [[|]|[|]| |[|] m e]; try reflexivity; discriminate Hc.
Qed.

(** The student discount that is applied is zero or positive. *)
Lemma studentDiscountAmount_cases (requested : option JS.Number) (route : Route.t) :
  studentDiscountAmount requested route = n0
  \/ (studentDiscountAmount requested route >? n0)%js = true.
Proof.
  unfold studentDiscountAmount.
  destruct requested as [v|]; [|now left].
  destruct (v >? n0)%js eqn:Hv; [|now left].
  destruct (Route.studentDiscount route) as [c|]; [|now left].
  destruct (c >? n0)%js eqn:Hc; [|rewrite andb_false_r; now left].
  rewrite (gtb_0_truthy c Hc). simpl. right. now apply Math_min_pos.
Qed.

(** So the stored [studentDiscount] (with its schema default) is the amount
    that was subtracted. *)
Lemma stored_studentDiscount (requested : option JS.Number) (route : Route.t) :
  (if (studentDiscountAmount requested route >? n0)%js
   then studentDiscountAmount requested route else n0)
  = studentDiscountAmount requested route.
Proof.
  destruct (studentDiscountAmount_cases requested route) as [-> | ->]; reflexivity.
Qed.



(** A zero that is compared with [===] is a zero. *)
Lemma strictEq_0_zero (x : JS.Number) :
  (x === n0)%js = true -> exists s, x = S754_zero s.
Proof.
  intros Hx. destruct x as [s|[|]| |[|] m e]; try discriminate Hx. eauto.
Qed.

(** C5. The student discount of a created booking.  When the request carries
    a student discount [requested] and [createBooking] answers 201: if the
    route has a student discount [ceiling > 0], the stored discount is
    [Math.min(requested, ceiling)] (the number itself when [requested > 0],
    and zero, which is [===] to it, when [requested] is zero), and it is
    [<= ceiling]; if the route has none, or one that is not positive, the
    stored discount is 0. *)
Theorem createBooking_studentDiscount `{Host} (env : BookingEnv) (req : BookingReq.t)
  (st st' : Store) (b : Booking.t) (requested : JS.Number) :
  createBooking env req st = (st', Created b) ->
  BookingReq.studentDiscount req = Some requested ->
  exists route,
    findOne (routeQuery (Str.trim (BookingReq.from req)) (Str.trim (BookingReq.to req)))
      (routes st) = Some route
    /\ match Route.studentDiscount route with
       | Some ceiling =>
           if (ceiling >? n0)%js then
             (Booking.studentDiscount b === JS.Math_min requested ceiling)%js = true
             /\ ((requested >? n0)%js = true ->
                 Booking.studentDiscount b = JS.Math_min requested ceiling)
             /\ (Booking.studentDiscount b <=? ceiling)%js = true
           else Booking.studentDiscount b = n0
       | None => Booking.studentDiscount b = n0
       end.
Proof.
  intros Hc Hreq.
  destruct (createBooking_created env req st st' b Hc)
    as (route & Hval & Hroute & _ & _ & _ & _ & Hsd & _).
  exists route. split; [exact Hroute|].
  rewrite stored_studentDiscount in Hsd. rewrite Hsd, Hreq.
  pose proof (bookingValidation_studentDiscount req Hval) as Hfloat.
  rewrite Hreq in Hfloat. simpl in Hfloat. unfold isFloatMin0 in Hfloat.
  apply andb_true_iff in Hfloat. destruct Hfloat as [Hfin Hge].
  unfold studentDiscountAmount.
  destruct (Route.studentDiscount route) as [ceiling|];
    [|destruct (requested >? n0)%js; reflexivity].
  destruct (ceiling >? n0)%js eqn:Hceil;
    [|rewrite andb_false_r; destruct (requested >? n0)%js; reflexivity].
  rewrite (gtb_0_truthy ceiling Hceil). simpl.
  destruct (ltb_not_NaN _ _ Hceil) as [_ Nc].
  destruct (requested >? n0)%js eqn:Hpos.
  - destruct (ltb_not_NaN _ _ Hpos) as [_ Nr].
    split; [|split; [reflexivity|now apply Math_min_le_r]].
    apply strictEq_refl.
    destruct (Math_min_pos_cases requested ceiling Hpos Hceil) as [-> | ->]; assumption.
  - destruct (strictEq_0_zero requested (geb_0_not_gtb requested Hge Hpos)) as [s ->].
    split; [|split; [discriminate|]].
    + destruct ceiling as [[|]|[|]| |[|] m e], s; try discriminate Hceil; reflexivity.
    + destruct ceiling as [[|]|[|]| |[|] m e]; try discriminate Hceil; reflexivity.
Qed.

(** The sample route gives students 10 off; a request for 50 gets 10. *)
Lemma createBooking_studentDiscount_witness :
  snd (createBooking (H := Sample.host) Sample.bookingEnv Sample.studentRequest
         Sample.store0) = Created Sample.studentBooking
  /\ Booking.studentDiscount Sample.studentBooking
     = JS.Math_min (JS.ofZ 50) (JS.ofZ 10)
  /\ (Booking.studentDiscount Sample.studentBooking <=? JS.ofZ 10)%js = true.
Proof.
  assert (Hc : createBooking (H := Sample.host) Sample.bookingEnv Sample.studentRequest
                 Sample.store0
               = (fst (createBooking (H := Sample.host) Sample.bookingEnv
                         Sample.studentRequest Sample.store0),
                  Created Sample.studentBooking))
    by (vm_compute; reflexivity).
  assert (Hreq : BookingReq.studentDiscount Sample.studentRequest = Some (JS.ofZ 50))
    by reflexivity.
  destruct (createBooking_studentDiscount (H := Sample.host) Sample.bookingEnv
              Sample.studentRequest Sample.store0 _ Sample.studentBooking (JS.ofZ 50)
              Hc Hreq)
    as (route & Hroute & Hsd).
  assert (Hr : findOne (routeQuery (Str.trim (BookingReq.from Sample.studentRequest))
                          (Str.trim (BookingReq.to Sample.studentRequest)))
                 (routes Sample.store0) = Some Sample.route)
    by (vm_compute; reflexivity).
  rewrite Hr in Hroute. injection Hroute as <-.
  change (Route.studentDiscount Sample.route) with (Some (JS.ofZ 10)) in Hsd.
  cbv beta iota in Hsd.
  assert (Hpos : (JS.ofZ 10 >? n0)%js = true) by (vm_compute; reflexivity).
  rewrite Hpos in Hsd. destruct Hsd as (_ & Heq & Hle).
  split; [now rewrite Hc|].
  split; [apply Heq; vm_compute; reflexivity|exact Hle].
Defined.

Lemma toISOString_valid (t : Z) : exists iso, DateObj.toISOString (Some t) = Normal iso.
Proof. unfold DateObj.toISOString. eauto. Qed.

(** [createBooking] after validation, the route and the travel day: the
    availability rules in the order in which they are applied. *)
Lemma createBooking_checks `{Host} (env : BookingEnv) (req : BookingReq.t)
  (st : Store) (route : Route.t) (travelTime : Z) :
  bookingValidation req = [] ->
  findOne (routeQuery (Str.trim (BookingReq.from req)) (Str.trim (BookingReq.to req)))
    (routes st) = Some route ->
  normalizeTravelDate (OfDate (DateObj.ofString (BookingReq.date req)))
  = Normal (Some travelTime) ->
  let response := snd (createBooking env req st) in
  let dayRefused :=
    match Route.availableDays route with
    | Some days =>
        (0 <? Z.of_nat (List.length days))
        && negb (includesDay days (Some (TimeValue.WeekDay travelTime)))
    | None => false
    end in
  let closed :=
    match Route.closedDates route with
    | Some keys => includesKey keys (dateKeyOf travelTime)
    | None => false
    end in
  if dayRefused then
    response = RouteNotAvailable
                 (match Route.availableDays route with Some d => d | None => [] end)
  else if closed then response = RouteClosed (dateKeyOf travelTime)
  else response = CreateFailed \/ exists b, response = Created b.
Proof.
  intros Hval Hroute Hnorm response dayRefused closed. subst response.
  unfold createBooking. rewrite Hval, Hroute, Hnorm.
  change (DateObj.getUTCDay (Some travelTime)) with (Some (TimeValue.WeekDay travelTime)).
  fold dayRefused. destruct dayRefused.
  - destruct (toISOString_valid travelTime) as [iso ->]. reflexivity.
  - rewrite (formatDateKey_normalised _ _ Hnorm). fold closed.
    destruct closed; [reflexivity|].
    destruct (applyPromo _ _ _ st) as [discount validPromoCode].
    destruct (_ && _); simpl; eauto.
Qed.

(** C6. Availability, in [createBooking].  For a valid request whose route is
    found and whose travel day is [travelTime]: when the route's
    [availableDays] is absent or empty the weekday is not looked at, so the
    booking is refused as closed exactly when the date key is among the
    [closedDates]; when [availableDays] is not empty and does not list the
    UTC weekday of the travel day, the answer is 'Route not available on
    selected date', whether the date is closed or not; and when the weekday
    is listed and the date key is among the [closedDates], the answer is
    'Route closed on selected date'. *)
Theorem createBooking_availability `{Host} (env : BookingEnv) (req : BookingReq.t)
  (st : Store) (route : Route.t) (travelTime : Z) :
  bookingValidation req = [] ->
  findOne (routeQuery (Str.trim (BookingReq.from req)) (Str.trim (BookingReq.to req)))
    (routes st) = Some route ->
  normalizeTravelDate (OfDate (DateObj.ofString (BookingReq.date req)))
  = Normal (Some travelTime) ->
  let response := snd (createBooking env req st) in
  let closed :=
    match Route.closedDates route with
    | Some keys => includesKey keys (dateKeyOf travelTime)
    | None => false
    end in
  ((Route.availableDays route = None \/ Route.availableDays route = Some []) ->
   (closed = true -> response = RouteClosed (dateKeyOf travelTime))
   /\ (closed = false -> response = CreateFailed \/ exists b, response = Created b))
  /\ (forall days,
        Route.availableDays route = Some days -> days <> [] ->
        includesDay days (Some (TimeValue.WeekDay travelTime)) = false ->
        response = RouteNotAvailable days)
  /\ (forall days,
        Route.availableDays route = Some days ->
        includesDay days (Some (TimeValue.WeekDay travelTime)) = true ->
        closed = true ->
        response = RouteClosed (dateKeyOf travelTime)).
Proof.
  intros Hval Hroute Hnorm response closed.
  pose proof (createBooking_checks env req st route travelTime Hval Hroute Hnorm)
    as Hchecks.
  cbv zeta in Hchecks. fold response closed in Hchecks.
  split; [|split].
  - intros [Hnone | Hempty].
    + rewrite Hnone in Hchecks. split; intros Hc; now rewrite Hc in Hchecks.
    + rewrite Hempty in Hchecks. simpl in Hchecks.
      split; intros Hc; now rewrite Hc in Hchecks.
  - intros days Hdays Hne Hnot. rewrite Hdays, Hnot in Hchecks.
    destruct days as [|day days]; [contradiction|]. exact Hchecks.
  - intros days Hdays Hin Hclosed. rewrite Hdays, Hin, Hclosed in Hchecks.
    rewrite andb_false_r in Hchecks. exact Hchecks.
Qed.

(** The sample routes: the daily route refuses the closed Wednesday
    2025-06-11 as closed; the Thursday route refuses that Wednesday as not
    available, and the closed Thursday 2025-06-12 as closed. *)
Lemma createBooking_availability_witness :
  snd (createBooking (H := Sample.host) Sample.bookingEnv Sample.closedDayRequest
         Sample.store0) = RouteClosed (dateKeyOf 1749600000000)
  /\ dateKeyOf 1749600000000 = "2025-06-11"%string
  /\ snd (createBooking (H := Sample.host) Sample.bookingEnv Sample.closedDayRequest
            Sample.thursdayStore) = RouteNotAvailable [JS.ofZ 4]
  /\ snd (createBooking (H := Sample.host) Sample.bookingEnv Sample.closedThursdayRequest
            Sample.thursdayStore) = RouteClosed (dateKeyOf 1749686400000)
  /\ dateKeyOf 1749686400000 = "2025-06-12"%string.
Proof.
  assert (Hval : bookingValidation (H := Sample.host) Sample.closedDayRequest = [])
    by (vm_compute; reflexivity).
  assert (Hval' : bookingValidation (H := Sample.host) Sample.closedThursdayRequest = [])
    by (vm_compute; reflexivity).
  split; [|split; [vm_compute; reflexivity|split; [|split; [|vm_compute; reflexivity]]]].
  - assert (Hroute : findOne (routeQuery (Str.trim (BookingReq.from Sample.closedDayRequest))
                                (Str.trim (BookingReq.to Sample.closedDayRequest)))
                       (routes Sample.store0) = Some Sample.route)
      by (vm_compute; reflexivity).
    assert (Hnorm : normalizeTravelDate (H := Sample.host)
                      (OfDate (DateObj.ofString (H := Sample.host)
                                 (BookingReq.date Sample.closedDayRequest)))
                    = Normal (Some 1749600000000)) by (vm_compute; reflexivity).
    destruct (createBooking_availability (H := Sample.host) Sample.bookingEnv
                Sample.closedDayRequest Sample.store0 Sample.route 1749600000000
                Hval Hroute Hnorm) as (Hdaily & _ & _).
    destruct (Hdaily (or_introl eq_refl)) as [Hclosed _].
    apply Hclosed. vm_compute. reflexivity.
  - assert (Hroute : findOne (routeQuery (Str.trim (BookingReq.from Sample.closedDayRequest))
                                (Str.trim (BookingReq.to Sample.closedDayRequest)))
                       (routes Sample.thursdayStore) = Some Sample.thursdayRoute)
      by (vm_compute; reflexivity).
    assert (Hnorm : normalizeTravelDate (H := Sample.host)
                      (OfDate (DateObj.ofString (H := Sample.host)
                                 (BookingReq.date Sample.closedDayRequest)))
                    = Normal (Some 1749600000000)) by (vm_compute; reflexivity).
    destruct (createBooking_availability (H := Sample.host) Sample.bookingEnv
                Sample.closedDayRequest Sample.thursdayStore Sample.thursdayRoute
                1749600000000 Hval Hroute Hnorm)
      as (_ & Hday & _).
    apply (Hday [JS.ofZ 4] eq_refl); [discriminate|vm_compute; reflexivity].
  - assert (Hroute : findOne (routeQuery
                                (Str.trim (BookingReq.from Sample.closedThursdayRequest))
                                (Str.trim (BookingReq.to Sample.closedThursdayRequest)))
                       (routes Sample.thursdayStore) = Some Sample.thursdayRoute)
      by (vm_compute; reflexivity).
    assert (Hnorm : normalizeTravelDate (H := Sample.host)
                      (OfDate (DateObj.ofString (H := Sample.host)
                                 (BookingReq.date Sample.closedThursdayRequest)))
                    = Normal (Some 1749686400000)) by (vm_compute; reflexivity).
    destruct (createBooking_availability (H := Sample.host) Sample.bookingEnv
                Sample.closedThursdayRequest Sample.thursdayStore Sample.thursdayRoute
                1749686400000 Hval' Hroute Hnorm)
      as (_ & _ & Hclosed).
    apply (Hclosed [JS.ofZ 4] eq_refl); vm_compute; reflexivity.
Defined.

(** C8, as stated, fails: for base price 125 and WELCOME10 the fee is not 1.88
    and the total is not 114.38. *)
Lemma scenario_fee_is_not_1_88 :
  Booking.fees Sample.pendingBooking = JS.ofZ 3
  /\ (Booking.fees Sample.pendingBooking === JS.decimal 188 2)%js = false
  /\ (Booking.total Sample.pendingBooking === JS.decimal 11438 2)%js = false
  /\ snd (createBooking (H := Sample.host) Sample.bookingEnv Sample.request Sample.store0)
     = Created Sample.pendingBooking.
Proof. repeat split; vm_compute; reflexivity. Qed.

(** C8 (amended). The scenario: base price 125, promo code WELCOME10 (10
    percent, capped at 20), no student discount.  [Math.round(125 * 0.015 *
    100) / 100] is 1.88, so the fee is [Math.max(3, 1.88) = 3]; the promo
    discount is 12.5; the total is [125 + 3 - 12.5 = 115.5]. *)
Theorem scenario_WELCOME10 :
  exists b,
    snd (createBooking (H := Sample.host) Sample.bookingEnv Sample.request Sample.store0)
    = Created b
    /\ Booking.subtotal b = JS.ofZ 125
    /\ (JS.Math_round (Booking.subtotal b * n0_015 * n100) / n100)%js = JS.decimal 188 2
    /\ Booking.fees b = JS.ofZ 3
    /\ Booking.discount b = JS.decimal 125 1
    /\ Booking.studentDiscount b = n0
    /\ Booking.total b = JS.decimal 1155 1
    /\ (JS.ofZ 125 + JS.ofZ 3 - JS.decimal 125 1)%js = JS.decimal 1155 1.
Proof. exists Sample.pendingBooking. repeat split; vm_compute; reflexivity. Qed.

(* ================================================================== *)
(** * Payment confirmation *)
(* ================================================================== *)

(** A payment-success event for a paid booking changes nothing. *)
Lemma handlePaymentSuccess_paid (env : PaymentEnv) (pi : PaymentIntent.t)
  (st : Store) (bookingId : string) (booking : Booking.t) :
  metadataBookingId pi = Some bookingId ->
  findOne (byBookingId bookingId) (bookings st) = Some booking ->
  Booking.status booking = paid ->
  handlePaymentSuccess env pi st = (st, Normal tt).
Proof.
  intros Hid Hfind Hpaid. unfold handlePaymentSuccess.
  rewrite Hid, Hfind, Hpaid. reflexivity.
Qed.

(** What the first delivery for a booking that is not yet paid does to each
    collection. *)
Lemma handlePaymentSuccess_first (env : PaymentEnv) (pi : PaymentIntent.t)
  (st : Store) (bookingId : string) (booking : Booking.t) :
  metadataBookingId pi = Some bookingId ->
  findOne (byBookingId bookingId) (bookings st) = Some booking ->
  Booking.status booking <> paid ->
  exists booking',
    let st' := fst (handlePaymentSuccess env pi st) in
    Booking.status booking' = paid
    /\ Booking.bookingId booking' = bookingId
    /\ bookings st' = updateOne (byBookingId bookingId) (fun _ => booking') (bookings st)
    /\ routes st' = routes st
    /\ promoCodes st'
       = match Booking.promoCode booking with
         | Some code =>
             if Str.truthy code
             then updateOne (byCode code) (PromoCode.inc_usageCount 1) (promoCodes st)
             else promoCodes st
         | None => promoCodes st
         end
    /\ (tickets st' = tickets st
        \/ findOne (ticketOfBooking bookingId) (tickets st) = None
           /\ exists ticket, Ticket.bookingId ticket = bookingId
                             /\ tickets st' = tickets st ++ [ticket]).
Proof.
  intros Hid Hfind Hnot.
  assert (Hb : Booking.bookingId booking = bookingId)
    by (apply byBookingId_eq, (findOne_query _ _ _ Hfind)).
  unfold handlePaymentSuccess. rewrite Hid, Hfind.
  destruct (BookingStatus_eqb (Booking.status booking) paid) eqn:Hs;
    [apply BookingStatus_eqb_eq in Hs; contradiction|].
  match goal with
  | |- context [saveBooking ?b st] => set (paidBooking := b)
  end.
  assert (Hp : Booking.status paidBooking = paid /\ Booking.bookingId paidBooking = bookingId
               /\ Booking.promoCode paidBooking = Booking.promoCode booking).
  { subst paidBooking.
    destruct (PaymentIntent.currency pi) as [c|]; simpl;
      [destruct (Str.truthy (Str.toUpperCase c)
                 && (String.eqb (Str.toUpperCase c) "RON" || String.eqb (Str.toUpperCase c) "EUR"))|];
      destruct (JS.gtb _ n0); simpl; auto. }
  destruct Hp as (Hp1 & Hp2 & Hp3).
  exists paidBooking. cbv zeta.
  rewrite Hp3.
  set (st1 := match Booking.promoCode booking with
              | Some code => if Str.truthy code then _ else _
              | None => _ end).
  assert (Hst1 : bookings st1 = updateOne (byBookingId bookingId) (fun _ => paidBooking) (bookings st)
                 /\ routes st1 = routes st /\ tickets st1 = tickets st
                 /\ promoCodes st1 = match Booking.promoCode booking with
                     | Some code => if Str.truthy code
                         then updateOne (byCode code) (PromoCode.inc_usageCount 1) (promoCodes st)
                         else promoCodes st
                     | None => promoCodes st end).
  { subst st1. destruct (Booking.promoCode booking) as [code|];
      [destruct (Str.truthy code)|]; simpl; rewrite Hp2; auto. }
  destruct Hst1 as (B1 & R1 & T1 & P1).
  rewrite Hp2.
  destruct (findOne (ticketOfBooking bookingId) (tickets st1)) as [ticket|] eqn:Hticket.
  - destruct (generateTicketPDF env ticket paidBooking); simpl; repeat split; auto.
  - rewrite T1 in Hticket.
    destruct (canInsertTicket (issueTicket env paidBooking) st1).
    + destruct (generateTicketPDF env _ paidBooking); simpl; repeat split; auto;
        right; (split; [exact Hticket|]);
        exists (issueTicket env paidBooking); rewrite T1; simpl; auto.
    + simpl. repeat split; auto.
Qed.

(** The increment of one code's counter adds one to it. *)
Lemma usageCount_incremented (code : string) (coll : list PromoCode.t) :
  option_map PromoCode.usageCount
    (findOne (byCode code) (updateOne (byCode code) (PromoCode.inc_usageCount 1) coll))
  = option_map (fun n => n + 1)
      (option_map PromoCode.usageCount (findOne (byCode code) coll)).
Proof.
  rewrite findOne_updateOne by (intros x Hx; exact Hx).
  destruct (findOne (byCode code) coll); reflexivity.
Qed.

(** C1. [handlePaymentSuccess] is idempotent.  For a payment-success event
    whose booking exists: after the first delivery the booking is paid; a
    second delivery of the event (whatever uuids the host draws) returns
    normally and leaves the whole store as it was, as does the first one when
    the booking was paid already; the two deliveries together add no ticket
    to a booking that had one and at most one to a booking that had none; and
    when the booking was not yet paid and carries a promo code, the code's
    usage counter is one higher after both deliveries than before them. *)
Theorem handlePaymentSuccess_idempotent
  (env1 env2 : PaymentEnv) (pi : PaymentIntent.t) (st : Store)
  (bookingId : string) (booking : Booking.t) :
  metadataBookingId pi = Some bookingId ->
  findOne (byBookingId bookingId) (bookings st) = Some booking ->
  let st1 := fst (handlePaymentSuccess env1 pi st) in
  let st2 := fst (handlePaymentSuccess env2 pi st1) in
  bookingStatus bookingId st1 = Some paid
  /\ handlePaymentSuccess env2 pi st1 = (st1, Normal tt)
  /\ bookingStatus bookingId st2 = Some paid
  /\ (Booking.status booking = paid ->
      handlePaymentSuccess env1 pi st = (st, Normal tt))
  /\ ((1 <= ticketCount bookingId st)%nat ->
      ticketCount bookingId st2 = ticketCount bookingId st)
  /\ (ticketCount bookingId st = 0%nat -> (ticketCount bookingId st2 <= 1)%nat)
  /\ (forall code n,
        Booking.status booking <> paid ->
        Booking.promoCode booking = Some code -> Str.truthy code = true ->
        usageCountOf code st = Some n ->
        usageCountOf code st2 = Some (n + 1)).
Proof.
  intros Hid Hfind st1 st2.
  assert (Hst1 : bookingStatus bookingId st1 = Some paid
                 /\ ((1 <= ticketCount bookingId st)%nat ->
                     ticketCount bookingId st1 = ticketCount bookingId st)
                 /\ (ticketCount bookingId st = 0%nat ->
                     (ticketCount bookingId st1 <= 1)%nat)
                 /\ (forall code n,
                       Booking.status booking <> paid ->
                       Booking.promoCode booking = Some code -> Str.truthy code = true ->
                       usageCountOf code st = Some n ->
                       usageCountOf code st1 = Some (n + 1))).
  { destruct (BookingStatus_eqb (Booking.status booking) paid) eqn:Hs.
    - apply BookingStatus_eqb_eq in Hs.
      subst st1. rewrite (handlePaymentSuccess_paid env1 pi st bookingId booking Hid Hfind Hs).
      simpl. unfold bookingStatus. rewrite Hfind. simpl. rewrite Hs.
      repeat split; auto; try lia. intros; contradiction.
    - assert (Hnot : Booking.status booking <> paid)
        by (intros E; apply BookingStatus_eqb_eq in E; congruence).
      destruct (handlePaymentSuccess_first env1 pi st bookingId booking Hid Hfind Hnot)
        as (b' & Hpaid & Hbid & HB & _ & HP & HT).
      fold st1 in HB, HP, HT.
      split; [|split; [|split]].
      + unfold bookingStatus. rewrite HB.
        rewrite findOne_updateOne
          by (intros x _; unfold byBookingId; rewrite Hbid; apply String.eqb_refl).
        rewrite Hfind. simpl. now rewrite Hpaid.
      + intros Hone. unfold ticketCount in *.
        destruct HT as [-> | [Hnone _]]; [reflexivity|].
        rewrite (findOne_absent_filter _ _ Hnone) in Hone. simpl in Hone. lia.
      + intros Hzero. unfold ticketCount in *.
        destruct HT as [-> | [Hnone (ticket & Htb & ->)]]; [lia|].
        rewrite filter_app, (findOne_absent_filter _ _ Hnone). simpl.
        destruct (ticketOfBooking bookingId ticket); simpl; lia.
      + intros code n _ Hcode Htruthy Hn. unfold usageCountOf in *.
        rewrite HP, Hcode, Htruthy, usageCount_incremented, Hn. reflexivity. }
  destruct Hst1 as (Hpaid1 & Hkeep & Hnew & Hpromo).
  assert (Hsecond : handlePaymentSuccess env2 pi st1 = (st1, Normal tt)).
  { unfold bookingStatus in Hpaid1.
    destruct (findOne (byBookingId bookingId) (bookings st1)) as [b1|] eqn:Hb1;
      [|discriminate].
    apply (handlePaymentSuccess_paid env2 pi st1 bookingId b1 Hid Hb1).
    simpl in Hpaid1. congruence. }
  assert (Hst2 : st2 = st1) by (subst st2; now rewrite Hsecond).
  rewrite Hst2.
  split; [exact Hpaid1|]. split; [exact Hsecond|]. split; [exact Hpaid1|].
  split; [apply (handlePaymentSuccess_paid env1 pi st bookingId booking Hid Hfind)|].
  split; [exact Hkeep|]. split; [exact Hnew|exact Hpromo].
Qed.

(** The two deliveries at the sample booking: it is pending before, paid
    after, it has one ticket, and WELCOME10 was used once. *)
Lemma handlePaymentSuccess_idempotent_witness :
  bookingStatus Sample.bookingId Sample.pendingStore = Some pending
  /\ bookingStatus Sample.bookingId
       (fst (handlePaymentSuccess Sample.paymentEnv' Sample.intent Sample.paidStore))
     = Some paid
  /\ handlePaymentSuccess Sample.paymentEnv' Sample.intent Sample.paidStore
     = (Sample.paidStore, Normal tt)
  /\ (ticketCount Sample.bookingId
        (fst (handlePaymentSuccess Sample.paymentEnv' Sample.intent Sample.paidStore))
      <= 1)%nat
  /\ usageCountOf "WELCOME10"
       (fst (handlePaymentSuccess Sample.paymentEnv' Sample.intent Sample.paidStore))
     = Some 1.
Proof.
  assert (Hid : metadataBookingId Sample.intent = Some Sample.bookingId)
    by (vm_compute; reflexivity).
  assert (Hfind : findOne (byBookingId Sample.bookingId) (bookings Sample.pendingStore)
                  = Some Sample.pendingBooking) by (vm_compute; reflexivity).
  pose proof (handlePaymentSuccess_idempotent
                Sample.paymentEnv Sample.paymentEnv' Sample.intent Sample.pendingStore
                Sample.bookingId Sample.pendingBooking Hid Hfind)
    as (_ & Hsecond & Hpaid & _ & _ & Hcount & Hpromo).
  unfold Sample.paidStore.
  split; [vm_compute; reflexivity|]. split; [exact Hpaid|]. split; [exact Hsecond|].
  split; [apply Hcount; vm_compute; reflexivity|].
  apply (Hpromo "WELCOME10"%string 0); try (vm_compute; reflexivity).
  vm_compute. discriminate.
Defined.

(* ================================================================== *)
(** * Payment failure and the payment sheet *)
(* ================================================================== *)

(** [handlePaymentFailed] throws when no booking has the id of the event. *)
Lemma handlePaymentFailed_not_found (pi : PaymentIntent.t) (st : Store)
  (bookingId : string) :
  metadataBookingId pi = Some bookingId ->
  findOne (byBookingId bookingId) (bookings st) = None ->
  handlePaymentFailed pi st = (st, Throw ("Booking " ++ bookingId ++ " not found")%string).
Proof.
  intros Hid Hnone. unfold handlePaymentFailed. now rewrite Hid, Hnone.
Qed.

(** [handlePaymentFailed] cancels the booking of the event, whatever its
    status was. *)
Lemma handlePaymentFailed_found (pi : PaymentIntent.t) (st : Store)
  (bookingId : string) (booking : Booking.t) :
  metadataBookingId pi = Some bookingId ->
  findOne (byBookingId bookingId) (bookings st) = Some booking ->
  snd (handlePaymentFailed pi st) = Normal tt
  /\ bookingStatus bookingId (fst (handlePaymentFailed pi st)) = Some cancelled.
Proof.
  intros Hid Hfind. unfold handlePaymentFailed. rewrite Hid, Hfind. simpl.
  split; [reflexivity|]. unfold bookingStatus. simpl.
  rewrite findOne_updateOne by (intros x Hx; exact Hx).
  now rewrite Hfind.
Qed.

(** C2. A payment-failed event that arrives for the sample booking after it
    was paid (and its ticket issued) returns normally and leaves the booking
    cancelled: [handlePaymentFailed] moves a booking out of [paid]. *)
Theorem handlePaymentFailed_cancels_paid_booking :
  bookingStatus Sample.bookingId Sample.paidStore = Some paid
  /\ ticketCount Sample.bookingId Sample.paidStore = 1%nat
  /\ snd (handlePaymentFailed Sample.intent Sample.paidStore) = Normal tt
  /\ bookingStatus Sample.bookingId
       (fst (handlePaymentFailed Sample.intent Sample.paidStore))
     = Some cancelled.
Proof. vm_compute. repeat split; reflexivity. Qed.

(** [createPaymentSheet] refuses a booking that is not pending. *)
Lemma createPaymentSheet_refuses_processed (stripe : Stripe) (req : SheetReq.t)
  (st : Store) (booking : Booking.t) :
  sheetValidation req = [] ->
  findOne (byBookingId (Str.trim (SheetReq.bookingId req))) (bookings st) = Some booking ->
  Booking.status booking <> pending ->
  snd (createPaymentSheet stripe req st) = BookingAlreadyProcessed (Booking.status booking).
Proof.
  intros Hval Hfind Hnot. unfold createPaymentSheet. rewrite Hval, Hfind.
  assert (Hs : BookingStatus_eqb (Booking.status booking) pending = false).
  { destruct (BookingStatus_eqb (Booking.status booking) pending) eqn:E; [|reflexivity].
    apply BookingStatus_eqb_eq in E. contradiction. }
  destruct (SheetReq.totalAmount req) as [totalAmount|];
    [destruct (JS.gtb _ n0_01)|]; simpl; rewrite Hs; reflexivity.
Qed.

(** Without an amount in the request, the refusal leaves the store as it
    was. *)
Lemma createPaymentSheet_refusal_without_amount (stripe : Stripe) (req : SheetReq.t)
  (st : Store) (booking : Booking.t) :
  sheetValidation req = [] ->
  findOne (byBookingId (Str.trim (SheetReq.bookingId req))) (bookings st) = Some booking ->
  Booking.status booking <> pending ->
  SheetReq.totalAmount req = None ->
  fst (createPaymentSheet stripe req st) = st.
Proof.
  intros Hval Hfind Hnot Hnone. unfold createPaymentSheet. rewrite Hval, Hfind, Hnone.
  destruct (BookingStatus_eqb (Booking.status booking) pending) eqn:E.
  - apply BookingStatus_eqb_eq in E. contradiction.
  - reflexivity.
Qed.

(** With an amount that differs from the stored total by more than 0.01, the
    refused request has stored that amount as the booking's total. *)
Lemma createPaymentSheet_refusal_stores_amount (stripe : Stripe) (req : SheetReq.t)
  (st : Store) (booking : Booking.t) (totalAmount : JS.Number) :
  sheetValidation req = [] ->
  findOne (byBookingId (Str.trim (SheetReq.bookingId req))) (bookings st) = Some booking ->
  Booking.status booking <> pending ->
  SheetReq.totalAmount req = Some totalAmount ->
  (JS.Math_abs (totalAmount - Booking.total booking) >? n0_01)%js = true ->
  bookingTotal (Str.trim (SheetReq.bookingId req)) (fst (createPaymentSheet stripe req st))
  = Some totalAmount.
Proof.
  intros Hval Hfind Hnot Hamount Hdiff.
  pose proof (byBookingId_eq _ _ (findOne_query _ _ _ Hfind)) as Hid.
  unfold createPaymentSheet. rewrite Hval, Hfind, Hamount, Hdiff.
  cbn [Booking.status Booking.set_total].
  destruct (BookingStatus_eqb (Booking.status booking) pending) eqn:E;
    [apply BookingStatus_eqb_eq in E; contradiction|].
  cbn [negb fst]. unfold bookingTotal, saveBooking. cbn [bookings set_bookings].
  cbn [Booking.bookingId Booking.set_total]. rewrite Hid.
  rewrite findOne_updateOne by (intros x _; unfold byBookingId; cbn; rewrite Hid;
                                 apply String.eqb_refl).
  now rewrite Hfind.
Qed.

(** C4. A payment-sheet request for the paid sample booking that carries
    [totalAmount = 1] is refused with 'Booking already processed', and the
    stored total of the booking has changed from 115.5 to 1. *)
Theorem createPaymentSheet_refusal_overwrites_total :
  bookingStatus Sample.bookingId Sample.paidStore = Some paid
  /\ bookingTotal Sample.bookingId Sample.paidStore = Some (JS.decimal 1155 1)
  /\ snd (createPaymentSheet Sample.stripe Sample.sheetRequest Sample.paidStore)
     = BookingAlreadyProcessed paid
  /\ bookingTotal Sample.bookingId
       (fst (createPaymentSheet Sample.stripe Sample.sheetRequest Sample.paidStore))
     = Some (JS.ofZ 1).
Proof. vm_compute. repeat split; reflexivity. Qed.

(* ================================================================== *)
(** * Ticket redemption *)
(* ================================================================== *)

Lemma qrTokenValidation_passes (qrToken : string) :
  notEmpty qrToken = true -> qrTokenValidation qrToken = [].
Proof.
  intros H. unfold qrTokenValidation, collectErrors. simpl. now rewrite H.
Qed.

Lemma byQrToken_eq (tok : string) (k : Ticket.t) :
  byQrToken tok k = true -> Ticket.qrToken k = tok.
Proof. unfold byQrToken. apply String.eqb_eq. Qed.

(** The three outcomes of [useTicket] on a well-formed token. *)
Lemma useTicket_cases (now : Z) (qrToken : string) (st : Store) :
  notEmpty qrToken = true ->
  match findOne (byQrToken (Str.trim qrToken)) (tickets st) with
  | None => useTicket now qrToken st = (st, UseNotFound)
  | Some ticket =>
      if Ticket.isUsed ticket
      then useTicket now qrToken st = (st, AlreadyUsed (Ticket.usedAt ticket))
      else snd (useTicket now qrToken st) = Used (Some now) (ticketInfo ticket)
           /\ bookings (fst (useTicket now qrToken st)) = bookings st
           /\ findOne (byQrToken (Str.trim qrToken))
                (tickets (fst (useTicket now qrToken st)))
              = Some (Ticket.markUsed now ticket)
  end.
Proof.
  intros Hok. unfold useTicket. rewrite (qrTokenValidation_passes _ Hok).
  destruct (findOne (byQrToken (Str.trim qrToken)) (tickets st)) as [ticket|] eqn:Hfind;
    [|reflexivity].
  destruct (Ticket.isUsed ticket) eqn:Hused; [reflexivity|].
  simpl. repeat split.
  rewrite findOne_updateOne.
  - now rewrite Hfind.
  - intros x _. unfold byQrToken. simpl.
    apply String.eqb_eq. apply byQrToken_eq. exact (findOne_query _ _ _ Hfind).
Qed.

(** What [validateQRCode] answers for a ticket that is marked as used. *)
Lemma validateQRCode_used `{Host} (now : Z) (qrToken : string) (st : Store)
  (ticket : Ticket.t) :
  notEmpty qrToken = true ->
  findOne (byQrToken (Str.trim qrToken)) (tickets st) = Some ticket ->
  Ticket.isUsed ticket = true ->
  validateQRCode now qrToken st
  = match bookingStatus (Ticket.bookingId ticket) st with
    | Some paid => AlreadyUsedReport (Ticket.usedAt ticket) (ticketInfo ticket)
    | _ => BookingNotConfirmed
    end.
Proof.
  intros Hok Hfind Hused. unfold validateQRCode, bookingStatus.
  rewrite (qrTokenValidation_passes _ Hok), Hfind.
  destruct (findOne (byBookingId (Ticket.bookingId ticket)) (bookings st)) as [b|];
    simpl; [|reflexivity].
  destruct (Booking.status b); simpl; try reflexivity. now rewrite Hused.
Qed.

(** [validateQRCode] reports 'Booking not confirmed' whenever the ticket's
    booking is not paid, used or not. *)
Lemma validateQRCode_not_confirmed `{Host} (now : Z) (qrToken : string) (st : Store)
  (ticket : Ticket.t) :
  notEmpty qrToken = true ->
  findOne (byQrToken (Str.trim qrToken)) (tickets st) = Some ticket ->
  bookingStatus (Ticket.bookingId ticket) st <> Some paid ->
  validateQRCode now qrToken st = BookingNotConfirmed.
Proof.
  intros Hok Hfind Hnot. unfold validateQRCode, bookingStatus in *.
  rewrite (qrTokenValidation_passes _ Hok), Hfind.
  destruct (findOne (byBookingId (Ticket.bookingId ticket)) (bookings st)) as [b|];
    simpl in *; [|reflexivity].
  destruct (Booking.status b); simpl; try reflexivity. congruence.
Qed.

(** C9 (amended). Redemption is a one-way latch.  On a well-formed token,
    [useTicket] answers 'Ticket not found' when no ticket has the token and
    'Ticket already used' with the stored [usedAt] when the ticket is used,
    both without changing the store; on an unused ticket it succeeds and
    stores [isUsed = true] and [usedAt = now].  After that success a second
    [useTicket] answers 'Ticket already used' with the time of the first, and
    [validateQRCode] reports [alreadyUsed] with that same time when the
    ticket's booking is paid, and 'Booking not confirmed' when it is not. *)
Theorem useTicket_one_way_latch `{Host} (now1 now2 now3 : Z) (qrToken : string)
  (st : Store) :
  notEmpty qrToken = true ->
  let found := findOne (byQrToken (Str.trim qrToken)) (tickets st) in
  (found = None -> useTicket now1 qrToken st = (st, UseNotFound))
  /\ (forall ticket, found = Some ticket -> Ticket.isUsed ticket = true ->
        useTicket now1 qrToken st = (st, AlreadyUsed (Ticket.usedAt ticket)))
  /\ (forall ticket, found = Some ticket -> Ticket.isUsed ticket = false ->
        let st1 := fst (useTicket now1 qrToken st) in
        snd (useTicket now1 qrToken st) = Used (Some now1) (ticketInfo ticket)
        /\ findOne (byQrToken (Str.trim qrToken)) (tickets st1)
           = Some (Ticket.markUsed now1 ticket)
        /\ useTicket now2 qrToken st1 = (st1, AlreadyUsed (Some now1))
        /\ (bookingStatus (Ticket.bookingId ticket) st = Some paid ->
            validateQRCode now3 qrToken st1
            = AlreadyUsedReport (Some now1) (ticketInfo ticket))
        /\ (bookingStatus (Ticket.bookingId ticket) st <> Some paid ->
            validateQRCode now3 qrToken st1 = BookingNotConfirmed)).
Proof.
  intros Hok found.
  pose proof (useTicket_cases now1 qrToken st Hok) as Hcases. fold found in Hcases.
  split; [|split].
  - intros Hnone. now rewrite Hnone in Hcases.
  - intros ticket Hfind Hused. now rewrite Hfind, Hused in Hcases.
  - intros ticket Hfind Hunused st1. rewrite Hfind, Hunused in Hcases.
    destruct Hcases as (Hresp & Hbook & Hfind1). fold st1 in Hbook, Hfind1.
    split; [exact Hresp|]. split; [exact Hfind1|].
    assert (Hstatus : bookingStatus (Ticket.bookingId ticket) st1
                      = bookingStatus (Ticket.bookingId ticket) st)
      by (unfold bookingStatus; now rewrite Hbook).
    split; [|split].
    + pose proof (useTicket_cases now2 qrToken st1 Hok) as H2.
      rewrite Hfind1 in H2. exact H2.
    + intros Hpaid.
      rewrite (validateQRCode_used now3 qrToken st1 _ Hok Hfind1 eq_refl).
      simpl (Ticket.bookingId _). rewrite Hstatus, Hpaid. reflexivity.
    + intros Hnot.
      apply (validateQRCode_not_confirmed now3 qrToken st1 _ Hok Hfind1).
      simpl (Ticket.bookingId _). now rewrite Hstatus.
Qed.

(** The latch at the sample ticket of the paid booking: used at boarding, a
    second scan is refused and validation reports the time of boarding. *)
Lemma useTicket_one_way_latch_witness :
  snd (useTicket Sample.boarding Sample.qrToken Sample.paidStore)
  = Used (Some Sample.boarding) (ticketInfo Sample.ticket)
  /\ snd (useTicket Sample.secondScan Sample.qrToken
            (fst (useTicket Sample.boarding Sample.qrToken Sample.paidStore)))
     = AlreadyUsed (Some Sample.boarding)
  /\ validateQRCode (H := Sample.host) Sample.secondScan Sample.qrToken
       (fst (useTicket Sample.boarding Sample.qrToken Sample.paidStore))
     = AlreadyUsedReport (Some Sample.boarding) (ticketInfo Sample.ticket).
Proof.
  assert (Hok : notEmpty Sample.qrToken = true) by (vm_compute; reflexivity).
  assert (Hfind : findOne (byQrToken (Str.trim Sample.qrToken)) (tickets Sample.paidStore)
                  = Some Sample.ticket) by (vm_compute; reflexivity).
  destruct (useTicket_one_way_latch (H := Sample.host)
              Sample.boarding Sample.secondScan Sample.secondScan
              Sample.qrToken Sample.paidStore Hok) as (_ & _ & Hlatch).
  destruct (Hlatch Sample.ticket Hfind eq_refl) as (Hused & _ & Hsecond & Hvalid & _).
  split; [exact Hused|]. split; [now rewrite Hsecond|].
  apply Hvalid. vm_compute. reflexivity.
Defined.

(** C9, as stated, fails when the booking of the ticket is not paid: the
    sample booking was cancelled by a late payment-failed event; its ticket
    is still redeemed by [useTicket], and [validateQRCode] after that use
    answers 'Booking not confirmed', not [alreadyUsed]. *)
Lemma validate_after_use_not_confirmed :
  snd (useTicket Sample.boarding Sample.qrToken Sample.cancelledStore)
  = Used (Some Sample.boarding) (ticketInfo Sample.ticket)
  /\ validateQRCode (H := Sample.host) Sample.secondScan Sample.qrToken
       (fst (useTicket Sample.boarding Sample.qrToken Sample.cancelledStore))
     = BookingNotConfirmed.
Proof. split; vm_compute; reflexivity. Qed.



(* ================================================================== *)
(** * The date key *)
(* ================================================================== *)

Lemma DaysInYear_leapDays (y : Z) : DaysInYear y = 365 + leapDays y.
Proof.
  unfold leapDays, DaysInYear.
  repeat match goal with
         | |- context [if negb ?c then _ else _] => destruct c; cbn [negb]
         end; reflexivity.
Qed.

(** The first days of the years are in the order of the years. *)
Lemma DayFromYear_le (y y' : Z) : y <= y' -> DayFromYear y <= DayFromYear y'.
Proof.
  intros Hy. unfold DayFromYear. Z.to_euclidean_division_equations. lia.
Qed.

(** The year of a day is the only one whose days include it. *)
Lemma YearFromTime_unique (t y : Z) :
  DayFromYear y <= Day t < DayFromYear (y + 1) -> YearFromTime t = y.
Proof.
  intros Hy. pose proof (YearFromTime_spec t) as Hs.
  destruct (Z.lt_trichotomy (YearFromTime t) y) as [Hlt | [Heq | Hgt]]; [|exact Heq|].
  - pose proof (DayFromYear_le (YearFromTime t + 1) y ltac:(lia)). lia.
  - pose proof (DayFromYear_le (y + 1) (YearFromTime t) ltac:(lia)). lia.
Qed.

(** The calendar fields of the day that [MakeDay] makes of a date of the
    calendar are that date. *)
Lemma calendar_of_MakeDay (y m d : Z) :
  1 <= m <= 12 -> 1 <= d <= DaysInMonth y (m - 1) ->
  let t := MakeDay y (m - 1) d * msPerDay in
  YearFromTime t = y /\ MonthFromTime t = m - 1 /\ DateFromTime t = d.
Proof.
  intros Hm Hd t.
  assert (Hq : (m - 1) / 12 = 0) by (apply Z.div_small; lia).
  assert (Hr : (m - 1) mod 12 = m - 1) by (apply Z.mod_small; lia).
  pose proof (leapDays_bounds y) as Hl.
  assert (Hday : Day t = DayFromYear y + monthStart (m - 1) (leapDays y) + d - 1).
  { subst t. rewrite Day_of_midnight. unfold MakeDay. now rewrite Hq, Hr, Z.add_0_r. }
  assert (Hc : m = 1 \/ m = 2 \/ m = 3 \/ m = 4 \/ m = 5 \/ m = 6 \/ m = 7
               \/ m = 8 \/ m = 9 \/ m = 10 \/ m = 11 \/ m = 12) by lia.
  assert (Hyear : YearFromTime t = y).
  { apply YearFromTime_unique. rewrite Hday, DayFromYear_next, DaysInYear_leapDays.
    clear Hday Hq Hr. clearbody t.
    repeat (destruct Hc as [-> | Hc]); try subst m;
      match goal with
      | |- context [monthStart ?a _] =>
          let v := eval vm_compute in a in change a with v in *
      end; cbn [monthStart DaysInMonth] in *; lia. }
  unfold DateFromTime, MonthFromTime, InLeapYear, DayWithinYear.
  rewrite Hyear, Hday. clear Hday Hyear Hq Hr. clearbody t.
  unfold DaysInMonth in Hd. set (l := leapDays y) in *. clearbody l.
  split; [reflexivity|].
  repeat (destruct Hc as [-> | Hc]); try subst m;
    match goal with
    | |- context [monthStart ?a _] =>
        let v := eval vm_compute in a in change a with v in *
    end; cbn [monthStart DaysInMonth] in *;
    repeat match goal with
           | |- context [if ?c <? ?e then _ else _] =>
               let E := fresh "E" in
               destruct (c <? e) eqn:E;
               [apply Z.ltb_lt in E|apply Z.ltb_ge in E]; try lia
           end; cbv iota; split; lia.
Qed.

Lemma append_assoc (a b c : string) : ((a ++ b) ++ c = a ++ (b ++ c))%string.
Proof. induction a as [|x a IH]; simpl; [reflexivity|]. now rewrite IH. Qed.

(** A digit: its value, and what it is not. *)
Lemma isDigit_value (c : ascii) :
  Str.isDigit c = true ->
  exists v, Str.digitValue c = Some v /\ 0 <= v <= 9 /\ Str.digitChar v = c
            /\ Ascii.eqb c "T" = false.
Proof.
  intros Hc. exists (Z.of_nat (nat_of_ascii c) - 48).
  split; [unfold Str.digitValue; now rewrite Hc|].
  split.
  { unfold Str.isDigit in Hc. apply andb_true_iff in Hc. destruct Hc as [H1 H2].
    apply Z.leb_le in H1, H2. lia. }
  split.
  { unfold Str.digitChar.
    replace (48 + (Z.of_nat (nat_of_ascii c) - 48)) with (Z.of_nat (nat_of_ascii c)) by lia.
    now rewrite Nat2Z.id, ascii_nat_embedding. }
  destruct (Ascii.eqb_spec c "T") as [-> |]; [discriminate Hc|reflexivity].
Qed.

(** Two and four digits are what [pad] writes for the number they spell. *)
Lemma pad_2_digits (a b : Z) :
  0 <= a <= 9 -> 0 <= b <= 9 ->
  DateObj.pad 2 (10 * (10 * 0 + a) + b)
  = String (Str.digitChar a) (String (Str.digitChar b) EmptyString).
Proof.
  intros Ha Hb. unfold DateObj.pad. cbn [Str.padDigits].
  set (n := 10 * (10 * 0 + a) + b).
  assert (H1 : n mod 10 = b) by (subst n; Z.to_euclidean_division_equations; lia).
  assert (H2 : (n / 10) mod 10 = a) by (subst n; Z.to_euclidean_division_equations; lia).
  now rewrite H1, H2.
Qed.

Lemma pad_4_digits (a b c d : Z) :
  0 <= a <= 9 -> 0 <= b <= 9 -> 0 <= c <= 9 -> 0 <= d <= 9 ->
  DateObj.pad 4 (10 * (10 * (10 * (10 * 0 + a) + b) + c) + d)
  = String (Str.digitChar a) (String (Str.digitChar b)
      (String (Str.digitChar c) (String (Str.digitChar d) EmptyString))).
Proof.
  intros Ha Hb Hc Hd. unfold DateObj.pad. cbn [Str.padDigits].
  set (n := 10 * (10 * (10 * (10 * 0 + a) + b) + c) + d).
  assert (H1 : n mod 10 = d) by (subst n; Z.to_euclidean_division_equations; lia).
  assert (H2 : (n / 10) mod 10 = c) by (subst n; Z.to_euclidean_division_equations; lia).
  assert (H3 : (n / 10 / 10) mod 10 = b)
    by (subst n; Z.to_euclidean_division_equations; lia).
  assert (H4 : (n / 10 / 10 / 10) mod 10 = a)
    by (subst n; Z.to_euclidean_division_equations; lia).
  now rewrite H1, H2, H3, H4.
Qed.

(** A bare calendar date [YYYY-MM-DD]: the numbers that it spells, how they
    are written, and where [split('T')] cuts a string that starts with it. *)
Lemma bare_fields (s : string) :
  Str.isBareCalendarDate s = true ->
  exists y m d,
    DateObj.parseDatePart (list_ascii_of_string s) = Some (y, m, d, [])
    /\ s = (DateObj.pad 4 y ++ "-" ++ DateObj.pad 2 m ++ "-" ++ DateObj.pad 2 d)%string
    /\ forall rest, Str.beforeFirst "T" (s ++ String "T" rest) = s.
Proof.
  unfold Str.isBareCalendarDate.
  do 10 (destruct s as [|? s]; [discriminate|]). destruct s; [|discriminate].
  cbn [list_ascii_of_string]. intros H.
  do 9 (apply andb_true_iff in H; destruct H as [H ?]).
  repeat match goal with
         | E : Ascii.eqb _ _ = true |- _ => apply Ascii.eqb_eq in E; subst
         end.
  repeat match goal with
         | E : Str.isDigit ?c = true |- _ =>
             let v := fresh "v" in
             let Hv := fresh "Hv" in
             let Hr := fresh "Hr" in
             let Hc := fresh "Hc" in
             let HT := fresh "HT" in
             destruct (isDigit_value c E) as (v & Hv & Hr & Hc & HT); clear E
         end.
  eexists _, _, _. split; [|split].
  - unfold DateObj.parseDatePart. cbn [Str.readDigits].
    repeat match goal with
           | E : Str.digitValue _ = Some _ |- _ => rewrite E; clear E
           end.
    cbn [DateObj.expect]. rewrite (Ascii.eqb_refl "-").
    cbn [Str.readDigits].
    repeat match goal with
           | E : Str.digitValue _ = Some _ |- _ => rewrite E; clear E
           end.
    cbn [DateObj.expect]. rewrite (Ascii.eqb_refl "-").
    cbn [Str.readDigits].
    repeat match goal with
           | E : Str.digitValue _ = Some _ |- _ => rewrite E; clear E
           end.
    reflexivity.
  - rewrite pad_4_digits, !pad_2_digits by assumption.
    repeat match goal with
           | E : Str.digitChar _ = _ |- _ => rewrite E; clear E
           end.
    reflexivity.
  - intros rest. cbn [append Str.beforeFirst].
    repeat match goal with
           | E : Ascii.eqb _ "T" = false |- _ => rewrite E; clear E
           end.
    change (Ascii.eqb "-" "T") with false. cbv iota.
    now rewrite (Ascii.eqb_refl "T").
Qed.

(** The date key of a bare calendar date that names a day of the calendar is
    the date itself. *)
Lemma formatDateKey_of_bare `{Host} (s : string) :
  Str.isBareCalendarDate (Str.trim s) = true ->
  DateObj.parseISO (Str.trim s) <> None ->
  exists y m d,
    DateObj.parseDatePart (list_ascii_of_string (Str.trim s)) = Some (y, m, d, [])
    /\ 1 <= m <= 12 /\ 1 <= d <= DaysInMonth y (m - 1)
    /\ normalizeTravelDate (OfString s) = Normal (Some (MakeDay y (m - 1) d * msPerDay))
    /\ formatDateKey (OfString s) = Normal (Str.trim s).
Proof.
  intros Hbare Hiso.
  destruct (bare_fields _ Hbare) as (y & m & d & Hparse & Hshape & Hcut).
  exists y, m, d. split; [exact Hparse|].
  unfold DateObj.parseISO in Hiso. rewrite Hparse in Hiso.
  destruct ((1 <=? m) && (m <=? 12) && (1 <=? d) && (d <=? DaysInMonth y (m - 1))) eqn:Hok;
    [|contradiction].
  repeat (apply andb_true_iff in Hok; destruct Hok as [Hok ?]).
  repeat match goal with E : (_ <=? _) = true |- _ => apply Z.leb_le in E end.
  assert (Hm : 1 <= m <= 12) by lia.
  assert (Hd : 1 <= d <= DaysInMonth y (m - 1)) by lia.
  split; [exact Hm|]. split; [exact Hd|].
  pose proof (normalizeTravelDate_bare s y m d Hbare Hparse Hm Hd) as Hnorm.
  split; [exact Hnorm|].
  unfold formatDateKey. rewrite Hnorm. unfold DateObj.toISOString.
  destruct (calendar_of_MakeDay y m d Hm Hd) as (Hy & Hmo & Hda).
  rewrite Hy, Hmo, Hda. replace (m - 1 + 1) with m by lia.
  pose proof (parseDatePart_year _ _ _ _ _ Hparse) as Hyr.
  assert (Hin : (0 <=? y) && (y <=? 9999) = true)
    by (apply andb_true_iff; split; apply Z.leb_le; lia).
  rewrite Hin. f_equal.
  rewrite <- (Hcut (DateObj.pad 2 (HourFromTime (MakeDay y (m - 1) d * msPerDay))
                    ++ ":" ++ DateObj.pad 2 (MinFromTime (MakeDay y (m - 1) d * msPerDay))
                    ++ ":" ++ DateObj.pad 2 (SecFromTime (MakeDay y (m - 1) d * msPerDay))
                    ++ "." ++ DateObj.pad 3 (msFromTime (MakeDay y (m - 1) d * msPerDay))
                    ++ "Z")%string).
  f_equal. rewrite Hshape.
  rewrite !append_assoc. reflexivity.
Qed.

(** X1. What [normalizeTravelDate] returns is a fixed point of it.  When it
    returns a valid date, that date is a UTC midnight, normalising it again
    returns it unchanged, and its date key is the date key of the input: the
    second normalisation that [createBooking] and [searchTrip] apply through
    [formatDateKey(travelDate)] never moves the travel day. *)
Theorem normalizeTravelDate_fixed_point `{Host} (input : DateInput) (t : Z) :
  normalizeTravelDate input = Normal (Some t) ->
  TimeWithinDay t = 0
  /\ HourFromTime t = 0
  /\ normalizeTravelDate (OfDate (Some t)) = Normal (Some t)
  /\ formatDateKey (OfDate (Some t)) = formatDateKey input.
Proof.
  intros Hn. destruct (normalizeTravelDate_midnight input t Hn) as [Hmid Hr].
  split.
  { destruct (Day_TimeWithinDay t) as [Ht _]. lia. }
  split; [rewrite Hmid; apply HourFromTime_midnight|].
  split; [exact (normalizeTravelDate_idempotent input t Hn)|].
  rewrite (formatDateKey_normalised input t Hn).
  unfold formatDateKey, dateKeyOf. rewrite Hn. reflexivity.
Qed.

(** 14:00 UTC on Christmas 2024 becomes the midnight of the 26th, which stays
    where it is. *)
Lemma normalizeTravelDate_fixed_point_witness :
  normalizeTravelDate (H := Sample.host) (OfDate (Some 1735171200000))
  = Normal (Some 1735171200000)
  /\ formatDateKey (H := Sample.host) (OfDate (Some 1735171200000))
     = formatDateKey (H := Sample.host) (OfString "2024-12-25T14:00:00Z").
Proof.
  assert (Hn : normalizeTravelDate (H := Sample.host) (OfString "2024-12-25T14:00:00Z")
               = Normal (Some 1735171200000)) by (vm_compute; reflexivity).
  destruct (normalizeTravelDate_fixed_point (H := Sample.host) _ _ Hn)
    as (_ & _ & Hfix & Hkey).
  split; assumption.
Defined.

(** X2. The date key of a calendar date is the date.  For a string that,
    trimmed, has the form [YYYY-MM-DD] and spells a month from 1 to 12 and a
    day of that month, [formatDateKey] returns the trimmed string itself:
    the closed dates that an administrator enters in this form are stored as
    they were entered. *)
Theorem formatDateKey_bare_identity `{Host} (s : string) (y m d : Z) :
  Str.isBareCalendarDate (Str.trim s) = true ->
  DateObj.parseDatePart (list_ascii_of_string (Str.trim s)) = Some (y, m, d, []) ->
  1 <= m <= 12 -> 1 <= d <= DaysInMonth y (m - 1) ->
  formatDateKey (OfString s) = Normal (Str.trim s).
Proof.
  intros Hbare Hparse Hm Hd.
  assert (Hiso : DateObj.parseISO (Str.trim s) <> None).
  { unfold DateObj.parseISO. rewrite Hparse.
    assert (Hok : (1 <=? m) && (m <=? 12) && (1 <=? d) && (d <=? DaysInMonth y (m - 1))
                  = true)
      by (repeat (apply andb_true_iff; split); apply Z.leb_le; lia).
    rewrite Hok.
    pose proof (parseDatePart_year _ _ _ _ _ Hparse) as Hy.
    pose proof (DaysInMonth_bounds y (m - 1)).
    pose proof (MakeDay_bounds y m d Hy Hm ltac:(lia)).
    rewrite TimeClip_Some by (unfold MakeDate, msPerDay; lia). discriminate. }
  destruct (formatDateKey_of_bare s Hbare Hiso) as (_ & _ & _ & _ & _ & _ & _ & Hkey).
  exact Hkey.
Qed.

(** The leap day of 2024, with blanks around it. *)
Lemma formatDateKey_bare_identity_witness :
  formatDateKey (H := Sample.host) (OfString " 2024-02-29 ") = Normal "2024-02-29"%string.
Proof.
  assert (Hbare : Str.isBareCalendarDate (Str.trim " 2024-02-29 ") = true)
    by (vm_compute; reflexivity).
  assert (Hparse : DateObj.parseDatePart (list_ascii_of_string (Str.trim " 2024-02-29 "))
                   = Some (2024, 2, 29, [])) by (vm_compute; reflexivity).
  assert (Hm : 1 <= 2 <= 12) by lia.
  assert (Hd : 1 <= 29 <= DaysInMonth 2024 (2 - 1)) by (vm_compute; split; discriminate).
  exact (formatDateKey_bare_identity (H := Sample.host) " 2024-02-29 " 2024 2 29
           Hbare Hparse Hm Hd).
Defined.

(** A date of the calendar in the form [YYYY-MM-DD] is read by [new Date] as
    the midnight that [normalizeTravelDate] makes of the string. *)
Lemma parse_of_bare `{Host} (s : string) (y m d : Z) :
  DateObj.parseDatePart (list_ascii_of_string s) = Some (y, m, d, []) ->
  1 <= m <= 12 -> 1 <= d <= DaysInMonth y (m - 1) ->
  DateObj.ofString s = Some (MakeDay y (m - 1) d * msPerDay).
Proof.
  intros Hparse Hm Hd. unfold DateObj.ofString, DateObj.parse, DateObj.parseISO.
  rewrite Hparse.
  assert (Hok : (1 <=? m) && (m <=? 12) && (1 <=? d) && (d <=? DaysInMonth y (m - 1))
                = true)
    by (repeat (apply andb_true_iff; split); apply Z.leb_le; lia).
  rewrite Hok.
  pose proof (parseDatePart_year _ _ _ _ _ Hparse) as Hy.
  pose proof (DaysInMonth_bounds y (m - 1)).
  pose proof (MakeDay_bounds y m d Hy Hm ltac:(lia)).
  rewrite TimeClip_Some by (unfold MakeDate, msPerDay; lia).
  unfold MakeDate. f_equal. lia.
Qed.

(** A string and the [Date] that [new Date] makes of it have the same travel
    day. *)
Lemma normalizeTravelDate_string_or_date `{Host} (s : string) :
  Str.trim s = s -> Str.truthy s = true ->
  (Str.isBareCalendarDate s = true -> DateObj.parseISO s <> None) ->
  normalizeTravelDate (OfString s) = normalizeTravelDate (OfDate (DateObj.ofString s)).
Proof.
  intros Htrim Hne Hcal.
  destruct (Str.isBareCalendarDate s) eqn:Hbare.
  - rewrite <- Htrim in Hbare.
    assert (Hiso : DateObj.parseISO (Str.trim s) <> None)
      by (rewrite Htrim; now apply Hcal).
    destruct (formatDateKey_of_bare s Hbare Hiso)
      as (y & m & d & Hparse & Hm & Hd & Hnorm & _).
    rewrite Htrim in Hparse. rewrite (parse_of_bare s y m d Hparse Hm Hd), Hnorm.
    symmetry. exact (normalizeTravelDate_idempotent _ _ Hnorm).
  - rewrite normalizeTravelDate_string, Htrim, Hne, Hbare. cbn [negb].
    unfold DateObj.ofString. destruct (DateObj.parse s); reflexivity.
Qed.

(** X3. One string, one date key.  The booking and search handlers take the
    key of [new Date(date)], the closed-date handlers the key of the string
    itself.  For a trimmed, non-empty string that is not of the form
    [YYYY-MM-DD], or is of that form and names a day of the calendar, the two
    ways give the same travel day and the same date key (or throw both). *)
Theorem formatDateKey_string_or_date `{Host} (s : string) :
  Str.trim s = s -> Str.truthy s = true ->
  (Str.isBareCalendarDate s = true -> DateObj.parseISO s <> None) ->
  normalizeTravelDate (OfString s) = normalizeTravelDate (OfDate (DateObj.ofString s))
  /\ formatDateKey (OfString s) = formatDateKey (OfDate (DateObj.ofString s)).
Proof.
  intros Htrim Hne Hcal.
  pose proof (normalizeTravelDate_string_or_date s Htrim Hne Hcal) as Hn.
  split; [exact Hn|]. unfold formatDateKey. now rewrite Hn.
Qed.

(** The closed day of the sample route, as a date and as an instant of the
    evening before. *)
Lemma formatDateKey_string_or_date_witness :
  formatDateKey (H := Sample.host) (OfString "2025-06-11")
  = formatDateKey (H := Sample.host)
      (OfDate (DateObj.ofString (H := Sample.host) "2025-06-11"))
  /\ formatDateKey (H := Sample.host) (OfString "2025-06-10T21:30:00Z")
     = formatDateKey (H := Sample.host)
         (OfDate (DateObj.ofString (H := Sample.host) "2025-06-10T21:30:00Z")).
Proof.
  split.
  - assert (Htrim : Str.trim "2025-06-11" = "2025-06-11"%string) by (vm_compute; reflexivity).
    assert (Hne : Str.truthy "2025-06-11" = true) by reflexivity.
    assert (Hcal : Str.isBareCalendarDate "2025-06-11" = true ->
                   DateObj.parseISO (H := Sample.host) "2025-06-11" <> None)
      by (intros _; vm_compute; discriminate).
    exact (proj2 (formatDateKey_string_or_date (H := Sample.host) _ Htrim Hne Hcal)).
  - assert (Htrim : Str.trim "2025-06-10T21:30:00Z" = "2025-06-10T21:30:00Z"%string)
      by (vm_compute; reflexivity).
    assert (Hne : Str.truthy "2025-06-10T21:30:00Z" = true) by reflexivity.
    assert (Hcal : Str.isBareCalendarDate "2025-06-10T21:30:00Z" = true ->
                   DateObj.parseISO (H := Sample.host) "2025-06-10T21:30:00Z" <> None)
      by (intros _; vm_compute; discriminate).
    exact (proj2 (formatDateKey_string_or_date (H := Sample.host) _ Htrim Hne Hcal)).
Defined.

(* ================================================================== *)
(** * Promo codes *)
(* ================================================================== *)

Lemma collectErrors_all (checks : list (string * bool)) :
  (forall c, In c checks -> snd c = true) -> collectErrors checks = [].
Proof.
  unfold collectErrors. induction checks as [|[name ok] rest IH]; simpl; [reflexivity|].
  intros Hall. pose proof (Hall (name, ok) (or_introl eq_refl)) as Hok.
  simpl in Hok. subst ok. simpl. apply IH. intros c Hc. apply Hall. now right.
Qed.

Lemma Math_min_not_NaN (a b : JS.Number) :
  JS.isNaN (JS.Math_min a b) = false -> JS.isNaN a = false /\ JS.isNaN b = false.
Proof.
  unfold JS.Math_min. destruct (JS.isNaN a), (JS.isNaN b); simpl; auto; discriminate.
Qed.

(** The discount of a percentage code with a cap is at most the cap, unless
    it is NaN. *)
Lemma promoDiscount_le_maxDiscount (promo : PromoCode.t) (subtotal : JS.Number) :
  (PromoCode.discountPercent promo >? n0)%js = true ->
  (PromoCode.maxDiscount promo >? n0)%js = true ->
  JS.isNaN (promoDiscount promo subtotal) = false ->
  (promoDiscount promo subtotal <=? PromoCode.maxDiscount promo)%js = true.
Proof.
  intros Hp Hm. unfold promoDiscount. rewrite Hp, Hm. intros Hnan.
  destruct (Math_min_not_NaN _ _ Hnan) as [Na Nb]. now apply Math_min_le_r.
Qed.

(** X4. The cap of a percentage code holds on every booking.  When
    [createBooking] answers 201 for a request with a promo code, and the code
    that the query finds gives a percentage with a positive [maxDiscount],
    the discount stored on the booking is at most [maxDiscount], however
    large the base price is. *)
Theorem createBooking_discount_capped `{Host} (env : BookingEnv) (req : BookingReq.t)
  (st st' : Store) (b : Booking.t) (code : string) (promo : PromoCode.t) :
  createBooking env req st = (st', Created b) ->
  BookingReq.promoCode req = Some code ->
  findOne (promoQuery (now env) (Str.trim code)) (promoCodes st) = Some promo ->
  (PromoCode.discountPercent promo >? n0)%js = true ->
  (PromoCode.maxDiscount promo >? n0)%js = true ->
  (Booking.discount b <=? PromoCode.maxDiscount promo)%js = true.
Proof.
  intros Hc Hcode Hfind Hp Hm.
  destruct (createBooking_created env req st st' b Hc)
    as (route & _ & _ & _ & _ & _ & Hpromo & _ & _ & _ & Hvalid & _).
  assert (Hzero : (n0 <=? PromoCode.maxDiscount promo)%js = true)
    by (apply ltb_leb; exact Hm).
  unfold Booking.valid in Hvalid.
  repeat (apply andb_true_iff in Hvalid; destruct Hvalid as [Hvalid ?]).
  assert (Hnan : JS.isNaN (Booking.discount b) = false) by now apply negb_true_iff.
  rewrite Hcode in Hpromo. unfold applyPromo in Hpromo. cbn [option_map] in Hpromo.
  destruct (Str.truthy (Str.trim code)).
  - rewrite Hfind in Hpromo.
    destruct ((PromoCode.usageLimit promo =? 0)
              || (PromoCode.usageCount promo <? PromoCode.usageLimit promo)).
    + injection Hpromo as Hd _. rewrite Hd in *.
      now apply promoDiscount_le_maxDiscount.
    + injection Hpromo as Hd _. now rewrite Hd.
  - injection Hpromo as Hd _. now rewrite Hd.
Qed.

(** The sample booking with WELCOME10: 12.5 off, under the cap of 20. *)
Lemma createBooking_discount_capped_witness :
  (Booking.discount Sample.pendingBooking <=? JS.ofZ 20)%js = true.
Proof.
  assert (Hc : createBooking (H := Sample.host) Sample.bookingEnv Sample.request
                 Sample.store0 = (Sample.pendingStore, Created Sample.pendingBooking))
    by (vm_compute; reflexivity).
  assert (Hcode : BookingReq.promoCode Sample.request = Some "WELCOME10"%string)
    by reflexivity.
  assert (Hfind : findOne (promoQuery (now Sample.bookingEnv) (Str.trim "WELCOME10"))
                    (promoCodes Sample.store0) = Some Sample.welcome10)
    by (vm_compute; reflexivity).
  assert (Hp : (PromoCode.discountPercent Sample.welcome10 >? n0)%js = true)
    by (vm_compute; reflexivity).
  assert (Hm : (PromoCode.maxDiscount Sample.welcome10 >? n0)%js = true)
    by (vm_compute; reflexivity).
  exact (createBooking_discount_capped (H := Sample.host) _ _ _ _ _ _ _
           Hc Hcode Hfind Hp Hm).
Defined.




(* ================================================================== *)
(** * Trip search *)
(* ================================================================== *)

(** The search for the trip of a booking request. *)
Lemma searchValidation_of_booking `{Host} (req : BookingReq.t) :
  bookingValidation req = [] ->
  searchValidation {| TripReq.from := BookingReq.from req;
                      TripReq.to := BookingReq.to req;
                      TripReq.date := BookingReq.date req |} = [].
Proof.
  intros Hval. unfold bookingValidation in Hval.
  pose proof (collectErrors_nil _ Hval) as Hall.
  unfold searchValidation. apply collectErrors_all. cbn [TripReq.from TripReq.to TripReq.date].
  intros c [<- | [<- | [<- | []]]].
  - apply (Hall ("from"%string, _)). now left.
  - apply (Hall ("to"%string, _)). right. now left.
  - apply (Hall ("date"%string, _)). do 2 right. now left.
Qed.

(** X6. [searchTrip] tells what [createBooking] will answer.  For a booking
    request that passes validation, the search for the same [from], [to] and
    [date] in the same store answers 'Route not found', 'Route not available
    on selected date' (with the same days) or 'Route closed on selected date'
    (with the same date key) exactly as the booking is refused; when it
    answers 500 so does the booking; and when it finds the trip the booking
    is created, for the price and on the travel day that the search shows,
    unless saving it fails. *)
Theorem searchTrip_agrees_with_createBooking `{Host} (env : BookingEnv)
  (req : BookingReq.t) (st : Store) :
  bookingValidation req = [] ->
  let response := snd (createBooking env req st) in
  match searchTrip {| TripReq.from := BookingReq.from req;
                      TripReq.to := BookingReq.to req;
                      TripReq.date := BookingReq.date req |} st with
  | SearchValidationFailed _ => False
  | SearchRouteNotFound => response = RouteNotFound
  | SearchNotAvailable days => response = RouteNotAvailable days
  | SearchClosed key => response = RouteClosed key
  | TripFound route iso =>
      response = CreateFailed
      \/ exists b, response = Created b
                   /\ Booking.subtotal b = Route.basePrice route
                   /\ DateObj.toISOString (Some (Booking.date b)) = Normal iso
  | SearchFailed => response = CreateFailed
  end.
Proof.
  intros Hval response. subst response.
  unfold searchTrip, createBooking.
  rewrite (searchValidation_of_booking req Hval), Hval.
  cbn [TripReq.from TripReq.to TripReq.date].
  destruct (findOne _ (routes st)) as [route|]; [|reflexivity].
  destruct (normalizeTravelDate _) as [travelDate|msg]; [|reflexivity].
  match goal with
  | |- context [if ?c then _ else _] => destruct c
  end.
  { destruct (DateObj.toISOString travelDate); reflexivity. }
  destruct travelDate as [travelTime|].
  2:{ assert (Hkey : formatDateKey (OfDate None) = Throw "Invalid date value")
        by reflexivity.
      rewrite Hkey. reflexivity. }
  destruct (formatDateKey (OfDate (Some travelTime))) as [key|msg]; [|reflexivity].
  match goal with
  | |- context [if ?c then _ else _] => destruct c; [reflexivity|]
  end.
  destruct (toISOString_valid travelTime) as [iso Hiso]. rewrite Hiso.
  destruct (applyPromo _ _ _ st) as [discount validPromoCode].
  match goal with
  | |- context [if ?c then _ else _] => destruct c; [|now left]
  end.
  right. eexists. split; [reflexivity|]. split; [reflexivity|exact Hiso].
Qed.

(** The search for the trip of the sample request finds it for 125, on
    2025-06-10; the booking is created for that price and day. *)
Lemma searchTrip_agrees_with_createBooking_witness :
  searchTrip (H := Sample.host) Scenario.search Sample.store0
  = TripFound Sample.route "2025-06-10T00:00:00.000Z"
  /\ (snd (createBooking (H := Sample.host) Sample.bookingEnv Sample.request Sample.store0)
      = CreateFailed
      \/ exists b,
          snd (createBooking (H := Sample.host) Sample.bookingEnv Sample.request
                 Sample.store0) = Created b
          /\ Booking.subtotal b = Route.basePrice Sample.route
          /\ DateObj.toISOString (Some (Booking.date b))
             = Normal "2025-06-10T00:00:00.000Z"%string).
Proof.
  assert (Hval : bookingValidation (H := Sample.host) Sample.request = [])
    by (vm_compute; reflexivity).
  assert (Hs : searchTrip (H := Sample.host)
                 {| TripReq.from := BookingReq.from Sample.request;
                    TripReq.to := BookingReq.to Sample.request;
                    TripReq.date := BookingReq.date Sample.request |} Sample.store0
               = TripFound Sample.route "2025-06-10T00:00:00.000Z")
    by (vm_compute; reflexivity).
  pose proof (searchTrip_agrees_with_createBooking (H := Sample.host)
                Sample.bookingEnv Sample.request Sample.store0 Hval) as Hagree.
  cbv zeta in Hagree. rewrite Hs in Hagree.
  split; [vm_compute; reflexivity|exact Hagree].
Defined.

(* ================================================================== *)
(** * Sorted arrays of strings *)
(* ================================================================== *)

Lemma String_compare_refl (a : string) : String.compare a a = Eq.
Proof.
  induction a as [|x a IH]; simpl; [reflexivity|].
  unfold Ascii.compare. now rewrite N.compare_refl.
Qed.

(** The order of the strings is transitive. *)
Lemma String_compare_trans (a b c : string) :
  String.compare a b = Lt -> String.compare b c = Lt -> String.compare a c = Lt.
Proof.
  revert b c. induction a as [|x a IH]; intros [|y b] [|z c]; simpl;
    try discriminate; try reflexivity.
  unfold Ascii.compare.
  destruct (N.compare_spec (N_of_ascii x) (N_of_ascii y)) as [Exy|Exy|Exy];
    destruct (N.compare_spec (N_of_ascii y) (N_of_ascii z)) as [Eyz|Eyz|Eyz];
    try discriminate; intros Hab Hbc.
  - rewrite Exy, Eyz, N.compare_refl. now apply (IH b c).
  - rewrite Exy. now apply N.compare_lt_iff in Eyz as ->.
  - rewrite <- Eyz. now apply N.compare_lt_iff in Exy as ->.
  - assert (Hxz : (N_of_ascii x < N_of_ascii z)%N) by (now apply (N.lt_trans _ _ _ Exy)).
    now apply N.compare_lt_iff in Hxz as ->.
Qed.

Lemma String_ltb_trans (a b c : string) :
  String.ltb a b = true -> String.ltb b c = true -> String.ltb a c = true.
Proof.
  unfold String.ltb.
  destruct (String.compare a b) eqn:Eab; try discriminate.
  destruct (String.compare b c) eqn:Ebc; try discriminate.
  now rewrite (String_compare_trans a b c Eab Ebc).
Qed.

Lemma String_ltb_irrefl (a : string) : String.ltb a a = false.
Proof. unfold String.ltb. now rewrite String_compare_refl. Qed.

Lemma String_leb_neq_ltb (a b : string) :
  String.leb a b = true -> a <> b -> String.ltb a b = true.
Proof.
  unfold String.leb, String.ltb. destruct (String.compare a b) eqn:E; try discriminate.
  - apply String.compare_eq_iff in E. contradiction.
  - reflexivity.
Qed.

Lemma String_ltb_leb (a b : string) : String.ltb a b = true -> String.leb a b = true.
Proof. unfold String.leb, String.ltb. destruct (String.compare a b); congruence. Qed.

Lemma insert_Permutation (x : string) (l : list string) :
  Permutation (Arr.insert x l) (x :: l).
Proof.
  induction l as [|y l IH]; simpl; [reflexivity|].
  destruct (String.leb x y); [reflexivity|].
  rewrite IH. apply perm_swap.
Qed.

(** [sort] rearranges the array. *)
Lemma sort_Permutation (l : list string) : Permutation (Arr.sort l) l.
Proof.
  induction l as [|x l IH]; simpl; [reflexivity|].
  now rewrite insert_Permutation, IH.
Qed.

Lemma sort_In (l : list string) (x : string) : In x (Arr.sort l) <-> In x l.
Proof.
  split; apply Permutation_in; [|symmetry]; apply sort_Permutation.
Qed.

Lemma insert_Sorted (x : string) (l : list string) :
  Sorted (fun a b => String.leb a b = true) l ->
  Sorted (fun a b => String.leb a b = true) (Arr.insert x l).
Proof.
  induction l as [|y l IH]; simpl; intros Hs.
  - repeat constructor.
  - destruct (String.leb x y) eqn:Hxy.
    + constructor; [exact Hs|]. now constructor.
    + apply Sorted_inv in Hs. destruct Hs as [Hs Hhd].
      constructor; [now apply IH|].
      assert (Hyx : String.leb y x = true)
        by (destruct (String.leb_total x y); congruence).
      destruct l as [|z l]; simpl.
      * now constructor.
      * destruct (String.leb x z); constructor; [exact Hyx|].
        now apply HdRel_inv in Hhd.
Qed.

(** [sort] returns an ascending array. *)
Lemma sort_Sorted (l : list string) :
  Sorted (fun a b => String.leb a b = true) (Arr.sort l).
Proof.
  induction l as [|x l IH]; simpl; [constructor|]. now apply insert_Sorted.
Qed.

(** An ascending array without duplicates is strictly ascending, and a
    strictly ascending array has no duplicates. *)
Lemma Sorted_leb_NoDup (l : list string) :
  Sorted (fun a b => String.leb a b = true) l -> NoDup l ->
  Sorted (fun a b => String.ltb a b = true) l.
Proof.
  induction l as [|x l IH]; intros Hs Hn; [constructor|].
  apply Sorted_inv in Hs. destruct Hs as [Hs Hhd].
  apply NoDup_cons_iff in Hn. destruct Hn as [Hx Hn].
  constructor; [now apply IH|].
  destruct l as [|y l]; constructor.
  apply HdRel_inv in Hhd. apply String_leb_neq_ltb; [exact Hhd|].
  intros ->. apply Hx. now left.
Qed.

Lemma Sorted_ltb_strongly (l : list string) :
  Sorted (fun a b => String.ltb a b = true) l ->
  StronglySorted (fun a b => String.ltb a b = true) l.
Proof.
  apply Sorted_StronglySorted. intros a b c. apply String_ltb_trans.
Qed.

Lemma Sorted_ltb_NoDup (l : list string) :
  Sorted (fun a b => String.ltb a b = true) l -> NoDup l.
Proof.
  intros Hs. apply Sorted_ltb_strongly in Hs.
  induction Hs as [|x l Hs IH Hall]; constructor; [|exact IH].
  intros Hin. rewrite Forall_forall in Hall. specialize (Hall x Hin).
  now rewrite String_ltb_irrefl in Hall.
Qed.

Lemma filter_Sorted_ltb (p : string -> bool) (l : list string) :
  Sorted (fun a b => String.ltb a b = true) l ->
  Sorted (fun a b => String.ltb a b = true) (filter p l).
Proof.
  intros Hs. apply Sorted_ltb_strongly in Hs. apply StronglySorted_Sorted.
  induction Hs as [|x l Hs IH Hall]; simpl; [constructor|].
  destruct (p x); [|exact IH].
  constructor; [exact IH|].
  rewrite Forall_forall in *. intros y Hy. apply filter_In in Hy. now apply Hall.
Qed.

Lemma includesKey_In (keys : list string) (k : string) :
  includesKey keys k = true <-> In k keys.
Proof.
  unfold includesKey. rewrite existsb_exists. split.
  - intros (x & Hx & E). apply String.eqb_eq in E. now subst.
  - intros Hin. exists k. split; [exact Hin|apply String.eqb_refl].
Qed.

(** The keys of an array after [push(key)] and [sort()]. *)
Lemma includesKey_sort_push (keys : list string) (key k : string) :
  includesKey (Arr.sort (keys ++ [key])) k = includesKey keys k || String.eqb k key.
Proof.
  apply eq_true_iff_eq. rewrite orb_true_iff, !includesKey_In, sort_In, in_app_iff.
  rewrite String.eqb_eq. simpl. intuition congruence.
Qed.

(** The keys of an array after [filter(item => item !== key)]. *)
Lemma includesKey_filter (keys : list string) (key k : string) :
  includesKey (filter (fun item => negb (String.eqb item key)) keys) k
  = includesKey keys k && negb (String.eqb k key).
Proof.
  apply eq_true_iff_eq.
  rewrite andb_true_iff, !includesKey_In, filter_In, negb_true_iff. reflexivity.
Qed.

(* ================================================================== *)
(** * Closed dates *)
(* ================================================================== *)

Lemma findById_saveRoute (id : nat) (r r0 : Route.t) (coll : list Route.t) :
  findById id coll = Some r0 -> findById id (saveRoute id r coll) = Some r.
Proof.
  unfold findById. revert id. induction coll as [|x rest IH]; intros [|id]; simpl;
    try discriminate; [reflexivity|apply IH].
Qed.

Lemma findById_saveRoute_other (id j : nat) (r : Route.t) (coll : list Route.t) :
  j <> id -> findById j (saveRoute id r coll) = findById j coll.
Proof.
  unfold findById. revert id j. induction coll as [|x rest IH]; intros [|id] [|j] Hj; simpl;
    try reflexivity; try contradiction.
  apply IH. congruence.
Qed.

(** The document at the position of the first match is the one that
    [findOne] returns. *)
Lemma idOfFirst_findOne {A : Type} (query : A -> bool) (coll : list A) (id : nat) :
  idOfFirst query coll = Some id -> findOne query coll = nth_error coll id.
Proof.
  revert id. induction coll as [|x rest IH]; intros id; simpl; [discriminate|].
  destruct (query x); [now intros [= <-]|].
  destruct (idOfFirst query rest) as [n|]; [|discriminate].
  intros [= <-]. simpl. now apply IH.
Qed.

(** Saving a document that still matches the query at the position of the
    first match: [findOne] returns the saved document. *)
Lemma findOne_saveRoute (query : Route.t -> bool) (id : nat) (r : Route.t)
  (coll : list Route.t) :
  idOfFirst query coll = Some id -> query r = true ->
  findOne query (saveRoute id r coll) = Some r.
Proof.
  revert id. induction coll as [|x rest IH]; intros id; simpl; [discriminate|].
  destruct (query x) eqn:Hx.
  - intros [= <-] Hr. simpl. now rewrite Hr.
  - destruct (idOfFirst query rest) as [n|]; [|discriminate].
    intros [= <-] Hr. simpl. rewrite Hx. now apply IH.
Qed.

Lemma set_closedDates_same (r : Route.t) (keys : list string) :
  Route.closedDates r = Some keys -> set_closedDates (Some keys) r = r.
Proof. destruct r; simpl. now intros ->. Qed.

(** What is known when [addClosedDate] answers 200. *)
Lemma addClosedDate_done `{Host} (id : nat) (date : string) (st st' : Store)
  (route' : Route.t) :
  addClosedDate id date st = (st', RouteClosedForDate route') ->
  exists route dateKey,
    closedDateValidation date = []
    /\ formatDateKey (OfString (Str.trim date)) = Normal dateKey
    /\ findById id (routes st) = Some route
    /\ (includesKey (closedDatesOf route) dateKey = true /\ st' = st /\ route' = route
        \/ includesKey (closedDatesOf route) dateKey = false
           /\ closedDatesValid (Arr.sort (closedDatesOf route ++ [dateKey])) = true
           /\ route' = set_closedDates
                         (Some (Arr.sort (closedDatesOf route ++ [dateKey]))) route
           /\ st' = set_routes (saveRoute id route' (routes st)) st).
Proof.
  unfold addClosedDate.
  destruct (closedDateValidation date) as [|e errors] eqn:Hval; [|discriminate].
  destruct (formatDateKey (OfString (Str.trim date))) as [dateKey|msg] eqn:Hkey;
    [|discriminate].
  destruct (findById id (routes st)) as [route|] eqn:Hroute; [|discriminate].
  destruct (includesKey (closedDatesOf route) dateKey) eqn:Hin; cbn [negb].
  - intros [= <- <-]. exists route, dateKey. repeat split; auto. left.
    repeat split; auto.
    unfold closedDatesOf in *.
    destruct (Route.closedDates route) as [keys|] eqn:Hkeys; [|discriminate Hin].
    now apply set_closedDates_same.
  - destruct (closedDatesValid _) eqn:Hvalid; [|discriminate].
    intros [= <- <-]. exists route, dateKey. repeat split; auto.
Qed.

(** What is known when [removeClosedDate] answers 200. *)
Lemma removeClosedDate_done `{Host} (id : nat) (date : string) (st st' : Store)
  (route' : Route.t) :
  removeClosedDate id date st = (st', RouteReopenedForDate route') ->
  exists route dateKey,
    closedDateValidation date = []
    /\ formatDateKey (OfString (Str.trim date)) = Normal dateKey
    /\ findById id (routes st) = Some route
    /\ route' = set_closedDates
                  (Some (filter (fun item => negb (String.eqb item dateKey))
                           (closedDatesOf route))) route
    /\ (includesKey (closedDatesOf route) dateKey = false /\ st' = st
        \/ includesKey (closedDatesOf route) dateKey = true
           /\ closedDatesValid (closedDatesOf route') = true
           /\ st' = set_routes (saveRoute id route' (routes st)) st).
Proof.
  unfold removeClosedDate.
  destruct (closedDateValidation date) as [|e errors] eqn:Hval; [|discriminate].
  destruct (formatDateKey (OfString (Str.trim date))) as [dateKey|msg] eqn:Hkey;
    [|discriminate].
  destruct (findById id (routes st)) as [route|] eqn:Hroute; [|discriminate].
  set (kept := filter (fun item => negb (String.eqb item dateKey)) (closedDatesOf route)).
  assert (Hlen : Nat.eqb (List.length kept) (List.length (closedDatesOf route))
                 = negb (includesKey (closedDatesOf route) dateKey)).
  { subst kept. induction (closedDatesOf route) as [|x l IH]; [reflexivity|].
    cbn [filter includesKey existsb List.length]. rewrite (String.eqb_sym dateKey x).
    destruct (String.eqb x dateKey); cbn [negb orb List.length].
    - pose proof (filter_length_le (fun item => negb (String.eqb item dateKey)) l).
      apply Nat.eqb_neq. lia.
    - exact IH. }
  rewrite Hlen, negb_involutive.
  destruct (includesKey (closedDatesOf route) dateKey) eqn:Hin.
  - destruct (closedDatesValid kept) eqn:Hvalid; [|discriminate].
    intros [= <- <-]. exists route, dateKey. repeat split; auto.
  - intros [= <- <-]. exists route, dateKey. repeat split; auto.
Qed.

(** X7. [addClosedDate] adds the date key to one route, once.  When it
    answers 200, the date key of the (trimmed) date is among the
    [closedDates] of the route with this id, the other keys are there exactly
    as before, nothing else of that route has changed, no other route and no
    other collection has changed, and asking again changes nothing and gives
    the same answer. *)
Theorem addClosedDate_adds_key `{Host} (id : nat) (date : string) (st st' : Store)
  (route' : Route.t) :
  addClosedDate id date st = (st', RouteClosedForDate route') ->
  exists route dateKey,
    formatDateKey (OfString (Str.trim date)) = Normal dateKey
    /\ findById id (routes st) = Some route
    /\ findById id (routes st') = Some route'
    /\ set_closedDates (Route.closedDates route) route' = route
    /\ (forall k, includesKey (closedDatesOf route') k
                  = includesKey (closedDatesOf route) k || String.eqb k dateKey)
    /\ (forall j, j <> id -> findById j (routes st') = findById j (routes st))
    /\ bookings st' = bookings st /\ tickets st' = tickets st
    /\ promoCodes st' = promoCodes st
    /\ addClosedDate id date st' = (st', RouteClosedForDate route').
Proof.
  intros Hadd.
  destruct (addClosedDate_done id date st st' route' Hadd)
    as (route & dateKey & Hval & Hkey & Hroute & Hcases).
  exists route, dateKey.
  assert (Hmem : forall k, includesKey (closedDatesOf route') k
                           = includesKey (closedDatesOf route) k || String.eqb k dateKey).
  { intros k. destruct Hcases as [(Hin & _ & ->) | (_ & _ & -> & _)].
    - destruct (String.eqb_spec k dateKey) as [-> |];
        [now rewrite Hin|now rewrite orb_false_r].
    - apply includesKey_sort_push. }
  assert (Hstored : findById id (routes st') = Some route').
  { destruct Hcases as [(_ & -> & ->) | (_ & _ & _ & ->)]; [exact Hroute|].
    simpl. now apply (findById_saveRoute id route' route). }
  assert (Hsome : exists keys, Route.closedDates route' = Some keys).
  { destruct Hcases as [(Hin & _ & ->) | (_ & _ & -> & _)]; [|simpl; eauto].
    unfold closedDatesOf in Hin.
    destruct (Route.closedDates route); [eauto|discriminate]. }
  split; [exact Hkey|]. split; [exact Hroute|]. split; [exact Hstored|].
  split.
  { destruct Hcases as [(_ & _ & ->) | (_ & _ & -> & _)]; destruct route; reflexivity. }
  split; [exact Hmem|].
  split.
  { intros j Hj. destruct Hcases as [(_ & -> & _) | (_ & _ & _ & ->)]; [reflexivity|].
    simpl. now apply findById_saveRoute_other. }
  destruct Hcases as [(_ & -> & ->) | (_ & _ & Hr & ->)].
  - repeat split; auto.
  - simpl. repeat split; auto.
    unfold addClosedDate. rewrite Hval, Hkey.
    cbn [routes set_routes].
    assert (Hst : findById id (saveRoute id route' (routes st)) = Some route')
      by now apply (findById_saveRoute id route' route).
    rewrite Hst, (Hmem dateKey), String.eqb_refl, orb_true_r. cbn [negb].
    destruct Hsome as [keys Hkeys]. unfold closedDatesOf. rewrite Hkeys.
    now rewrite (set_closedDates_same route' keys Hkeys).
Qed.

(** X8. [removeClosedDate] removes the date key from one route.  When it
    answers 200, the date key of the (trimmed) date is not among the
    [closedDates] of the route with this id any more, the other keys are
    there exactly as before, nothing else of that route has changed, no other
    route and no other collection has changed, and asking again changes
    nothing and gives the same answer. *)
Theorem removeClosedDate_removes_key `{Host} (id : nat) (date : string) (st st' : Store)
  (route' : Route.t) :
  removeClosedDate id date st = (st', RouteReopenedForDate route') ->
  exists route stored' dateKey,
    formatDateKey (OfString (Str.trim date)) = Normal dateKey
    /\ findById id (routes st) = Some route
    /\ findById id (routes st') = Some stored'
    /\ closedDatesOf stored' = closedDatesOf route'
    /\ set_closedDates (Route.closedDates route) route' = route
    /\ (forall k, includesKey (closedDatesOf route') k
                  = includesKey (closedDatesOf route) k && negb (String.eqb k dateKey))
    /\ (forall j, j <> id -> findById j (routes st') = findById j (routes st))
    /\ bookings st' = bookings st /\ tickets st' = tickets st
    /\ promoCodes st' = promoCodes st
    /\ removeClosedDate id date st' = (st', RouteReopenedForDate route').
Proof.
  intros Hremove.
  destruct (removeClosedDate_done id date st st' route' Hremove)
    as (route & dateKey & Hval & Hkey & Hroute & Hr & Hcases).
  assert (Hkeys : closedDatesOf route'
                  = filter (fun item => negb (String.eqb item dateKey)) (closedDatesOf route))
    by (now rewrite Hr).
  assert (Hmem : forall k, includesKey (closedDatesOf route') k
                           = includesKey (closedDatesOf route) k
                             && negb (String.eqb k dateKey))
    by (intros k; rewrite Hkeys; apply includesKey_filter).
  assert (Hnone : forall keys,
             includesKey keys dateKey = false ->
             filter (fun item => negb (String.eqb item dateKey)) keys = keys).
  { intros keys. induction keys as [|x l IH]; [reflexivity|].
    cbn [includesKey existsb filter]. rewrite (String.eqb_sym dateKey x).
    destruct (String.eqb x dateKey); [discriminate|]. cbn [orb negb].
    intros Hl. f_equal. now apply IH. }
  assert (Hgone : includesKey (closedDatesOf route') dateKey = false)
    by (now rewrite Hmem, String.eqb_refl, andb_false_r).
  assert (Hagain : set_closedDates
                     (Some (filter (fun item => negb (String.eqb item dateKey))
                              (closedDatesOf route'))) route' = route').
  { rewrite (Hnone _ Hgone). apply set_closedDates_same. now rewrite Hr. }
  destruct Hcases as [(Hin & ->) | (Hin & Hvalid & ->)].
  - exists route, route, dateKey.
    split; [exact Hkey|]. split; [exact Hroute|].
    split; [exact Hroute|].
    split; [rewrite Hkeys; symmetry; now apply Hnone|].
    split; [rewrite Hr; destruct route; reflexivity|].
    split; [exact Hmem|].
    repeat split; auto.
  - exists route, route', dateKey.
    split; [exact Hkey|]. split; [exact Hroute|].
    split; [simpl; now apply (findById_saveRoute id route' route)|].
    split; [reflexivity|].
    split; [rewrite Hr; destruct route; reflexivity|].
    split; [exact Hmem|].
    split; [intros j Hj; simpl; now apply findById_saveRoute_other|].
    simpl. repeat split; auto.
    unfold removeClosedDate. rewrite Hval, Hkey. cbn [routes set_routes].
    assert (Hst : findById id (saveRoute id route' (routes st)) = Some route')
      by now apply (findById_saveRoute id route' route).
    rewrite Hst, Hagain, (Hnone _ Hgone), Nat.eqb_refl. reflexivity.
Qed.

(** The store after [addClosedDate] and after [removeClosedDate], whatever
    the answer: it is unchanged, or one route was saved with the key added
    (removed) and a list that passed the schema's validator. *)
Lemma addClosedDate_store `{Host} (id : nat) (date : string) (st st' : Store)
  (response : ClosedDateResponse) :
  addClosedDate id date st = (st', response) ->
  st' = st
  \/ exists route dateKey,
       findById id (routes st) = Some route
       /\ includesKey (closedDatesOf route) dateKey = false
       /\ closedDatesValid (Arr.sort (closedDatesOf route ++ [dateKey])) = true
       /\ st' = set_routes
                  (saveRoute id
                     (set_closedDates (Some (Arr.sort (closedDatesOf route ++ [dateKey])))
                        route) (routes st)) st.
Proof.
  unfold addClosedDate.
  destruct (closedDateValidation date); [|intros [= <- _]; now left].
  destruct (formatDateKey _) as [dateKey|]; [|intros [= <- _]; now left].
  destruct (findById id (routes st)) as [route|] eqn:Hroute; [|intros [= <- _]; now left].
  destruct (includesKey (closedDatesOf route) dateKey) eqn:Hin; cbn [negb];
    [intros [= <- _]; now left|].
  destruct (closedDatesValid _) eqn:Hvalid; [|intros [= <- _]; now left].
  intros [= <- _]. right. exists route, dateKey. auto.
Qed.

Lemma removeClosedDate_store `{Host} (id : nat) (date : string) (st st' : Store)
  (response : ClosedDateResponse) :
  removeClosedDate id date st = (st', response) ->
  st' = st
  \/ exists route dateKey,
       findById id (routes st) = Some route
       /\ closedDatesValid (filter (fun item => negb (String.eqb item dateKey))
                              (closedDatesOf route)) = true
       /\ st' = set_routes
                  (saveRoute id
                     (set_closedDates
                        (Some (filter (fun item => negb (String.eqb item dateKey))
                                 (closedDatesOf route))) route) (routes st)) st.
Proof.
  unfold removeClosedDate.
  destruct (closedDateValidation date); [|intros [= <- _]; now left].
  destruct (formatDateKey _) as [dateKey|]; [|intros [= <- _]; now left].
  destruct (findById id (routes st)) as [route|] eqn:Hroute; [|intros [= <- _]; now left].
  destruct (negb _); [|intros [= <- _]; now left].
  destruct (closedDatesValid _) eqn:Hvalid; [|intros [= <- _]; now left].
  intros [= <- _]. right. exists route, dateKey. auto.
Qed.

(** X9. The closed dates stay in order.  If in every route the [closedDates]
    are strictly ascending (so without duplicates) and of the form
    [YYYY-MM-DD], they still are after [addClosedDate] and after
    [removeClosedDate], whatever these answer. *)
Theorem closedDates_stay_ascending `{Host} (id : nat) (date : string) (st st' : Store)
  (response : ClosedDateResponse) :
  addClosedDate id date st = (st', response)
  \/ removeClosedDate id date st = (st', response) ->
  (forall j r, findById j (routes st) = Some r ->
               Sorted (fun a b => String.ltb a b = true) (closedDatesOf r)
               /\ closedDatesValid (closedDatesOf r) = true) ->
  forall j r, findById j (routes st') = Some r ->
              Sorted (fun a b => String.ltb a b = true) (closedDatesOf r)
              /\ closedDatesValid (closedDatesOf r) = true.
Proof.
  intros Hop Hinv j r Hr.
  assert (Hsaved : st' = st
            \/ exists route keys,
                 findById id (routes st) = Some route
                 /\ Sorted (fun a b => String.ltb a b = true) keys
                 /\ closedDatesValid keys = true
                 /\ st' = set_routes
                            (saveRoute id (set_closedDates (Some keys) route) (routes st))
                            st).
  { destruct Hop as [Hadd | Hremove].
    - destruct (addClosedDate_store _ _ _ _ _ Hadd)
        as [-> | (route & dateKey & Hroute & Hin & Hvalid & ->)]; [now left|].
      right. exists route, (Arr.sort (closedDatesOf route ++ [dateKey])).
      repeat split; auto.
      apply Sorted_leb_NoDup; [apply sort_Sorted|].
      apply (Permutation_NoDup (l := closedDatesOf route ++ [dateKey]));
        [symmetry; apply sort_Permutation|].
      apply NoDup_app; [apply Sorted_ltb_NoDup, (Hinv id route Hroute)
                       |repeat constructor; intros []|].
      intros x Hx [<- | []].
      apply includesKey_In in Hx. congruence.
    - destruct (removeClosedDate_store _ _ _ _ _ Hremove)
        as [-> | (route & dateKey & Hroute & Hvalid & ->)]; [now left|].
      right. exists route, (filter (fun item => negb (String.eqb item dateKey))
                              (closedDatesOf route)).
      repeat split; auto.
      apply filter_Sorted_ltb, (Hinv id route Hroute). }
  destruct Hsaved as [-> | (route & keys & Hroute & Hsorted & Hvalid & ->)];
    [now apply (Hinv j)|].
  cbn [routes set_routes] in Hr.
  destruct (Nat.eq_dec j id) as [-> | Hj].
  - rewrite (findById_saveRoute id _ route _ Hroute) in Hr. injection Hr as <-.
    simpl. now split.
  - rewrite findById_saveRoute_other in Hr by exact Hj. now apply (Hinv j).
Qed.

(** The travel day that a booking request with date [s] gets, when the key
    of [s] is [dateKey]. *)
Lemma dateKey_of_request `{Host} (s dateKey : string) :
  Str.trim s = s -> Str.truthy s = true ->
  (Str.isBareCalendarDate s = true -> DateObj.parseISO s <> None) ->
  formatDateKey (OfString s) = Normal dateKey ->
  exists t, normalizeTravelDate (OfDate (DateObj.ofString s)) = Normal (Some t)
            /\ dateKey = dateKeyOf t.
Proof.
  intros Htrim Hne Hcal Hkey.
  rewrite <- (normalizeTravelDate_string_or_date s Htrim Hne Hcal).
  unfold formatDateKey in Hkey.
  destruct (normalizeTravelDate (OfString s)) as [[t|]|msg]; try discriminate Hkey.
  exists t. split; [reflexivity|]. unfold dateKeyOf.
  destruct (DateObj.toISOString (Some t)); congruence.
Qed.

Lemma closedDateValidation_notEmpty `{Host} (date : string) :
  closedDateValidation date = [] -> Str.truthy (Str.trim date) = true.
Proof.
  intros Hval. unfold closedDateValidation in Hval.
  apply (collectErrors_nil _ Hval ("date"%string, notEmpty date)). now left.
Qed.

Lemma routeQuery_set_closedDates (from to : string) (keys : option (list string))
  (r : Route.t) :
  routeQuery from to (set_closedDates keys r) = routeQuery from to r.
Proof. reflexivity. Qed.

(** X10. A closed date blocks the booking.  Let a booking request pass
    validation, let its [from] and [to] select the route with this id, and
    let its [date] be trimmed and, if of the form [YYYY-MM-DD], name a day of
    the calendar.  Once [addClosedDate] has answered 200 for that route and
    that same date string, [createBooking] refuses the request: with 'Route
    closed on selected date' and the date key of the string, or, if the
    weekday is not one of the route's days, with 'Route not available on
    selected date'. *)
Theorem addClosedDate_blocks_booking `{Host} (env : BookingEnv) (req : BookingReq.t)
  (id : nat) (st st' : Store) (route' : Route.t) :
  bookingValidation req = [] ->
  idOfFirst (routeQuery (Str.trim (BookingReq.from req)) (Str.trim (BookingReq.to req)))
    (routes st) = Some id ->
  Str.trim (BookingReq.date req) = BookingReq.date req ->
  (Str.isBareCalendarDate (BookingReq.date req) = true ->
   DateObj.parseISO (BookingReq.date req) <> None) ->
  addClosedDate id (BookingReq.date req) st = (st', RouteClosedForDate route') ->
  exists dateKey,
    formatDateKey (OfString (BookingReq.date req)) = Normal dateKey
    /\ (snd (createBooking env req st') = RouteClosed dateKey
        \/ snd (createBooking env req st')
           = RouteNotAvailable
               (match Route.availableDays route' with Some d => d | None => [] end)).
Proof.
  intros Hval Hid Htrim Hcal Hadd.
  destruct (addClosedDate_done id _ st st' route' Hadd)
    as (route & dateKey & Hcv & Hkey & Hroute & Hcases).
  pose proof (closedDateValidation_notEmpty _ Hcv) as Hne.
  rewrite Htrim in Hkey, Hne.
  exists dateKey. split; [exact Hkey|].
  destruct (dateKey_of_request _ _ Htrim Hne Hcal Hkey) as (t & Hnorm & ->).
  pose proof (idOfFirst_findOne _ _ _ Hid) as Hfind. fold (findById id (routes st)) in Hfind.
  rewrite Hroute in Hfind.
  assert (Hq : routeQuery (Str.trim (BookingReq.from req)) (Str.trim (BookingReq.to req))
                 route = true) by exact (findOne_query _ _ _ Hfind).
  assert (Hfind' : findOne (routeQuery (Str.trim (BookingReq.from req))
                              (Str.trim (BookingReq.to req))) (routes st') = Some route'
                   /\ includesKey (closedDatesOf route') (dateKeyOf t) = true).
  { destruct Hcases as [(Hin & -> & ->) | (_ & _ & -> & ->)]; [now split|].
    split.
    - cbn [routes set_routes]. apply findOne_saveRoute; [exact Hid|exact Hq].
    - cbn [closedDatesOf Route.closedDates set_closedDates].
      now rewrite includesKey_sort_push, String.eqb_refl, orb_true_r. }
  destruct Hfind' as [Hfind' Hclosed].
  pose proof (createBooking_checks env req st' route' t Hval Hfind' Hnorm) as Hchecks.
  cbv zeta in Hchecks.
  match type of Hchecks with
  | if ?c then _ else _ => destruct c; [now right|]
  end.
  unfold closedDatesOf in Hclosed.
  destruct (Route.closedDates route') as [keys|]; [|discriminate Hclosed].
  rewrite Hclosed in Hchecks. now left.
Qed.

(** X11. Removing the closed date reopens the booking.  Under the same
    conditions on the request, once [removeClosedDate] has answered 200 for
    that route and that same date string, [createBooking] does not answer
    'Route closed on selected date' to the request. *)
Theorem removeClosedDate_reopens_booking `{Host} (env : BookingEnv)
  (req : BookingReq.t) (id : nat) (st st' : Store) (route' : Route.t) :
  bookingValidation req = [] ->
  idOfFirst (routeQuery (Str.trim (BookingReq.from req)) (Str.trim (BookingReq.to req)))
    (routes st) = Some id ->
  Str.trim (BookingReq.date req) = BookingReq.date req ->
  (Str.isBareCalendarDate (BookingReq.date req) = true ->
   DateObj.parseISO (BookingReq.date req) <> None) ->
  removeClosedDate id (BookingReq.date req) st = (st', RouteReopenedForDate route') ->
  forall key, snd (createBooking env req st') <> RouteClosed key.
Proof.
  intros Hval Hid Htrim Hcal Hremove key.
  destruct (removeClosedDate_done id _ st st' route' Hremove)
    as (route & dateKey & Hcv & Hkey & Hroute & Hr & Hcases).
  pose proof (closedDateValidation_notEmpty _ Hcv) as Hne.
  rewrite Htrim in Hkey, Hne.
  destruct (dateKey_of_request _ _ Htrim Hne Hcal Hkey) as (t & Hnorm & ->).
  pose proof (idOfFirst_findOne _ _ _ Hid) as Hfind. fold (findById id (routes st)) in Hfind.
  rewrite Hroute in Hfind.
  assert (Hq : routeQuery (Str.trim (BookingReq.from req)) (Str.trim (BookingReq.to req))
                 route = true) by exact (findOne_query _ _ _ Hfind).
  assert (Hfind' : exists stored,
             findOne (routeQuery (Str.trim (BookingReq.from req))
                        (Str.trim (BookingReq.to req))) (routes st') = Some stored
             /\ includesKey (closedDatesOf stored) (dateKeyOf t) = false).
  { destruct Hcases as [(Hin & ->) | (_ & _ & ->)].
    - exists route. now split.
    - exists route'. split.
      + cbn [routes set_routes]. apply findOne_saveRoute; [exact Hid|].
        rewrite Hr. exact Hq.
      + rewrite Hr. cbn [closedDatesOf Route.closedDates set_closedDates].
        now rewrite includesKey_filter, String.eqb_refl, andb_false_r. }
  destruct Hfind' as (stored & Hfind' & Hopen).
  pose proof (createBooking_checks env req st' stored t Hval Hfind' Hnorm) as Hchecks.
  cbv zeta in Hchecks.
  match type of Hchecks with
  | if ?c then _ else _ => destruct c; [rewrite Hchecks; discriminate|]
  end.
  unfold closedDatesOf in Hopen.
  destruct (Route.closedDates stored) as [keys|].
  - rewrite Hopen in Hchecks. destruct Hchecks as [-> | [b ->]]; discriminate.
  - destruct Hchecks as [-> | [b ->]]; discriminate.
Qed.

(** Closing Monday 2025-06-09 on the sample route, which was closed on the
    11th already. *)
Lemma addClosedDate_adds_key_witness :
  includesKey (closedDatesOf Scenario.closedRoute) "2025-06-09" = true
  /\ includesKey (closedDatesOf Scenario.closedRoute) "2025-06-11" = true
  /\ addClosedDate (H := Sample.host) 0 "2025-06-09" Scenario.closedNetwork
     = (Scenario.closedNetwork, RouteClosedForDate Scenario.closedRoute).
Proof.
  assert (Hadd : addClosedDate (H := Sample.host) 0 "2025-06-09" Scenario.network
                 = (Scenario.closedNetwork, RouteClosedForDate Scenario.closedRoute))
    by (vm_compute; reflexivity).
  destruct (addClosedDate_adds_key (H := Sample.host) _ _ _ _ _ Hadd)
    as (route & dateKey & Hkey & Hroute & _ & _ & Hmem & _ & _ & _ & _ & Hagain).
  assert (Hk : formatDateKey (H := Sample.host) (OfString (Str.trim "2025-06-09"))
               = Normal "2025-06-09"%string) by (vm_compute; reflexivity).
  rewrite Hk in Hkey. injection Hkey as <-.
  assert (Hr : findById 0 (routes Scenario.network) = Some Sample.route)
    by (vm_compute; reflexivity).
  rewrite Hr in Hroute. injection Hroute as <-.
  split; [|split; [|exact Hagain]].
  - rewrite Hmem. apply orb_true_iff. right. vm_compute. reflexivity.
  - rewrite Hmem. apply orb_true_iff. left. vm_compute. reflexivity.
Defined.

(** Reopening Wednesday 2025-06-11 on the sample route. *)
Lemma removeClosedDate_removes_key_witness :
  includesKey (closedDatesOf Scenario.reopenedRoute) "2025-06-11" = false
  /\ removeClosedDate (H := Sample.host) 0 "2025-06-11" Scenario.reopenedNetwork
     = (Scenario.reopenedNetwork, RouteReopenedForDate Scenario.reopenedRoute).
Proof.
  assert (Hremove : removeClosedDate (H := Sample.host) 0 "2025-06-11" Scenario.network
                    = (Scenario.reopenedNetwork,
                       RouteReopenedForDate Scenario.reopenedRoute))
    by (vm_compute; reflexivity).
  destruct (removeClosedDate_removes_key (H := Sample.host) _ _ _ _ _ Hremove)
    as (route & stored' & dateKey & Hkey & _ & _ & _ & _ & Hmem & _ & _ & _ & _ & Hagain).
  assert (Hk : formatDateKey (H := Sample.host) (OfString (Str.trim "2025-06-11"))
               = Normal "2025-06-11"%string) by (vm_compute; reflexivity).
  rewrite Hk in Hkey. injection Hkey as <-.
  split; [|exact Hagain].
  rewrite Hmem. apply andb_false_iff. right. vm_compute. reflexivity.
Defined.

(** The routes of the sample network keep their closed dates in order when
    Monday 2025-06-09 is closed. *)
Lemma closedDates_stay_ascending_witness :
  Sorted (fun a b => String.ltb a b = true) (closedDatesOf Scenario.closedRoute)
  /\ closedDatesValid (closedDatesOf Scenario.closedRoute) = true.
Proof.
  assert (Hadd : addClosedDate (H := Sample.host) 0 "2025-06-09" Scenario.network
                 = (Scenario.closedNetwork, RouteClosedForDate Scenario.closedRoute))
    by (vm_compute; reflexivity).
  assert (Hinv : forall j r, findById j (routes Scenario.network) = Some r ->
                   Sorted (fun a b => String.ltb a b = true) (closedDatesOf r)
                   /\ closedDatesValid (closedDatesOf r) = true).
  { intros [|[|[|j]]] r Hr; [| | |destruct j; discriminate Hr];
      vm_compute in Hr; injection Hr as <-;
      (split; [repeat constructor|vm_compute; reflexivity]). }
  assert (Hr : findById 0 (routes Scenario.closedNetwork) = Some Scenario.closedRoute)
    by (vm_compute; reflexivity).
  exact (closedDates_stay_ascending (H := Sample.host) 0 "2025-06-09" Scenario.network
           Scenario.closedNetwork _ (or_introl Hadd) Hinv 0 Scenario.closedRoute Hr).
Defined.

(** After Monday 2025-06-09 was closed, the booking for that Monday is
    refused. *)
Lemma addClosedDate_blocks_booking_witness :
  snd (createBooking (H := Sample.host) Sample.bookingEnv Scenario.mondayRequest
         Scenario.closedNetwork) = RouteClosed "2025-06-09".
Proof.
  assert (Hval : bookingValidation (H := Sample.host) Scenario.mondayRequest = [])
    by (vm_compute; reflexivity).
  assert (Hid : idOfFirst
                  (routeQuery (Str.trim (BookingReq.from Scenario.mondayRequest))
                     (Str.trim (BookingReq.to Scenario.mondayRequest)))
                  (routes Scenario.network) = Some 0%nat) by (vm_compute; reflexivity).
  assert (Htrim : Str.trim (BookingReq.date Scenario.mondayRequest)
                  = BookingReq.date Scenario.mondayRequest) by (vm_compute; reflexivity).
  assert (Hcal : Str.isBareCalendarDate (BookingReq.date Scenario.mondayRequest) = true ->
                 DateObj.parseISO (H := Sample.host)
                   (BookingReq.date Scenario.mondayRequest) <> None)
    by (intros _; vm_compute; discriminate).
  assert (Hadd : addClosedDate (H := Sample.host) 0
                   (BookingReq.date Scenario.mondayRequest) Scenario.network
                 = (Scenario.closedNetwork, RouteClosedForDate Scenario.closedRoute))
    by (vm_compute; reflexivity).
  destruct (addClosedDate_blocks_booking (H := Sample.host) Sample.bookingEnv
              Scenario.mondayRequest 0 Scenario.network Scenario.closedNetwork
              Scenario.closedRoute Hval Hid Htrim Hcal Hadd)
    as (dateKey & Hkey & [Hclosed | Hday]).
  - assert (Hk : formatDateKey (H := Sample.host)
                   (OfString (BookingReq.date Scenario.mondayRequest))
                 = Normal "2025-06-09"%string) by (vm_compute; reflexivity).
    rewrite Hk in Hkey. injection Hkey as <-. exact Hclosed.
  - assert (Hno : snd (createBooking (H := Sample.host) Sample.bookingEnv
                         Scenario.mondayRequest Scenario.closedNetwork)
                  = RouteClosed "2025-06-09") by (vm_compute; reflexivity).
    exact Hno.
Defined.

(** After Wednesday 2025-06-11 was reopened, the booking for that Wednesday
    is not refused as closed. *)
Lemma removeClosedDate_reopens_booking_witness :
  (exists b, snd (createBooking (H := Sample.host) Sample.bookingEnv
                    Sample.closedDayRequest Scenario.reopenedNetwork) = Created b)
  /\ snd (createBooking (H := Sample.host) Sample.bookingEnv Sample.closedDayRequest
            Scenario.reopenedNetwork) <> RouteClosed "2025-06-11".
Proof.
  split; [eexists; vm_compute; reflexivity|].
  assert (Hval : bookingValidation (H := Sample.host) Sample.closedDayRequest = [])
    by (vm_compute; reflexivity).
  assert (Hid : idOfFirst
                  (routeQuery (Str.trim (BookingReq.from Sample.closedDayRequest))
                     (Str.trim (BookingReq.to Sample.closedDayRequest)))
                  (routes Scenario.network) = Some 0%nat) by (vm_compute; reflexivity).
  assert (Htrim : Str.trim (BookingReq.date Sample.closedDayRequest)
                  = BookingReq.date Sample.closedDayRequest) by (vm_compute; reflexivity).
  assert (Hcal : Str.isBareCalendarDate (BookingReq.date Sample.closedDayRequest) = true ->
                 DateObj.parseISO (H := Sample.host)
                   (BookingReq.date Sample.closedDayRequest) <> None)
    by (intros _; vm_compute; discriminate).
  assert (Hremove : removeClosedDate (H := Sample.host) 0
                      (BookingReq.date Sample.closedDayRequest) Scenario.network
                    = (Scenario.reopenedNetwork,
                       RouteReopenedForDate Scenario.reopenedRoute))
    by (vm_compute; reflexivity).
  exact (removeClosedDate_reopens_booking (H := Sample.host) Sample.bookingEnv
           Sample.closedDayRequest 0 Scenario.network Scenario.reopenedNetwork
           Scenario.reopenedRoute Hval Hid Htrim Hcal Hremove "2025-06-11"%string).
Defined.

(* ================================================================== *)
(** * The catalogue *)
(* ================================================================== *)

Lemma Arr_add_In (set : list string) (x y : string) :
  In y (Arr.add set x) <-> In y set \/ y = x.
Proof.
  unfold Arr.add. destruct (existsb (String.eqb x) set) eqn:E.
  - split; [now left|]. intros [Hy | ->]; [exact Hy|].
    apply existsb_exists in E. destruct E as (z & Hz & Ez).
    apply String.eqb_eq in Ez. now subst.
  - rewrite in_app_iff. simpl. intuition.
Qed.

Lemma Arr_add_NoDup (set : list string) (x : string) :
  NoDup set -> NoDup (Arr.add set x).
Proof.
  intros Hn. unfold Arr.add. destruct (existsb (String.eqb x) set) eqn:E; [exact Hn|].
  apply NoDup_app; [exact Hn|repeat constructor; intros []|].
  intros y Hy [-> | []].
  assert (Hex : existsb (String.eqb y) set = true)
    by (apply existsb_exists; exists y; split; [exact Hy|apply String.eqb_refl]).
  congruence.
Qed.

(** The set that [getCities] fills: what it holds, and that it holds nothing
    twice. *)
Lemma citiesSet_spec (routes : list Route.t) (set : list string) :
  NoDup set ->
  let citiesSet :=
    fold_left (fun set route => Arr.add (Arr.add set (Route.from route)) (Route.to route))
      routes set in
  NoDup citiesSet
  /\ forall c, In c citiesSet
               <-> In c set
                   \/ exists r, In r routes /\ (Route.from r = c \/ Route.to r = c).
Proof.
  revert set. induction routes as [|r routes IH]; intros set Hn; simpl.
  - split; [exact Hn|]. intros c. split; [now left|]. intros [Hc | (r & [] & _)]. exact Hc.
  - destruct (IH (Arr.add (Arr.add set (Route.from r)) (Route.to r))
                (Arr_add_NoDup _ _ (Arr_add_NoDup _ _ Hn))) as [Hnd Hmem].
    split; [exact Hnd|]. intros c. rewrite Hmem, !Arr_add_In. split.
    + intros [[[Hc | ->] | ->] | (r' & Hr' & Hc)]; eauto 6.
    + intros [Hc | (r' & [<- | Hr'] & [Hc | Hc])]; eauto 6.
Qed.

(** X12. [getCities] lists the cities that are served.  The list is strictly
    ascending (so no city is listed twice), and a city is listed exactly when
    it is the [from] or the [to] of a route in service. *)
Theorem getCities_lists_served_cities (st : Store) :
  Sorted (fun a b => String.ltb a b = true) (getCities st)
  /\ forall c, In c (getCities st)
               <-> exists r, In r (routes st) /\ Route.active r = true
                             /\ (Route.from r = c \/ Route.to r = c).
Proof.
  unfold getCities.
  destruct (citiesSet_spec (filter Route.active (routes st)) [] (NoDup_nil _))
    as [Hnd Hmem].
  cbv zeta in Hnd, Hmem. split.
  - apply Sorted_leb_NoDup; [apply sort_Sorted|].
    eapply Permutation_NoDup; [symmetry; apply sort_Permutation|exact Hnd].
  - intros c. rewrite sort_In, Hmem. split.
    + intros [[] | (r & Hr & Hc)]. apply filter_In in Hr. destruct Hr. eauto.
    + intros (r & Hr & Ha & Hc). right. exists r. split; [|exact Hc].
      apply filter_In. now split.
Qed.

(** X13. [getDestinations] lists the destinations that can be booked.  For a
    departure city that is not blank, the answer is the ascending list of the
    [to] of the routes in service from that city, one entry for each such
    route; so a city is listed exactly when the route query of [searchTrip]
    and [createBooking] finds a route from the departure city to it. *)
Theorem getDestinations_lists_routes (from : string) (st : Store) :
  notEmpty from = true ->
  exists destinations,
    getDestinations from st = Destinations destinations
    /\ Sorted (fun a b => String.leb a b = true) destinations
    /\ Permutation destinations
         (map Route.to (filter (departureQuery (Str.trim from)) (routes st)))
    /\ forall to, In to destinations
                  <-> findOne (routeQuery (Str.trim from) to) (routes st) <> None.
Proof.
  intros Hne. unfold getDestinations, collectErrors. simpl. rewrite Hne. simpl.
  eexists. split; [reflexivity|]. split; [apply sort_Sorted|].
  split; [apply sort_Permutation|].
  intros to. rewrite sort_In, in_map_iff. unfold findOne. split.
  - intros (r & Hto & Hr). apply filter_In in Hr. destruct Hr as [Hr Hq].
    unfold departureQuery in Hq. apply andb_true_iff in Hq. destruct Hq as [Hf Ha].
    intros Hnone. apply (find_none _ _ Hnone) in Hr.
    unfold routeQuery in Hr. rewrite Hf, Ha, Hto, String.eqb_refl in Hr. discriminate.
  - destruct (find _ _) as [r|] eqn:Hfind; [intros _|congruence].
    apply find_some in Hfind. destruct Hfind as [Hr Hq].
    unfold routeQuery in Hq. apply andb_true_iff in Hq. destruct Hq as [Hq Ha].
    apply andb_true_iff in Hq. destruct Hq as [Hf Hto]. apply String.eqb_eq in Hto.
    exists r. split; [exact Hto|]. apply filter_In. split; [exact Hr|].
    unfold departureQuery. now rewrite Hf, Ha.
Qed.

(** From Chisinau the sample network goes to Brasov and to Iasi; the way
    back is not in service. *)
Lemma getDestinations_lists_routes_witness :
  getDestinations "Chisinau" Scenario.network = Destinations ["Brasov"; "Iasi"]%string
  /\ (In "Iasi"%string ["Brasov"; "Iasi"]%string
      <-> findOne (routeQuery (Str.trim "Chisinau") "Iasi") (routes Scenario.network)
          <> None).
Proof.
  assert (Hne : notEmpty "Chisinau" = true) by (vm_compute; reflexivity).
  destruct (getDestinations_lists_routes "Chisinau" Scenario.network Hne)
    as (destinations & Hd & _ & _ & Hmem).
  assert (Hv : getDestinations "Chisinau" Scenario.network
               = Destinations ["Brasov"; "Iasi"]%string) by (vm_compute; reflexivity).
  rewrite Hv in Hd. injection Hd as <-.
  split; [exact Hv|apply Hmem].
Defined.

Lemma truthy_geb_gtb (c : JS.Number) :
  JS.truthy c = true -> (c >=? n0)%js = true -> (c >? n0)%js = true.
Proof.
  destruct c as [[|]|[|]| |[|] m e]; try discriminate; try reflexivity.
Qed.

(** X14. [getStudentDiscount] advertises what [createBooking] applies.  When
    [createBooking] answers 201, [getStudentDiscount] for the same [from] and
    [to] in the same store answers 200; if it says [hasStudentDiscount:
    false], the booking stores a student discount of 0 whatever the request
    asked for; if it shows a discount [c] (which the schema keeps [>= 0]) and
    the request asked for a positive amount, the booking stores
    [Math.min(requested, c)]. *)
Theorem getStudentDiscount_agrees_with_createBooking `{Host} (env : BookingEnv)
  (req : BookingReq.t) (st st' : Store) (b : Booking.t) :
  createBooking env req st = (st', Created b) ->
  exists studentDiscount hasStudentDiscount,
    getStudentDiscount (BookingReq.from req) (BookingReq.to req) st
    = StudentDiscount studentDiscount hasStudentDiscount
    /\ (hasStudentDiscount = false -> Booking.studentDiscount b = n0)
    /\ (hasStudentDiscount = false <-> studentDiscount = None)
    /\ (forall c requested,
          studentDiscount = Some c -> (c >=? n0)%js = true ->
          BookingReq.studentDiscount req = Some requested ->
          (requested >? n0)%js = true ->
          Booking.studentDiscount b = JS.Math_min requested c).
Proof.
  intros Hc.
  destruct (createBooking_created env req st st' b Hc)
    as (route & Hval & Hroute & _ & _ & _ & _ & Hsd & _).
  rewrite stored_studentDiscount in Hsd.
  unfold bookingValidation in Hval. pose proof (collectErrors_nil _ Hval) as Hall.
  assert (Hfrom : notEmpty (BookingReq.from req) = true)
    by (apply (Hall ("from"%string, _)); now left).
  assert (Hto : notEmpty (BookingReq.to req) = true)
    by (apply (Hall ("to"%string, _)); right; now left).
  unfold getStudentDiscount, collectErrors. simpl. rewrite Hfrom, Hto. simpl.
  rewrite Hroute. eexists _, _. split; [reflexivity|].
  rewrite Hsd. unfold studentDiscountAmount.
  destruct (Route.studentDiscount route) as [c|].
  - destruct (JS.truthy c) eqn:Htruthy.
    + split; [discriminate|]. split; [split; discriminate|].
      intros c' requested [= <-] Hge -> Hpos. rewrite Hpos.
      now rewrite (truthy_geb_gtb c Htruthy Hge).
    + split; [intros _; destruct (BookingReq.studentDiscount req) as [v|];
                [destruct (v >? n0)%js|]; reflexivity|].
      split; [split; reflexivity|]. discriminate.
  - split; [intros _; destruct (BookingReq.studentDiscount req) as [v|];
              [destruct (v >? n0)%js|]; reflexivity|].
    split; [split; reflexivity|]. discriminate.
Qed.

(** The sample route advertises 10 for students; the student's request for
    50 gets 10. *)
Lemma getStudentDiscount_agrees_with_createBooking_witness :
  getStudentDiscount "Chisinau" "Brasov" Sample.store0
  = StudentDiscount (Some (JS.ofZ 10)) true
  /\ Booking.studentDiscount Sample.studentBooking = JS.Math_min (JS.ofZ 50) (JS.ofZ 10).
Proof.
  assert (Hc : createBooking (H := Sample.host) Sample.bookingEnv Sample.studentRequest
                 Sample.store0
               = (fst (createBooking (H := Sample.host) Sample.bookingEnv
                         Sample.studentRequest Sample.store0),
                  Created Sample.studentBooking))
    by (vm_compute; reflexivity).
  destruct (getStudentDiscount_agrees_with_createBooking (H := Sample.host) _ _ _ _ _ Hc)
    as (sd & has & Hget & _ & _ & Hmin).
  assert (Hv : getStudentDiscount (BookingReq.from Sample.studentRequest)
                 (BookingReq.to Sample.studentRequest) Sample.store0
               = StudentDiscount (Some (JS.ofZ 10)) true) by (vm_compute; reflexivity).
  rewrite Hv in Hget. injection Hget as <- <-.
  split; [vm_compute; reflexivity|].
  apply (Hmin (JS.ofZ 10) (JS.ofZ 50)); vm_compute; reflexivity.
Defined.

(* ================================================================== *)
(** * The webhook *)
(* ================================================================== *)

(** An update that does nothing when repeated is applied once by two
    [findOneAndUpdate] in a row. *)
Lemma updateOne_twice {A : Type} (query : A -> bool) (update : A -> A) (coll : list A) :
  (forall x, query x = true -> query (update x) = true) ->
  (forall x, update (update x) = update x) ->
  updateOne query update (updateOne query update coll) = updateOne query update coll.
Proof.
  intros Hkeep Hidem. induction coll as [|x rest IH]; simpl; [reflexivity|].
  destruct (query x) eqn:Hq; simpl.
  - now rewrite (Hkeep x Hq), Hidem.
  - now rewrite Hq, IH.
Qed.

(** A second payment-success event for the same intent changes nothing,
    whatever the first one did. *)
Lemma handlePaymentSuccess_twice (env1 env2 : PaymentEnv) (pi : PaymentIntent.t)
  (st : Store) :
  fst (handlePaymentSuccess env2 pi (fst (handlePaymentSuccess env1 pi st)))
  = fst (handlePaymentSuccess env1 pi st).
Proof.
  destruct (metadataBookingId pi) as [bookingId|] eqn:Hid.
  2:{ unfold handlePaymentSuccess. rewrite Hid. reflexivity. }
  destruct (findOne (byBookingId bookingId) (bookings st)) as [booking|] eqn:Hfind.
  2:{ unfold handlePaymentSuccess. rewrite Hid, Hfind. cbn [fst]. now rewrite Hfind. }
  destruct (BookingStatus_eqb (Booking.status booking) paid) eqn:Hs.
  - apply BookingStatus_eqb_eq in Hs.
    rewrite (handlePaymentSuccess_paid env1 pi st bookingId booking Hid Hfind Hs). simpl.
    now rewrite (handlePaymentSuccess_paid env2 pi st bookingId booking Hid Hfind Hs).
  - assert (Hnot : Booking.status booking <> paid)
      by (intros E; apply BookingStatus_eqb_eq in E; congruence).
    destruct (handlePaymentSuccess_first env1 pi st bookingId booking Hid Hfind Hnot)
      as (b' & Hpaid & Hbid & HB & _).
    cbv zeta in HB.
    assert (Hfind1 : findOne (byBookingId bookingId)
                       (bookings (fst (handlePaymentSuccess env1 pi st))) = Some b').
    { rewrite HB, findOne_updateOne
        by (intros x _; unfold byBookingId; rewrite Hbid; apply String.eqb_refl).
      now rewrite Hfind. }
    now rewrite (handlePaymentSuccess_paid env2 pi _ bookingId b' Hid Hfind1 Hpaid).
Qed.

(** A second payment-failed event for the same intent changes nothing. *)
Lemma handlePaymentFailed_twice (pi : PaymentIntent.t) (st : Store) :
  fst (handlePaymentFailed pi (fst (handlePaymentFailed pi st)))
  = fst (handlePaymentFailed pi st).
Proof.
  unfold handlePaymentFailed.
  destruct (metadataBookingId pi) as [bookingId|] eqn:Hid; [|reflexivity].
  destruct (findOne (byBookingId bookingId) (bookings st)) as [booking|] eqn:Hfind;
    [|cbn [fst]; now rewrite Hfind].
  cbn [fst bookings set_bookings].
  rewrite findOne_updateOne by (intros x Hx; exact Hx). rewrite Hfind. simpl.
  unfold set_bookings. simpl. f_equal.
  apply updateOne_twice; [intros x Hx; exact Hx|reflexivity].
Qed.

(** X15. Stripe may deliver an event more than once: the second delivery
    changes nothing.  For every request to the webhook, whatever the store,
    the event and the uuids that the two deliveries draw, the store after the
    second delivery is the store after the first; a request that is refused
    (no signature, no secret, a signature that does not verify) changes
    nothing at all; and the answer is 200 exactly for the requests whose
    event verifies, also when handling the event threw. *)
Theorem handleWebhook_redelivery (config : WebhookConfig) (env1 env2 : PaymentEnv)
  (req : WebhookReq) (st : Store) :
  let st1 := fst (handleWebhook config env1 req st) in
  let response := snd (handleWebhook config env1 req st) in
  fst (handleWebhook config env2 req st1) = st1
  /\ match response with
     | MissingSignature | SecretNotConfigured | SignatureVerificationFailed => st1 = st
     | Received | ReceivedWithError =>
         exists sig secret event,
           stripe_signature req = Some sig
           /\ STRIPE_WEBHOOK_SECRET config = Some secret
           /\ constructEvent config (body req) sig secret = Some event
     end
  /\ (forall sig secret event,
        stripe_signature req = Some sig -> Str.truthy sig = true ->
        STRIPE_WEBHOOK_SECRET config = Some secret -> Str.truthy secret = true ->
        constructEvent config (body req) sig secret = Some event ->
        response = Received \/ response = ReceivedWithError).
Proof.
  unfold handleWebhook.
  destruct (stripe_signature req) as [sig|]; [|simpl; repeat split; auto; discriminate].
  destruct (Str.truthy sig) eqn:Hsig;
    [|simpl; repeat split; auto; intros ? ? ? [= <-]; congruence].
  cbn [negb].
  destruct (STRIPE_WEBHOOK_SECRET config) as [secret|];
    [|simpl; repeat split; auto; discriminate].
  destruct (Str.truthy secret) eqn:Hsecret;
    [|simpl; repeat split; auto; intros ? ? ? _ _ [= <-]; congruence].
  rewrite Hsecret. cbn [negb].
  destruct (constructEvent config (body req) sig secret) as [event|] eqn:Hevent;
    [|simpl; repeat split; auto; intros ? ? ? [= <-] _ [= <-]; congruence].
  destruct event as [pi|pi|type].
  - pose proof (handlePaymentSuccess_twice env1 env2 pi st) as Htwice.
    destruct (handlePaymentSuccess env1 pi st) as [st1 outcome1].
    cbn [fst snd] in *.
    assert (Hfst : fst (let '(st0, outcome) := handlePaymentSuccess env2 pi st1 in
                        match outcome with
                        | Normal _ => (st0, Received)
                        | Throw _ => (st0, ReceivedWithError)
                        end) = st1).
    { destruct (handlePaymentSuccess env2 pi st1) as [st2 outcome2].
      cbn [fst] in Htwice. destruct outcome2; exact Htwice. }
    destruct outcome1; cbn [fst snd]; (split; [exact Hfst|split; eauto 6]).
  - pose proof (handlePaymentFailed_twice pi st) as Htwice.
    destruct (handlePaymentFailed pi st) as [st1 outcome1].
    cbn [fst snd] in *.
    assert (Hfst : fst (let '(st0, outcome) := handlePaymentFailed pi st1 in
                        match outcome with
                        | Normal _ => (st0, Received)
                        | Throw _ => (st0, ReceivedWithError)
                        end) = st1).
    { destruct (handlePaymentFailed pi st1) as [st2 outcome2].
      cbn [fst] in Htwice. destruct outcome2; exact Htwice. }
    destruct outcome1; cbn [fst snd]; (split; [exact Hfst|split; eauto 6]).
  - cbn [fst snd]. split; [reflexivity|split; eauto 6].
Qed.

(* ================================================================== *)
(** * The ticket of a payment *)
(* ================================================================== *)

(** The first payment-success event for a booking that is not paid, step by
    step: the booking as it is saved, and the ticket. *)
Lemma handlePaymentSuccess_unpaid (env : PaymentEnv) (pi : PaymentIntent.t)
  (st : Store) (bookingId : string) (booking : Booking.t) :
  metadataBookingId pi = Some bookingId ->
  findOne (byBookingId bookingId) (bookings st) = Some booking ->
  Booking.status booking <> paid ->
  exists booking',
    Booking.status booking' = paid
    /\ Booking.bookingId booking' = bookingId
    /\ Booking.paymentIntentId booking' = Some (PaymentIntent.id pi)
    /\ Booking.from booking' = Booking.from booking
    /\ Booking.to booking' = Booking.to booking
    /\ Booking.date booking' = Booking.date booking
    /\ Booking.passenger booking' = Booking.passenger booking
    /\ findOne (byBookingId bookingId) (bookings (fst (handlePaymentSuccess env pi st)))
       = Some booking'
    /\ match findOne (ticketOfBooking bookingId) (tickets st) with
       | Some ticket =>
           tickets (fst (handlePaymentSuccess env pi st)) = tickets st
           /\ (generateTicketPDF env ticket booking' = true ->
               snd (handlePaymentSuccess env pi st) = Normal tt)
       | None =>
           if canInsertTicket (issueTicket env booking') st
           then tickets (fst (handlePaymentSuccess env pi st))
                = tickets st ++ [issueTicket env booking']
                /\ (generateTicketPDF env (issueTicket env booking') booking' = true ->
                    snd (handlePaymentSuccess env pi st) = Normal tt)
           else tickets (fst (handlePaymentSuccess env pi st)) = tickets st
                /\ exists msg, snd (handlePaymentSuccess env pi st) = Throw msg
       end.
Proof.
  intros Hid Hfind Hnot.
  assert (Hb : Booking.bookingId booking = bookingId)
    by (apply byBookingId_eq, (findOne_query _ _ _ Hfind)).
  unfold handlePaymentSuccess. rewrite Hid, Hfind.
  destruct (BookingStatus_eqb (Booking.status booking) paid) eqn:Hs;
    [apply BookingStatus_eqb_eq in Hs; contradiction|].
  match goal with
  | |- context [saveBooking ?b st] => set (paidBooking := b)
  end.
  assert (Hp : Booking.status paidBooking = paid
               /\ Booking.bookingId paidBooking = bookingId
               /\ Booking.promoCode paidBooking = Booking.promoCode booking
               /\ Booking.paymentIntentId paidBooking = Some (PaymentIntent.id pi)
               /\ Booking.from paidBooking = Booking.from booking
               /\ Booking.to paidBooking = Booking.to booking
               /\ Booking.date paidBooking = Booking.date booking
               /\ Booking.passenger paidBooking = Booking.passenger booking).
  { subst paidBooking.
    destruct (PaymentIntent.currency pi) as [c|]; simpl;
      [destruct (Str.truthy (Str.toUpperCase c)
                 && (String.eqb (Str.toUpperCase c) "RON"
                     || String.eqb (Str.toUpperCase c) "EUR"))|];
      destruct (JS.gtb _ n0); simpl; repeat split; auto. }
  destruct Hp as (Hp1 & Hp2 & Hp3 & Hp4 & Hp5 & Hp6 & Hp7 & Hp8).
  exists paidBooking. rewrite Hp3.
  set (st1 := match Booking.promoCode booking with
              | Some code => if Str.truthy code then _ else _
              | None => _ end).
  assert (Hst1 : bookings st1
                 = updateOne (byBookingId bookingId) (fun _ => paidBooking) (bookings st)
                 /\ tickets st1 = tickets st).
  { subst st1. destruct (Booking.promoCode booking) as [code|];
      [destruct (Str.truthy code)|]; simpl; rewrite Hp2; auto. }
  destruct Hst1 as (B1 & T1).
  assert (Hfound : findOne (byBookingId bookingId) (bookings st1) = Some paidBooking).
  { rewrite B1, findOne_updateOne
      by (intros x _; unfold byBookingId; rewrite Hp2; apply String.eqb_refl).
    now rewrite Hfind. }
  assert (Hcan : canInsertTicket (issueTicket env paidBooking) st1
                 = canInsertTicket (issueTicket env paidBooking) st)
    by (unfold canInsertTicket; now rewrite T1).
  rewrite Hp2, T1, Hcan.
  destruct (findOne (ticketOfBooking bookingId) (tickets st)) as [ticket|] eqn:Hticket.
  - destruct (generateTicketPDF env ticket paidBooking); cbn [fst snd];
      repeat split; auto; discriminate.
  - destruct (canInsertTicket (issueTicket env paidBooking) st).
    + destruct (generateTicketPDF env _ paidBooking); cbn [fst snd tickets set_tickets];
        rewrite ?T1; repeat split; auto; discriminate.
    + cbn [fst snd]. repeat split; eauto.
Qed.

(** X16. A payment whose handling threw is not handled again.  When the
    first payment-success event for an existing booking makes
    [handlePaymentSuccess] throw, the booking is left paid all the same, so
    every later delivery of the event returns at once and changes nothing;
    and if the PDF generator works (so that it was the insertion of the
    ticket that failed) and the booking had no ticket, it has none after the
    event either: it stays paid without a ticket. *)
Theorem handlePaymentSuccess_failure_is_final (env1 env2 : PaymentEnv)
  (pi : PaymentIntent.t) (st st1 : Store) (bookingId message : string)
  (booking : Booking.t) :
  metadataBookingId pi = Some bookingId ->
  findOne (byBookingId bookingId) (bookings st) = Some booking ->
  handlePaymentSuccess env1 pi st = (st1, Throw message) ->
  bookingStatus bookingId st1 = Some paid
  /\ handlePaymentSuccess env2 pi st1 = (st1, Normal tt)
  /\ ((forall ticket b, generateTicketPDF env1 ticket b = true) ->
      ticketCount bookingId st = 0%nat -> ticketCount bookingId st1 = 0%nat).
Proof.
  intros Hid Hfind Hthrow.
  assert (Hnot : Booking.status booking <> paid).
  { intros Hpaid.
    rewrite (handlePaymentSuccess_paid env1 pi st bookingId booking Hid Hfind Hpaid)
      in Hthrow. discriminate. }
  destruct (handlePaymentSuccess_unpaid env1 pi st bookingId booking Hid Hfind Hnot)
    as (b' & Hpaid & Hbid & _ & _ & _ & _ & _ & Hfound & Hticket).
  rewrite Hthrow in Hfound, Hticket. cbn [fst snd] in Hfound, Hticket.
  split; [unfold bookingStatus; rewrite Hfound; simpl; now rewrite Hpaid|].
  split; [exact (handlePaymentSuccess_paid env2 pi st1 bookingId b' Hid Hfound Hpaid)|].
  intros Hpdf Hzero. unfold ticketCount in *.
  destruct (findOne (ticketOfBooking bookingId) (tickets st)) as [ticket|] eqn:Hnone.
  - destruct Hticket as [-> _]. exact Hzero.
  - destruct (canInsertTicket (issueTicket env1 b') st) eqn:Hcan.
    + destruct Hticket as [_ Hnormal]. specialize (Hnormal (Hpdf _ _)). discriminate.
    + destruct Hticket as [-> _]. exact Hzero.
Qed.

Lemma ticketCount_issued (bookingId : string) (ticket : Ticket.t) (coll : list Ticket.t) :
  findOne (ticketOfBooking bookingId) coll = None ->
  Ticket.bookingId ticket = bookingId ->
  findOne (ticketOfBooking bookingId) (coll ++ [ticket]) = Some ticket
  /\ List.length (filter (ticketOfBooking bookingId) (coll ++ [ticket])) = 1%nat.
Proof.
  intros Hnone Hid.
  assert (Hq : ticketOfBooking bookingId ticket = true)
    by (unfold ticketOfBooking; rewrite Hid; apply String.eqb_refl).
  split.
  - unfold findOne in *. induction coll as [|x rest IH]; simpl in *; [now rewrite Hq|].
    destruct (ticketOfBooking bookingId x); [discriminate|]. now apply IH.
  - rewrite filter_app, (findOne_absent_filter _ _ Hnone). simpl. now rewrite Hq.
Qed.

(** X17. A payment confirms the booking and gives it its ticket.  When the
    payment-success event of a booking that is not paid (it may be pending,
    cancelled or refunded) is handled without a throw, the booking is paid
    and carries the id of the payment intent, and it has a ticket.  If it had
    none, it now has exactly one: unused, with the fresh [qrToken], for the
    route, the travel day and the passenger of the booking, at the total and
    in the currency that the booking has after the payment; if it had one,
    no ticket was added. *)
Theorem handlePaymentSuccess_confirms_and_tickets (env : PaymentEnv)
  (pi : PaymentIntent.t) (st st' : Store) (bookingId : string) (booking : Booking.t) :
  metadataBookingId pi = Some bookingId ->
  findOne (byBookingId bookingId) (bookings st) = Some booking ->
  Booking.status booking <> paid ->
  handlePaymentSuccess env pi st = (st', Normal tt) ->
  exists booking' ticket,
    findOne (byBookingId bookingId) (bookings st') = Some booking'
    /\ Booking.status booking' = paid
    /\ Booking.paymentIntentId booking' = Some (PaymentIntent.id pi)
    /\ findOne (ticketOfBooking bookingId) (tickets st') = Some ticket
    /\ (findOne (ticketOfBooking bookingId) (tickets st) = None ->
        ticketCount bookingId st' = 1%nat
        /\ tickets st' = tickets st ++ [ticket]
        /\ Ticket.qrToken ticket = uuid2 env
        /\ Ticket.isUsed ticket = false /\ Ticket.usedAt ticket = None
        /\ Ticket.price ticket = Booking.total booking'
        /\ Ticket.currency ticket = Booking.currency booking'
        /\ Ticket.from ticket = Booking.from booking
        /\ Ticket.to ticket = Booking.to booking
        /\ Ticket.date ticket = Booking.date booking
        /\ Ticket.passengerName ticket
           = (Passenger.name (Booking.passenger booking) ++ " "
              ++ Passenger.surname (Booking.passenger booking))%string)
    /\ (findOne (ticketOfBooking bookingId) (tickets st) <> None ->
        tickets st' = tickets st).
Proof.
  intros Hid Hfind Hnot Hdone.
  destruct (handlePaymentSuccess_unpaid env pi st bookingId booking Hid Hfind Hnot)
    as (b' & Hpaid & Hbid & Hintent & Hfrom & Hto & Hdate & Hpass & Hfound & Hticket).
  rewrite Hdone in Hfound, Hticket. cbn [fst snd] in Hfound, Hticket.
  exists b'.
  destruct (findOne (ticketOfBooking bookingId) (tickets st)) as [old|] eqn:Hold.
  - destruct Hticket as [Ht _]. exists old. rewrite Ht.
    repeat split; auto; discriminate.
  - destruct (canInsertTicket (issueTicket env b') st).
    + destruct Hticket as [Ht _]. exists (issueTicket env b').
      destruct (ticketCount_issued bookingId (issueTicket env b') (tickets st) Hold Hbid)
        as [Hnew Hone].
      unfold ticketCount. rewrite Ht.
      split; [exact Hfound|]. split; [exact Hpaid|]. split; [exact Hintent|].
      split; [exact Hnew|]. split; [|congruence].
      intros _. cbn [issueTicket Ticket.qrToken Ticket.isUsed Ticket.usedAt Ticket.price
                       Ticket.currency Ticket.from Ticket.to Ticket.date
                       Ticket.passengerName].
      rewrite Hfrom, Hto, Hdate, Hpass. repeat split; auto.
    + destruct Hticket as [_ [msg Hmsg]]. discriminate.
Qed.

(** The payment of the sample booking: it is paid and has the sample ticket,
    at 115.5 RON. *)
Lemma handlePaymentSuccess_confirms_and_tickets_witness :
  bookingStatus Sample.bookingId Sample.paidStore = Some paid
  /\ ticketCount Sample.bookingId Sample.paidStore = 1%nat
  /\ tickets Sample.paidStore = [Sample.ticket]
  /\ Ticket.price Sample.ticket = JS.decimal 1155 1.
Proof.
  assert (Hid : metadataBookingId Sample.intent = Some Sample.bookingId)
    by (vm_compute; reflexivity).
  assert (Hfind : findOne (byBookingId Sample.bookingId) (bookings Sample.pendingStore)
                  = Some Sample.pendingBooking) by (vm_compute; reflexivity).
  assert (Hnot : Booking.status Sample.pendingBooking <> paid) by discriminate.
  assert (Hdone : handlePaymentSuccess Sample.paymentEnv Sample.intent Sample.pendingStore
                  = (Sample.paidStore, Normal tt)) by (vm_compute; reflexivity).
  destruct (handlePaymentSuccess_confirms_and_tickets Sample.paymentEnv Sample.intent
              Sample.pendingStore Sample.paidStore Sample.bookingId Sample.pendingBooking
              Hid Hfind Hnot Hdone)
    as (b' & ticket & Hfound & Hpaid & _ & Hticket & Hnew & _).
  assert (Hnone : findOne (ticketOfBooking Sample.bookingId) (tickets Sample.pendingStore)
                  = None) by (vm_compute; reflexivity).
  destruct (Hnew Hnone) as (Hone & _).
  split; [unfold bookingStatus; rewrite Hfound; simpl; now rewrite Hpaid|].
  split; [exact Hone|]. split; vm_compute; reflexivity.
Defined.

(** The second sample booking: the uuid generator repeats itself, the ticket
    cannot be inserted, the booking stays paid without a ticket. *)
Lemma handlePaymentSuccess_failure_is_final_witness :
  bookingStatus Scenario.secondBookingId Scenario.twoBookings = Some pending
  /\ bookingStatus Scenario.secondBookingId Scenario.stuckStore = Some paid
  /\ handlePaymentSuccess Sample.paymentEnv' Scenario.secondIntent Scenario.stuckStore
     = (Scenario.stuckStore, Normal tt)
  /\ ticketCount Scenario.secondBookingId Scenario.stuckStore = 0%nat.
Proof.
  assert (Hid : metadataBookingId Scenario.secondIntent = Some Scenario.secondBookingId)
    by (vm_compute; reflexivity).
  assert (Hfind : exists booking,
             findOne (byBookingId Scenario.secondBookingId) (bookings Scenario.twoBookings)
             = Some booking) by (eexists; vm_compute; reflexivity).
  destruct Hfind as [booking Hfind].
  assert (Hthrow : handlePaymentSuccess Sample.paymentEnv Scenario.secondIntent
                     Scenario.twoBookings
                   = (Scenario.stuckStore, Throw "E11000 duplicate key error"))
    by (vm_compute; reflexivity).
  destruct (handlePaymentSuccess_failure_is_final Sample.paymentEnv Sample.paymentEnv'
              Scenario.secondIntent Scenario.twoBookings Scenario.stuckStore
              Scenario.secondBookingId _ booking Hid Hfind Hthrow)
    as (Hpaid & Hagain & Hnone).
  split; [vm_compute; reflexivity|]. split; [exact Hpaid|]. split; [exact Hagain|].
  apply Hnone; [reflexivity|vm_compute; reflexivity].
Defined.

(* ================================================================== *)
(** * The payment sheet *)
(* ================================================================== *)




Lemma findOne_saveBooking (b b0 : Booking.t) (st : Store) :
  findOne (byBookingId (Booking.bookingId b)) (bookings st) = Some b0 ->
  findOne (byBookingId (Booking.bookingId b)) (bookings (saveBooking b st)) = Some b.
Proof.
  intros Hfind. unfold saveBooking. cbn [bookings set_bookings].
  rewrite findOne_updateOne by (intros x _; unfold byBookingId; apply String.eqb_refl).
  now rewrite Hfind.
Qed.

(** What is known when [createPaymentSheet] answers 200. *)
Lemma createPaymentSheet_sheet (stripe : Stripe) (req : SheetReq.t) (st st' : Store)
  (clientSecret ephemeralKey customer : string) :
  createPaymentSheet stripe req st
  = (st', PaymentSheet clientSecret ephemeralKey customer) ->
  exists booking booking',
    findOne (byBookingId (Str.trim (SheetReq.bookingId req))) (bookings st) = Some booking
    /\ findOne (byBookingId (Str.trim (SheetReq.bookingId req))) (bookings st')
       = Some booking'
    /\ Booking.status booking = pending
    /\ Booking.status booking' = pending
    /\ Booking.stripeCustomerId booking' = Some customer
    /\ (forall known, Booking.stripeCustomerId booking = Some known ->
                      Str.truthy known = true -> customer = known)
    /\ exists paymentIntentId,
         Booking.paymentIntentId booking' = Some paymentIntentId
         /\ paymentIntents_create stripe
              (JS.Math_round
                 (match SheetReq.totalAmount req with
                  | Some totalAmount => totalAmount
                  | None => Booking.total booking
                  end * n100)%js)
              (if Str.truthy (Str.toLowerCase (Booking.currency booking))
               then Str.toLowerCase (Booking.currency booking) else "ron"%string)
              customer (Str.trim (SheetReq.bookingId req))
            = Some (paymentIntentId, clientSecret).
Proof.
  unfold createPaymentSheet.
  destruct (sheetValidation req); [|discriminate].
  set (id := Str.trim (SheetReq.bookingId req)).
  destruct (findOne (byBookingId id) (bookings st)) as [booking|] eqn:Hfind;
    [|discriminate].
  pose proof (byBookingId_eq _ _ (findOne_query _ _ _ Hfind)) as Hid.
  assert (Hstep1 : exists b1 st1,
             (match SheetReq.totalAmount req with
              | Some totalAmount =>
                  if (JS.Math_abs (totalAmount - Booking.total booking) >? n0_01)%js
                  then (Booking.set_total totalAmount booking,
                        saveBooking (Booking.set_total totalAmount booking) st)
                  else (booking, st)
              | None => (booking, st)
              end) = (b1, st1)
             /\ Booking.bookingId b1 = id /\ Booking.status b1 = Booking.status booking
             /\ Booking.stripeCustomerId b1 = Booking.stripeCustomerId booking
             /\ Booking.currency b1 = Booking.currency booking
             /\ findOne (byBookingId id) (bookings st1) = Some b1).
  { destruct (SheetReq.totalAmount req) as [totalAmount|];
      [destruct (JS.gtb _ n0_01)|]; eexists _, _; (split; [reflexivity|]);
      try (repeat split; auto; fail).
    repeat split; auto. rewrite <- Hid.
    apply (findOne_saveBooking (Booking.set_total totalAmount booking) booking).
    cbn. now rewrite Hid. }
  destruct Hstep1 as (b1 & st1 & -> & Hid1 & Hs1 & Hc1 & Hcur1 & Hf1).
  destruct (BookingStatus_eqb (Booking.status b1) pending) eqn:Hpending; [|discriminate].
  apply BookingStatus_eqb_eq in Hpending. cbn [negb].
  match goal with
  | |- context [if ?c then _ else _] => destruct c; [discriminate|]
  end.
  rewrite Hc1, Hid1, Hcur1.
  destruct (Booking.stripeCustomerId booking) as [known|] eqn:Hknown.
  - destruct (Str.truthy known) eqn:Htruthy.
    + destruct (paymentIntents_create _ _ _ _ _) as [[paymentIntentId secret]|] eqn:Hpi;
        [|discriminate].
      destruct (ephemeralKeys_create _ _); [|discriminate].
      intros [= <- <- <- <-].
      exists booking, (Booking.set_paymentIntentId (Some paymentIntentId) b1).
      split; [reflexivity|]. split.
      { rewrite <- Hid1 at 1.
        apply (findOne_saveBooking (Booking.set_paymentIntentId (Some paymentIntentId) b1)
                 b1). cbn. now rewrite Hid1. }
      cbn [Booking.status Booking.stripeCustomerId Booking.paymentIntentId
             Booking.set_paymentIntentId].
      repeat split; try congruence. rewrite ?Hid1 in Hpi. eauto.
    + destruct (customers_create _ _ _ _ _) as [c|]; [|discriminate].
      cbn [Booking.bookingId Booking.set_stripeCustomerId]. rewrite Hid1.
      destruct (paymentIntents_create _ _ _ _ _) as [[paymentIntentId secret]|] eqn:Hpi;
        [|discriminate].
      destruct (ephemeralKeys_create _ _); [|discriminate].
      intros [= <- <- <- <-].
      exists booking,
        (Booking.set_paymentIntentId (Some paymentIntentId)
           (Booking.set_stripeCustomerId (Some c) b1)).
      split; [reflexivity|]. split.
      { rewrite <- Hid1 at 1.
        apply (findOne_saveBooking
                 (Booking.set_paymentIntentId (Some paymentIntentId)
                    (Booking.set_stripeCustomerId (Some c) b1))
                 (Booking.set_stripeCustomerId (Some c) b1)).
        cbn [Booking.bookingId Booking.set_paymentIntentId Booking.set_stripeCustomerId].
        apply (findOne_saveBooking (Booking.set_stripeCustomerId (Some c) b1) b1).
        cbn. now rewrite Hid1. }
      cbn [Booking.status Booking.stripeCustomerId Booking.paymentIntentId
             Booking.set_paymentIntentId Booking.set_stripeCustomerId].
      repeat split; try congruence. rewrite ?Hid1 in Hpi. eauto.
  - destruct (customers_create _ _ _ _ _) as [c|]; [|discriminate].
    cbn [Booking.bookingId Booking.set_stripeCustomerId]. rewrite Hid1.
    destruct (paymentIntents_create _ _ _ _ _) as [[paymentIntentId secret]|] eqn:Hpi;
      [|discriminate].
    destruct (ephemeralKeys_create _ _); [|discriminate].
    intros [= <- <- <- <-].
    exists booking,
      (Booking.set_paymentIntentId (Some paymentIntentId)
         (Booking.set_stripeCustomerId (Some c) b1)).
    split; [reflexivity|]. split.
    { rewrite <- Hid1 at 1.
      apply (findOne_saveBooking
               (Booking.set_paymentIntentId (Some paymentIntentId)
                  (Booking.set_stripeCustomerId (Some c) b1))
               (Booking.set_stripeCustomerId (Some c) b1)).
      cbn [Booking.bookingId Booking.set_paymentIntentId Booking.set_stripeCustomerId].
      apply (findOne_saveBooking (Booking.set_stripeCustomerId (Some c) b1) b1).
      cbn. now rewrite Hid1. }
    cbn [Booking.status Booking.stripeCustomerId Booking.paymentIntentId
           Booking.set_paymentIntentId Booking.set_stripeCustomerId].
    repeat split; try congruence. rewrite ?Hid1 in Hpi. eauto.
Qed.

(** X19. One Stripe customer for a booking.  When [createPaymentSheet] has
    answered 200 for a booking with customer [c1] (not the empty string), a
    later request for the same booking that is answered 200 returns the same
    customer, whatever the Stripe client would create, and the booking still
    carries it and is still pending. *)
Theorem createPaymentSheet_reuses_customer (stripe1 stripe2 : Stripe)
  (req1 req2 : SheetReq.t) (st st1 st2 : Store) (s1 k1 c1 s2 k2 c2 : string) :
  createPaymentSheet stripe1 req1 st = (st1, PaymentSheet s1 k1 c1) ->
  Str.truthy c1 = true ->
  Str.trim (SheetReq.bookingId req2) = Str.trim (SheetReq.bookingId req1) ->
  createPaymentSheet stripe2 req2 st1 = (st2, PaymentSheet s2 k2 c2) ->
  c2 = c1
  /\ exists booking,
       findOne (byBookingId (Str.trim (SheetReq.bookingId req1))) (bookings st2)
       = Some booking
       /\ Booking.stripeCustomerId booking = Some c1
       /\ Booking.status booking = pending.
Proof.
  intros Hfirst Htruthy Hsame Hsecond.
  destruct (createPaymentSheet_sheet _ _ _ _ _ _ _ Hfirst)
    as (b0 & b1 & _ & Hf1 & _ & _ & Hc1 & _).
  destruct (createPaymentSheet_sheet _ _ _ _ _ _ _ Hsecond)
    as (b1' & b2 & Hf1' & Hf2 & _ & Hs2 & Hc2 & Hknown & _).
  rewrite Hsame in Hf1', Hf2. rewrite Hf1 in Hf1'. injection Hf1' as <-.
  pose proof (Hknown c1 Hc1 Htruthy) as ->.
  split; [reflexivity|]. exists b2. auto.
Qed.

(** Two payment sheets for the sample booking: the second Stripe client would
    create 'cus_Another', the customer stays 'cus_Example'. *)
Lemma createPaymentSheet_reuses_customer_witness :
  snd (createPaymentSheet Sample.stripe Scenario.sheetRequest Sample.pendingStore)
  = PaymentSheet "pi_3Example_secret" "ek_Example" "cus_Example"
  /\ snd (createPaymentSheet Scenario.stripe' Scenario.sheetRequest Scenario.sheetStore)
     = PaymentSheet "pi_3Second_secret" "ek_Second" "cus_Example".
Proof.
  assert (Hfirst : createPaymentSheet Sample.stripe Scenario.sheetRequest
                     Sample.pendingStore
                   = (Scenario.sheetStore,
                      PaymentSheet "pi_3Example_secret" "ek_Example" "cus_Example"))
    by (vm_compute; reflexivity).
  assert (Hsecond : exists st2 c2,
             createPaymentSheet Scenario.stripe' Scenario.sheetRequest Scenario.sheetStore
             = (st2, PaymentSheet "pi_3Second_secret" "ek_Second" c2))
    by (eexists _, _; vm_compute; reflexivity).
  destruct Hsecond as (st2 & c2 & Hsecond).
  destruct (createPaymentSheet_reuses_customer _ _ _ _ _ _ _ _ _ _ _ _ _
              Hfirst eq_refl eq_refl Hsecond) as [-> _].
  split; [now rewrite Hfirst|now rewrite Hsecond].
Defined.

(** X20. The payment sheet charges what the request says.  When
    [createPaymentSheet] answers 200, the booking was pending and still is,
    and it now carries the id of the payment intent whose client secret is
    returned; that intent was created for
    [Math.round(amountToCharge * 100)], where [amountToCharge] is the
    [totalAmount] of the request whenever the request has one, and the stored
    total only when it has none. *)
Theorem createPaymentSheet_charges_requested_amount (stripe : Stripe) (req : SheetReq.t)
  (st st' : Store) (clientSecret ephemeralKey customer : string) :
  createPaymentSheet stripe req st
  = (st', PaymentSheet clientSecret ephemeralKey customer) ->
  exists booking booking' paymentIntentId currency,
    findOne (byBookingId (Str.trim (SheetReq.bookingId req))) (bookings st) = Some booking
    /\ findOne (byBookingId (Str.trim (SheetReq.bookingId req))) (bookings st')
       = Some booking'
    /\ Booking.status booking = pending /\ Booking.status booking' = pending
    /\ Booking.paymentIntentId booking' = Some paymentIntentId
    /\ (currency = "ron"%string \/ currency = "eur"%string)
    /\ (forall totalAmount,
          SheetReq.totalAmount req = Some totalAmount ->
          paymentIntents_create stripe (JS.Math_round (totalAmount * n100)%js) currency
            customer (Str.trim (SheetReq.bookingId req))
          = Some (paymentIntentId, clientSecret))
    /\ (SheetReq.totalAmount req = None ->
        paymentIntents_create stripe (JS.Math_round (Booking.total booking * n100)%js)
          currency customer (Str.trim (SheetReq.bookingId req))
        = Some (paymentIntentId, clientSecret)).
Proof.
  intros Hsheet.
  destruct (createPaymentSheet_sheet _ _ _ _ _ _ _ Hsheet)
    as (b & b' & Hf & Hf' & Hs & Hs' & _ & _ & pid & Hpid & Hcreate).
  exists b, b', pid,
    (if Str.truthy (Str.toLowerCase (Booking.currency b))
     then Str.toLowerCase (Booking.currency b) else "ron"%string).
  repeat split; auto.
  - revert Hsheet. unfold createPaymentSheet.
    destruct (sheetValidation req); [|discriminate]. rewrite Hf.
    assert (Hcurrency :
              forall currency : string,
                negb (String.eqb currency "ron") && negb (String.eqb currency "eur") = false ->
                currency = "ron"%string \/ currency = "eur"%string).
    { intros currency. destruct (String.eqb_spec currency "ron") as [-> | _]; [now left|].
      destruct (String.eqb_spec currency "eur") as [-> | _]; [now right|]. discriminate. }
    destruct (SheetReq.totalAmount req) as [a|]; [destruct (JS.gtb _ n0_01)|];
      cbn [Booking.status Booking.currency Booking.set_total];
      (destruct (negb _); [discriminate|]);
      match goal with
      | |- context [if ?c then (_, InvalidCurrency) else _] =>
          destruct c eqn:Hc; [discriminate|]
      end; intros _; apply Hcurrency; exact Hc.
  - intros totalAmount Ha. now rewrite Ha in Hcreate.
  - intros Ha. now rewrite Ha in Hcreate.
Qed.

(** The client asks to be charged 1 for the sample booking of 115.5: the
    intent is created for 100 bani. *)
Lemma createPaymentSheet_charges_requested_amount_witness :
  snd (createPaymentSheet Sample.stripe Scenario.cheapRequest Sample.pendingStore)
  = PaymentSheet "pi_3Example_secret" "ek_Example" "cus_Example"
  /\ JS.Math_round (JS.ofZ 1 * n100)%js = JS.ofZ 100
  /\ bookingTotal Sample.bookingId Sample.pendingStore = Some (JS.decimal 1155 1).
Proof.
  assert (Hsheet : exists st',
             createPaymentSheet Sample.stripe Scenario.cheapRequest Sample.pendingStore
             = (st', PaymentSheet "pi_3Example_secret" "ek_Example" "cus_Example"))
    by (eexists; vm_compute; reflexivity).
  destruct Hsheet as [st' Hsheet].
  destruct (createPaymentSheet_charges_requested_amount _ _ _ _ _ _ _ Hsheet)
    as (b & b' & pid & currency & _ & _ & _ & _ & _ & _ & Hamount & _).
  pose proof (Hamount (JS.ofZ 1) eq_refl) as Hcharged.
  split; [now rewrite Hsheet|]. split; vm_compute; reflexivity.
Defined.

(* ================================================================== *)
(** * What a booking request changes, and reading the booking back *)
(* ================================================================== *)

Lemma existsb_findOne {A : Type} (query : A -> bool) (coll : list A) :
  existsb query coll = false -> findOne query coll = None.
Proof.
  unfold findOne. induction coll as [|x rest IH]; simpl; [reflexivity|].
  destruct (query x); [discriminate|]. exact IH.
Qed.

(** A document inserted under a key that no document has is the one that
    [findOne] returns for the key. *)
Lemma findOne_inserted {A : Type} (query : A -> bool) (coll : list A) (x : A) :
  findOne query coll = None -> query x = true -> findOne query (coll ++ [x]) = Some x.
Proof.
  unfold findOne. intros Hnone Hx. induction coll as [|y rest IH]; simpl in *.
  - now rewrite Hx.
  - destruct (query y); [discriminate|]. now apply IH.
Qed.

(** Every answer of [createBooking] but 201 leaves the store as it was; 201
    appends the booking, under an id that no booking had. *)
Lemma createBooking_store `{Host} (env : BookingEnv) (req : BookingReq.t) (st : Store) :
  match snd (createBooking env req st) with
  | Created b =>
      fst (createBooking env req st) = set_bookings (bookings st ++ [b]) st
      /\ findOne (byBookingId (Booking.bookingId b)) (bookings st) = None
  | _ => fst (createBooking env req st) = st
  end.
Proof.
  unfold createBooking.
  destruct (bookingValidation req); [|reflexivity].
  destruct (findOne _ (routes st)) as [route|]; [|reflexivity].
  destruct (normalizeTravelDate _) as [travelDate|msg]; [|reflexivity].
  match goal with
  | |- context [if ?c then _ else _] => destruct c
  end.
  { destruct (DateObj.toISOString travelDate); reflexivity. }
  destruct (formatDateKey (OfDate travelDate)) as [key|msg]; [|reflexivity].
  destruct travelDate as [travelTime|]; [|reflexivity].
  match goal with
  | |- context [if ?c then _ else _] => destruct c; [reflexivity|]
  end.
  destruct (applyPromo _ _ _ st) as [discount validPromoCode].
  match goal with
  | |- context [Booking.valid ?bk] => set (booking := bk)
  end.
  destruct (Booking.valid booking); [|reflexivity].
  destruct (existsb _ _) eqn:Hfresh; [reflexivity|].
  cbn [andb negb fst snd]. split; [reflexivity|]. now apply existsb_findOne.
Qed.

(** The booking of a 201 is new: pending, without payment data, under the id
    made of the fresh uuid. *)
Lemma createBooking_new_booking `{Host} (env : BookingEnv) (req : BookingReq.t)
  (st st' : Store) (b : Booking.t) :
  createBooking env req st = (st', Created b) ->
  Booking.status b = pending /\ Booking.paymentIntentId b = None
  /\ Booking.stripeCustomerId b = None
  /\ Booking.bookingId b = newBookingId (uuid env).
Proof.
  unfold createBooking.
  destruct (bookingValidation req); [|discriminate].
  destruct (findOne _ (routes st)); [|discriminate].
  destruct (normalizeTravelDate _) as [travelDate|]; [|discriminate].
  match goal with
  | |- context [if ?c then _ else _] => destruct c
  end.
  { destruct (DateObj.toISOString travelDate); discriminate. }
  destruct (formatDateKey (OfDate travelDate)); [|discriminate].
  destruct travelDate; [|discriminate].
  match goal with
  | |- context [if ?c then _ else _] => destruct c; [discriminate|]
  end.
  destruct (applyPromo _ _ _ st).
  match goal with
  | |- context [if ?c then _ else _] => destruct c; [|discriminate]
  end.
  intros [= _ <-]. repeat split.
Qed.

(** X21. A booking request adds one pending booking, or nothing.  Whatever
    [createBooking] answers, the routes, the tickets and the promo codes
    (with their usage counters) are as they were.  When it answers 201 the
    bookings are the former ones followed by the new booking, which is
    pending, has no payment intent and no Stripe customer, under an id that
    no former booking has; with every other answer the store is unchanged. *)
Theorem createBooking_adds_one_pending_booking `{Host} (env : BookingEnv)
  (req : BookingReq.t) (st : Store) :
  let st' := fst (createBooking env req st) in
  routes st' = routes st /\ tickets st' = tickets st /\ promoCodes st' = promoCodes st
  /\ match snd (createBooking env req st) with
     | Created b =>
         bookings st' = bookings st ++ [b]
         /\ Booking.status b = pending
         /\ Booking.paymentIntentId b = None
         /\ Booking.stripeCustomerId b = None
         /\ bookingStatus (Booking.bookingId b) st = None
         /\ bookingStatus (Booking.bookingId b) st' = Some pending
     | _ => st' = st
     end.
Proof.
  cbv zeta. pose proof (createBooking_store env req st) as Hstore.
  destruct (createBooking env req st) as [st' response] eqn:Hc. cbn [fst snd] in *.
  destruct response as [errors| |days|key|b|]; try (subst st'; auto; fail).
  destruct Hstore as [-> Hfresh]. cbn [routes tickets promoCodes bookings set_bookings].
  pose proof (createBooking_new_booking env req st _ b Hc) as Hnew.
  destruct Hnew as (Hpending & Hintent & Hcustomer & _).
  assert (Hfound : findOne (byBookingId (Booking.bookingId b)) (bookings st ++ [b])
                   = Some b).
  { apply findOne_inserted; [exact Hfresh|].
    unfold byBookingId. apply String.eqb_refl. }
  unfold bookingStatus. cbn [bookings set_bookings]. rewrite Hfresh, Hfound. simpl.
  rewrite Hpending. repeat split; auto.
Qed.

(** X22. A created booking can be read back.  When [createBooking] answers
    201 with booking [b] whose id has no blank at its ends (a uuid has none),
    [getBooking] for that id answers 200 with the booking as it was stored,
    its travel day as an ISO string and its student discount, while before
    the request it answered 'Booking not found'. *)
Theorem getBooking_after_createBooking `{Host} (env : BookingEnv) (req : BookingReq.t)
  (st st' : Store) (b : Booking.t) :
  createBooking env req st = (st', Created b) ->
  Str.trim (Booking.bookingId b) = Booking.bookingId b ->
  exists travelDateIso,
    DateObj.toISOString (Some (Booking.date b)) = Normal travelDateIso
    /\ getBooking (Booking.bookingId b) st'
       = BookingFound b travelDateIso (Booking.studentDiscount b)
    /\ getBooking (Booking.bookingId b) st = BookingNotFound.
Proof.
  intros Hc Htrim.
  pose proof (createBooking_store env req st) as Hstore. rewrite Hc in Hstore.
  cbn [fst snd] in Hstore. destruct Hstore as [-> Hfresh].
  destruct (createBooking_new_booking env req st _ b Hc) as (_ & _ & _ & Hid).
  destruct (createBooking_created env req st _ b Hc)
    as (route & _ & _ & _ & _ & _ & _ & Hsd & _).
  rewrite stored_studentDiscount in Hsd.
  assert (Hne : notEmpty (Booking.bookingId b) = true)
    by (unfold notEmpty; rewrite Htrim, Hid; reflexivity).
  assert (Hor : (if JS.truthy (Booking.studentDiscount b)
                 then Booking.studentDiscount b else n0) = Booking.studentDiscount b).
  { rewrite Hsd.
    destruct (studentDiscountAmount_cases (BookingReq.studentDiscount req) route)
      as [-> | Hpos]; [reflexivity|]. now rewrite (gtb_0_truthy _ Hpos). }
  destruct (toISOString_valid (Booking.date b)) as [iso Hiso].
  exists iso. split; [exact Hiso|].
  unfold getBooking, collectErrors. cbn [filter map snd fst]. rewrite Hne.
  cbn [negb filter map bookings set_bookings]. rewrite Htrim.
  split.
  - rewrite (findOne_inserted _ _ b Hfresh)
      by (unfold byBookingId; apply String.eqb_refl).
    now rewrite Hiso, Hor.
  - now rewrite Hfresh.
Qed.

(** The sample booking read back. *)
Lemma getBooking_after_createBooking_witness :
  getBooking Sample.bookingId Sample.pendingStore
  = BookingFound Sample.pendingBooking "2025-06-10T00:00:00.000Z" n0
  /\ getBooking Sample.bookingId Sample.store0 = BookingNotFound.
Proof.
  assert (Hc : createBooking (H := Sample.host) Sample.bookingEnv Sample.request
                 Sample.store0 = (Sample.pendingStore, Created Sample.pendingBooking))
    by (vm_compute; reflexivity).
  assert (Htrim : Str.trim (Booking.bookingId Sample.pendingBooking)
                  = Booking.bookingId Sample.pendingBooking) by (vm_compute; reflexivity).
  destruct (getBooking_after_createBooking (H := Sample.host) _ _ _ _ _ Hc Htrim)
    as (iso & Hiso & Hget & Hbefore).
  assert (Hv : DateObj.toISOString (Some (Booking.date Sample.pendingBooking))
               = Normal "2025-06-10T00:00:00.000Z"%string) by (vm_compute; reflexivity).
  rewrite Hv in Hiso. injection Hiso as <-.
  split; [exact Hget|exact Hbefore].
Defined.

(* ================================================================== *)
(** * What a scan changes *)
(* ================================================================== *)

Section UpdateOne.
Context {A : Type}.
Variables (query : A -> bool) (update : A -> A).

(** [findOneAndUpdate] touches the document that [findOne] returns, and no
    other. *)
Lemma In_updateOne_other (coll : list A) (x0 k : A) :
  findOne query coll = Some x0 -> In k coll -> k <> x0 ->
  In k (updateOne query update coll).
Proof.
  unfold findOne. induction coll as [|x rest IH]; simpl; [contradiction|].
  destruct (query x).
  - intros [= <-] [<- | Hk] Hne; [contradiction|]. now right.
  - intros Hfind [<- | Hk] Hne; [now left|]. right. now apply IH.
Qed.

Lemma In_updateOne_inv (coll : list A) (x0 k : A) :
  findOne query coll = Some x0 -> In k (updateOne query update coll) ->
  In k coll \/ k = update x0.
Proof.
  unfold findOne. induction coll as [|x rest IH]; simpl; [contradiction|].
  destruct (query x).
  - intros [= <-] [<- | Hk]; [now right|]. left. now right.
  - intros Hfind [<- | Hk]; [left; now left|].
    destruct (IH Hfind Hk) as [Hin | ->]; [left; now right|now right].
Qed.

Lemma map_updateOne {B : Type} (f : A -> B) (coll : list A) (x0 : A) :
  findOne query coll = Some x0 -> f (update x0) = f x0 ->
  map f (updateOne query update coll) = map f coll.
Proof.
  unfold findOne. induction coll as [|x rest IH]; simpl; [reflexivity|].
  destruct (query x).
  - intros [= <-] Hf. simpl. now rewrite Hf.
  - intros Hfind Hf. simpl. f_equal. now apply IH.
Qed.

End UpdateOne.

(** X23. A scan marks one unused ticket, and nothing else.  Whatever
    [useTicket] answers, the routes, the bookings and the promo codes are as
    they were and no ticket was added or removed; a ticket that was used
    before the call is in the store unchanged after it, with its [usedAt];
    and a ticket of the store after the call is a ticket of the store before
    it, or is an unused ticket of the store before it marked as used at the
    time of the call. *)
Theorem useTicket_marks_one_unused_ticket (now : Z) (qrToken : string) (st : Store) :
  let st' := fst (useTicket now qrToken st) in
  routes st' = routes st /\ bookings st' = bookings st /\ promoCodes st' = promoCodes st
  /\ map (fun k => (Ticket.ticketId k, Ticket.qrToken k, Ticket.bookingId k))
       (tickets st')
     = map (fun k => (Ticket.ticketId k, Ticket.qrToken k, Ticket.bookingId k))
         (tickets st)
  /\ (forall k, In k (tickets st) -> Ticket.isUsed k = true -> In k (tickets st'))
  /\ (forall k', In k' (tickets st') ->
        In k' (tickets st)
        \/ exists k, In k (tickets st) /\ Ticket.isUsed k = false
                     /\ k' = Ticket.markUsed now k).
Proof.
  cbv zeta. unfold useTicket.
  destruct (qrTokenValidation qrToken); [|cbn [fst]; repeat split; auto].
  destruct (findOne (byQrToken (Str.trim qrToken)) (tickets st)) as [ticket|] eqn:Hfind;
    [|cbn [fst]; repeat split; auto].
  destruct (Ticket.isUsed ticket) eqn:Hused; [cbn [fst]; repeat split; auto|].
  cbn [fst routes bookings promoCodes tickets set_tickets].
  split; [reflexivity|]. split; [reflexivity|]. split; [reflexivity|].
  split; [now apply (map_updateOne _ _ _ _ ticket)|].
  split.
  - intros k Hk Hk_used. apply (In_updateOne_other _ _ _ ticket); auto.
    intros ->. congruence.
  - intros k' Hk'.
    destruct (In_updateOne_inv _ _ _ ticket k' Hfind Hk') as [Hin | ->]; [now left|].
    right. exists ticket. repeat split; auto.
    unfold findOne in Hfind. now apply find_some in Hfind.
Qed.

(* ================================================================== *)
(** * The day on which a ticket expires *)
(* ================================================================== *)

(** [setHours(0, 0, 0, 0)] on a host whose local time is UTC + [z]: the local
    midnight of the local day. *)
Lemma setHours_midnight `{Host} (now z : Z) :
  (forall t isUTC, LocalTZA t isUTC = z) ->
  - msPerDay < z < msPerDay ->
  - 8640000000000000 + msPerDay <= now <= 8640000000000000 ->
  DateObj.setHours (Some now) 0 0 0 0 = Some (Day (now + z) * msPerDay - z).
Proof.
  intros Hz Hrange Hnow. unfold DateObj.setHours, UTC, LocalTime, MakeDate, MakeTime.
  rewrite !Hz.
  replace (Day (now + z) * msPerDay + (0 * msPerHour + 0 * msPerMinute + 0 * msPerSecond + 0)
           - z) with (Day (now + z) * msPerDay - z) by lia.
  apply TimeClip_Some.
  destruct (Day_TimeWithinDay (now + z)) as [Hd Hw]. unfold msPerDay in *. lia.
Qed.

(** X24. When a ticket expires.  On a host whose local time is UTC + [z], for
    a fixed [z] of less than a day either way, [validateQRCode] of an unused
    ticket of a paid booking whose date is a UTC midnight (as the travel days
    are) answers as follows.  With [z >= 0] the ticket is valid as long as
    the local day of the clock is not after the travel day, and expired from
    the next local day on.  With [z < 0] it is reported expired as soon as
    the local day of the clock is the travel day itself. *)
Theorem validateQRCode_expiry `{Host} (now z : Z) (qrToken : string) (st : Store)
  (ticket : Ticket.t) :
  (forall t isUTC, LocalTZA t isUTC = z) ->
  - msPerDay < z < msPerDay ->
  - 8640000000000000 + msPerDay <= now <= 8640000000000000 ->
  notEmpty qrToken = true ->
  findOne (byQrToken (Str.trim qrToken)) (tickets st) = Some ticket ->
  bookingStatus (Ticket.bookingId ticket) st = Some paid ->
  Ticket.isUsed ticket = false ->
  TimeWithinDay (Ticket.date ticket) = 0 ->
  validateQRCode now qrToken st
  = if (if 0 <=? z
        then Day (Ticket.date ticket) <? Day (now + z)
        else Day (Ticket.date ticket) <=? Day (now + z))
    then ExpiredReport (ticketInfo ticket)
    else ValidReport ticket.
Proof.
  intros Hz Hrange Hnow Hok Hfind Hpaid Hunused Hmid.
  unfold validateQRCode. rewrite (qrTokenValidation_passes _ Hok), Hfind.
  unfold bookingStatus in Hpaid.
  destruct (findOne (byBookingId (Ticket.bookingId ticket)) (bookings st)) as [b|];
    [|discriminate].
  simpl in Hpaid. injection Hpaid as ->. cbn [BookingStatus_eqb negb].
  rewrite Hunused, (setHours_midnight now z Hz Hrange Hnow).
  destruct (Day_TimeWithinDay (Ticket.date ticket)) as [Hd _]. rewrite Hmid in Hd.
  set (D := Day (Ticket.date ticket)) in *. set (L := Day (now + z)).
  assert (Hexp : (Ticket.date ticket <? L * msPerDay - z)
                 = (if 0 <=? z then D <? L else D <=? L)).
  { rewrite Hd. unfold msPerDay in *.
    destruct (0 <=? z) eqn:Ez; [apply Z.leb_le in Ez|apply Z.leb_gt in Ez].
    - destruct (D <? L) eqn:E; [apply Z.ltb_lt in E; apply Z.ltb_lt
                               |apply Z.ltb_ge in E; apply Z.ltb_ge]; lia.
    - destruct (D <=? L) eqn:E; [apply Z.leb_le in E; apply Z.ltb_lt
                                |apply Z.leb_gt in E; apply Z.ltb_ge]; lia. }
  now rewrite Hexp.
Qed.

(** The sample host is two hours east of UTC: at boarding on 2025-06-10 the
    sample ticket for that day is valid. *)
Lemma validateQRCode_expiry_witness :
  validateQRCode (H := Sample.host) Sample.boarding Sample.qrToken Sample.paidStore
  = ValidReport Sample.ticket.
Proof.
  assert (Hz : forall t isUTC, LocalTZA (Host := Sample.host) t isUTC = 7200000)
    by reflexivity.
  assert (Hrange : - msPerDay < 7200000 < msPerDay) by (unfold msPerDay; lia).
  assert (Hnow : - 8640000000000000 + msPerDay <= Sample.boarding <= 8640000000000000)
    by (unfold msPerDay, Sample.boarding; lia).
  assert (Hok : notEmpty Sample.qrToken = true) by (vm_compute; reflexivity).
  assert (Hfind : findOne (byQrToken (Str.trim Sample.qrToken)) (tickets Sample.paidStore)
                  = Some Sample.ticket) by (vm_compute; reflexivity).
  assert (Hpaid : bookingStatus (Ticket.bookingId Sample.ticket) Sample.paidStore
                  = Some paid) by (vm_compute; reflexivity).
  assert (Hunused : Ticket.isUsed Sample.ticket = false) by reflexivity.
  assert (Hmid : TimeWithinDay (Ticket.date Sample.ticket) = 0)
    by (vm_compute; reflexivity).
  pose proof (validateQRCode_expiry (H := Sample.host) Sample.boarding 7200000
                Sample.qrToken Sample.paidStore Sample.ticket
                Hz Hrange Hnow Hok Hfind Hpaid Hunused Hmid) as Hv.
  assert (Hc : (if 0 <=? 7200000
                then Day (Ticket.date Sample.ticket) <? Day (Sample.boarding + 7200000)
                else Day (Ticket.date Sample.ticket) <=? Day (Sample.boarding + 7200000))
               = false) by (vm_compute; reflexivity).
  rewrite Hc in Hv. exact Hv.
Defined.
